(** * AirwaySegmentation: a shallow embedding of the scripted module

    The module under study (AirwaySegmentation/AirwaySegmentation.py) is glue
    code between the 3D Slicer scene graph, the DICOM database, and the
    external executable [airwaysegmentationcli].  This development embeds

    - the module logic ([convolutionKernelFromVolumeNode], [process]),
    - the widget's parameter synchronisation ([updateGUIFromParameterNode],
      [updateParameterNodeFromGUI], [setParameterNode], ...),
    - the acceptance test ([test_AirwaySegmentation1]),

    over an explicit model of the MRML scene.  Python statements become
    computations in a state-and-exception monad whose state survives a raised
    exception, so that "what had already happened when it raised" can be
    stated.  Everything the host application or the executable decides
    (DICOM look-ups, the label image the executable writes, how a label image
    is cut into segments, segment centres, the text of an exception, whether
    the application runs in testing mode) is a parameter of the development. *)

From Stdlib Require Import ZArith String Ascii List Bool Floats Lia.
From stdpp Require Import base option list strings gmap.

Set Warnings "-inexact-float".

Open Scope string_scope.
Open Scope list_scope.

(** ** Python values *)

(** The values that the module stores in the parameter dictionary: a [str],
    an [int], and a [str] that is the ID of an MRML node. *)
Inductive PyValue : Type :=
  | PyStr (s : string)
  | PyInt (z : Z)
  | PyNodeID (id : nat).

(** The exceptions that the modelled statements can raise. *)
Inductive PyException : Type :=
  | ValueError (msg : string)
  | IndexError
  | AttributeError
  | AssertionError
  | RecursionError.

(** Truth value of an [Optional[str]]: [None] and [''] are falsy. *)
Definition truthy (o : option string) : bool :=
  match o with
  | Some (String _ _) => true
  | _ => false
  end.

(** A [str] is represented by its UTF-8 encoding, which is what a string
    literal of this file holds: one [ascii] for each byte.

    [spaceLength s] is the number of bytes of the white-space character that
    [s] starts with, and 0 when it starts with none.  The white space of
    [str.isspace], at which [str.split()] separates, is U+0009 to U+000D,
    U+001C to U+0020, U+0085, U+00A0, U+1680, U+2000 to U+200A, U+2028,
    U+2029, U+202F, U+205F and U+3000. *)
Definition spaceLength (s : string) : nat :=
  match s with
  | EmptyString => 0
  | String c1 r1 =>
      let b1 := nat_of_ascii c1 in
      if (Nat.leb 9 b1 && Nat.leb b1 13) || (Nat.leb 28 b1 && Nat.leb b1 32) then 1
      else
        match r1 with
        | EmptyString => 0
        | String c2 r2 =>
            let b2 := nat_of_ascii c2 in
            if Nat.eqb b1 194 && (Nat.eqb b2 133 || Nat.eqb b2 160) then 2
            else
              match r2 with
              | EmptyString => 0
              | String c3 _ =>
                  let b3 := nat_of_ascii c3 in
                  if (Nat.eqb b1 225 && Nat.eqb b2 154 && Nat.eqb b3 128)
                     || (Nat.eqb b1 226 && Nat.eqb b2 128
                         && ((Nat.leb 128 b3 && Nat.leb b3 138)
                             || Nat.eqb b3 168 || Nat.eqb b3 169 || Nat.eqb b3 175))
                     || (Nat.eqb b1 226 && Nat.eqb b2 129 && Nat.eqb b3 159)
                     || (Nat.eqb b1 227 && Nat.eqb b2 128 && Nat.eqb b3 128)
                  then 3 else 0
              end
        end
  end.

(** [str.split()] without a separator: the maximal runs of characters that
    are not white space.  [tok] is the token under construction, if one has
    been started, and [skip] the number of bytes still to pass of the
    white-space character being read. *)
Fixpoint split_from (skip : nat) (tok : option string) (s : string) : list string :=
  match s with
  | EmptyString =>
      match tok with
      | Some t => [t]
      | None => []
      end
  | String c rest =>
      match skip with
      | S k => split_from k tok rest
      | 0 =>
          match spaceLength s with
          | S k =>
              match tok with
              | Some t => t :: split_from k None rest
              | None => split_from k None rest
              end
          | 0 => split_from 0 (Some (String.append (default "" tok) (String c ""))) rest
          end
      end
  end.

Definition split (s : string) : list string := split_from 0 None s.

(** ** The MRML scene *)

Definition Point : Type := float * float * float.

Record Segment : Type := mkSegment {
  segmentName : string;
  segmentTags : gmap string string;
}.

(** One record for every node class; a field that a class does not have stays
    at its default.  [superclasses] are the classes that the node's class
    derives from, which [IsA] consults.  [references] are the node references
    by role; a displayable node refers to its display node, a node of the
    scene of its own, under the role ["display"].  [disableModifiedEvent] and
    [modifiedEventPending] are the bookkeeping of [StartModify] and
    [EndModify].  [colorNodeID] is the colour node of a display node. *)
Record Node : Type := mkNode {
  className : string;
  superclasses : list string;
  attributes : gmap string string;
  references : gmap string nat;
  disableModifiedEvent : bool;
  modifiedEventPending : nat;
  colorNodeID : option string;
  image : list Z;
  segments : list (string * Segment);
  conversionParameters : gmap string string;
  controlPoints : list Point;
}.

(** MRML identifies a node of the scene by a unique ID string, the class name
    followed by a counter.  The module never inspects that string: it obtains
    it with [GetID] and hands it back to the host.  An ID is therefore modelled
    by the counter alone, and a node object by its ID.  The scene lists its
    nodes in insertion order. *)
Definition NodeID : Type := nat.
Definition Scene : Type := list (NodeID * Node).

Definition Parameters : Type := list (string * PyValue).

(** What the module does to the world outside the scene, in the order it
    happens: records sent to the Python log, queries to the DICOM database,
    runs of the external executable and error boxes shown to the user. *)
Inductive Event : Type :=
  | LogInfo (msg : string)
  | LogWarning (msg : string)
  | FileForInstance (uid : string)
  | FileValue (fileName tag : string)
  | CliRun (parameters : Parameters)
  | LogError (msg : string)
  | ErrorDisplay (msg : string).

(** The state of an [AirwaySegmentationWidget] instance: its two private
    attributes, the nodes whose [ModifiedEvent] it observes with
    [updateGUIFromParameterNode], whether its module is the one shown
    ([self.parent.isEntered]), and the widgets of [self.ui]: the current node
    of each selector and the Apply button. *)
Record Widget : Type := mkWidget {
  _parameterNode : option NodeID;
  _updatingGUIFromParameterNode : bool;
  observations : list NodeID;
  isEntered : bool;
  inputVolumeSelector : option NodeID;
  inputSeedSelector : option NodeID;
  outputSegmentationSelector : option NodeID;
  applyButton_enabled : bool;
  applyButton_toolTip : string;
}.

(** The application state: the scene, the events so far (most recent last)
    and the module widget.  The logic class never touches the widget. *)
Record World : Type := mkWorld {
  scene : Scene;
  trace : list Event;
  self : Widget;
}.

Definition set_scene (f : Scene -> Scene) (w : World) : World :=
  mkWorld (f (scene w)) (trace w) (self w).

Definition set_self (f : Widget -> Widget) (w : World) : World :=
  mkWorld (scene w) (trace w) (f (self w)).

Definition emit (e : Event) (w : World) : World :=
  mkWorld (scene w) (trace w ++ [e]) (self w).

(** The runs of the executable among some events, oldest first. *)
Definition cliRuns (t : list Event) : list Parameters :=
  omap (fun e => match e with CliRun p => Some p | _ => None end) t.

Definition lookupNode (sc : Scene) (r : NodeID) : option Node :=
  snd <$> List.find (fun e => Nat.eqb (fst e) r) sc.

Definition updateNode (r : NodeID) (f : Node -> Node) (sc : Scene) : Scene :=
  map (fun e => if Nat.eqb (fst e) r then (fst e, f (snd e)) else e) sc.

Definition removeNode (r : NodeID) (sc : Scene) : Scene :=
  List.filter (fun e => negb (Nat.eqb (fst e) r)) sc.

(** An ID that no node of the scene has. *)
Definition freshRef (sc : Scene) : NodeID :=
  S (foldr Nat.max 0 (map fst sc)).

Definition sceneIDs (sc : Scene) : list NodeID := map fst sc.

(** The classes that the classes instantiated by the module and by its test
    derive from, nearest first. *)
Definition superclassesOf (cls : string) : list string :=
  let displayable := ["vtkMRMLDisplayableNode"; "vtkMRMLTransformableNode";
                      "vtkMRMLStorableNode"; "vtkMRMLNode"] in
  if String.eqb cls "vtkMRMLScalarVolumeNode" then
    "vtkMRMLVolumeNode" :: displayable
  else if String.eqb cls "vtkMRMLLabelMapVolumeNode" then
    "vtkMRMLScalarVolumeNode" :: "vtkMRMLVolumeNode" :: displayable
  else if String.eqb cls "vtkMRMLMarkupsFiducialNode" then
    "vtkMRMLMarkupsNode" :: displayable
  else if String.eqb cls "vtkMRMLSegmentationNode" then
    displayable
  else if String.eqb cls "vtkMRMLLabelMapVolumeDisplayNode" then
    ["vtkMRMLVolumeDisplayNode"; "vtkMRMLDisplayNode"; "vtkMRMLNode"]
  else if String.eqb cls "vtkMRMLSegmentationDisplayNode" then
    ["vtkMRMLDisplayNode"; "vtkMRMLNode"]
  else
    ["vtkMRMLNode"].

(** The node that the scene makes for a class name. *)
Definition newNode (cls : string) : Node :=
  mkNode cls (superclassesOf cls) ∅ ∅ false 0 None [] [] ∅ [].

(** [node.IsA(cls)]. *)
Definition isA (n : Node) (cls : string) : bool :=
  String.eqb (className n) cls || existsb (String.eqb cls) (superclasses n).

Definition with_attributes (a : gmap string string) (n : Node) : Node :=
  mkNode (className n) (superclasses n) a (references n)
         (disableModifiedEvent n) (modifiedEventPending n) (colorNodeID n)
         (image n) (segments n) (conversionParameters n) (controlPoints n).

Definition with_references (r : gmap string nat) (n : Node) : Node :=
  mkNode (className n) (superclasses n) (attributes n) r
         (disableModifiedEvent n) (modifiedEventPending n) (colorNodeID n)
         (image n) (segments n) (conversionParameters n) (controlPoints n).

Definition with_colorNodeID (c : option string) (n : Node) : Node :=
  mkNode (className n) (superclasses n) (attributes n) (references n)
         (disableModifiedEvent n) (modifiedEventPending n) c
         (image n) (segments n) (conversionParameters n) (controlPoints n).

Definition with_image (i : list Z) (n : Node) : Node :=
  mkNode (className n) (superclasses n) (attributes n) (references n)
         (disableModifiedEvent n) (modifiedEventPending n) (colorNodeID n)
         i (segments n) (conversionParameters n) (controlPoints n).

Definition with_segments (s : list (string * Segment)) (n : Node) : Node :=
  mkNode (className n) (superclasses n) (attributes n) (references n)
         (disableModifiedEvent n) (modifiedEventPending n) (colorNodeID n)
         (image n) s (conversionParameters n) (controlPoints n).

Definition with_conversionParameters (c : gmap string string) (n : Node) : Node :=
  mkNode (className n) (superclasses n) (attributes n) (references n)
         (disableModifiedEvent n) (modifiedEventPending n) (colorNodeID n)
         (image n) (segments n) c (controlPoints n).

Definition with_modifiedEvent (disabled : bool) (pending : nat) (n : Node) : Node :=
  mkNode (className n) (superclasses n) (attributes n) (references n) disabled pending
         (colorNodeID n)
         (image n) (segments n) (conversionParameters n) (controlPoints n).

Definition with_controlPoints (p : list Point) (n : Node) : Node :=
  mkNode (className n) (superclasses n) (attributes n) (references n)
         (disableModifiedEvent n) (modifiedEventPending n) (colorNodeID n)
         (image n) (segments n) (conversionParameters n) p.

(** The change that [SetNodeReferenceID(role, id)] makes to a node. *)
Definition setReference (role : string) (id : option NodeID) (n : Node) : Node :=
  with_references match id with
                  | Some i => <[role := i]> (references n)
                  | None => delete role (references n)
                  end n.

Definition member (x : NodeID) (l : list NodeID) : bool := existsb (Nat.eqb x) l.

(** The node that [node] refers to under [role], when the scene holds it. *)
Definition nodeReference (sc : Scene) (node : NodeID) (role : string) : option NodeID :=
  n ← lookupNode sc node;
  r ← references n !! role;
  if member r (sceneIDs sc) then Some r else None.

(** [node.GetDisplayNode()]: the node referred to under ["display"], when it
    is a display node. *)
Definition displayNodeOf (sc : Scene) (node : NodeID) : option NodeID :=
  d ← nodeReference sc node "display";
  n ← lookupNode sc d;
  if isA n "vtkMRMLDisplayNode" then Some d else None.

(** ** Computations: state threaded through, exceptions propagate *)

Inductive Result (A : Type) : Type :=
  | Ok (a : A)
  | Raise (e : PyException).
Arguments Ok {A} a.
Arguments Raise {A} e.

Definition M (A : Type) : Type := World -> Result A * World.

Definition ret {A : Type} (a : A) : M A := fun w => (Ok a, w).

Definition bind {A B : Type} (m : M A) (k : A -> M B) : M B :=
  fun w =>
    match m w with
    | (Ok a, w') => k a w'
    | (Raise e, w') => (Raise e, w')
    end.

Definition raise {A : Type} (e : PyException) : M A := fun w => (Raise e, w).

Definition get : M World := fun w => (Ok w, w).

Definition modify (f : World -> World) : M unit := fun w => (Ok tt, f w).

(** The computations use stdpp's monad notation: [x ← m; k] and [m;; k]. *)
#[global] Instance M_ret : MRet M := @ret.
#[global] Instance M_bind : MBind M := fun A B k m => bind m k.
#[global] Typeclasses Opaque M.

(** ** The host application *)

(** What the host application and the external executable decide; the module
    only passes it on. *)
Record Host : Type := mkHost {
  (** the DICOM database: [slicer.dicomDatabase.fileForInstance] and
      [slicer.dicomDatabase.fileValue] *)
  fileForInstance : string -> string;
  fileValue : string -> string -> string;
  (** the external executable: the label image it writes, from its
      parameters and the scene it runs on *)
  airwaysegmentationcli : Parameters -> Scene -> list Z;
  (** the host's label-map import: the segments (ID and content) that a
      label image is cut into *)
  labelmapSegments : list Z -> list (string * Segment);
  (** [vtkSegment.GetTerminologyEntryTagName()] *)
  terminologyEntryTagName : string;
  (** the text of [stopTime-startTime] formatted with [:.2f] *)
  elapsed : string;
  (** the voxels of the sample data set [CTChest] *)
  CTChest : list Z;
  (** [segmentationNode.GetSegmentCenter(segmentId)], from the node's content *)
  segmentCenterOf : Node -> string -> Point;
  (** whether [slicer.mrmlScene.RemoveNode] removes the display node of a
      node together with the node *)
  displayNodesRemovedWithNode : bool;
  (** [slicer.app.testingEnabled()] *)
  testingEnabled : bool;
  (** [str(e)] of an exception whose text Python or the host words *)
  exceptionText : PyException -> string;
}.

(** ** Host operations used by the module *)

Definition logging_info (msg : string) : M unit := modify (emit (LogInfo msg)).

Definition logging_warning (msg : string) : M unit := modify (emit (LogWarning msg)).

(** [node.GetAttribute(name)]: [None] when the attribute is not set. *)
Definition GetAttribute (node : NodeID) (name : string) : M (option string) :=
  w ← get;
  mret (n ← lookupNode (scene w) node; attributes n !! name).

(** [slicer.mrmlScene.AddNewNodeByClass(cls)]. *)
Definition AddNewNodeByClass (cls : string) : M NodeID :=
  w ← get;
  let id := freshRef (scene w) in
  modify (set_scene (fun sc => sc ++ [(id, newNode cls)]));;
  mret id.

(** [slicer.mrmlScene.RemoveNode(node)]; where the host says so, the display
    node of the node goes with it. *)
Definition RemoveNode (host : Host) (node : NodeID) : M unit :=
  w ← get;
  match displayNodeOf (scene w) node with
  | Some d =>
      if displayNodesRemovedWithNode host then modify (set_scene (removeNode d))
      else mret tt
  | None => mret tt
  end;;
  modify (set_scene (removeNode node)).

(** The class of the display node of a node of class [cls]; the module has
    display nodes made for label maps and segmentations only. *)
Definition displayClass (cls : string) : string :=
  if String.eqb cls "vtkMRMLLabelMapVolumeNode" then "vtkMRMLLabelMapVolumeDisplayNode"
  else if String.eqb cls "vtkMRMLSegmentationNode" then "vtkMRMLSegmentationDisplayNode"
  else "vtkMRMLDisplayNode".

(** [node.CreateDefaultDisplayNodes()]: unless the node has a display node,
    one is added to the scene and the node is made to refer to it. *)
Definition CreateDefaultDisplayNodes (node : NodeID) : M unit :=
  w ← get;
  match lookupNode (scene w) node, displayNodeOf (scene w) node with
  | Some n, None =>
      d ← AddNewNodeByClass (displayClass (className n));
      modify (set_scene (updateNode node (setReference "display" (Some d))))
  | _, _ => mret tt
  end.

(** [node.GetDisplayNode().SetAndObserveColorNodeID(id)]; a node without a
    display node gives [None], on which the method call fails. *)
Definition GetDisplayNode_SetAndObserveColorNodeID (node : NodeID) (color : string) : M unit :=
  w ← get;
  match displayNodeOf (scene w) node with
  | Some d => modify (set_scene (updateNode d (with_colorNodeID (Some color))))
  | None => raise AttributeError
  end.

Definition segmentationClass : string := "vtkMRMLSegmentationNode".

(** [node.GetSegmentation()]: only segmentation nodes have the method. *)
Definition GetSegmentation (node : NodeID) : M (list (string * Segment)) :=
  w ← get;
  match lookupNode (scene w) node with
  | Some n =>
      if String.eqb (className n) segmentationClass then mret (segments n)
      else raise AttributeError
  | None => raise AttributeError
  end.

(** [node.GetSegmentation().RemoveAllSegments()]. *)
Definition RemoveAllSegments (node : NodeID) : M unit :=
  GetSegmentation node;;
  modify (set_scene (updateNode node (with_segments []))).

(** [node.GetSegmentation().SetConversionParameter(name, value)]. *)
Definition SetConversionParameter (node : NodeID) (name value : string) : M unit :=
  GetSegmentation node;;
  modify (set_scene (updateNode node (fun n =>
    with_conversionParameters (<[name := value]> (conversionParameters n)) n))).

(** [node.GetSegmentation().GetNthSegmentID(i)]: the empty string when there
    is no such segment. *)
Definition GetNthSegmentID (node : NodeID) (i : nat) : M string :=
  segs ← GetSegmentation node;
  mret (default "" (fst <$> segs !! i)).

(** [node.GetSegmentation().GetSegment(segmentId)]: [None] for an unknown ID. *)
Definition GetSegment (node : NodeID) (segmentId : string) : M (option Segment) :=
  segs ← GetSegmentation node;
  mret (snd <$> List.find (fun e => String.eqb (fst e) segmentId) segs).

Fixpoint setTagIn (segmentId name value : string) (segs : list (string * Segment))
  : list (string * Segment) :=
  match segs with
  | [] => []
  | (i, sg) :: rest =>
      if String.eqb i segmentId
      then (i, mkSegment (segmentName sg) (<[name := value]> (segmentTags sg))) :: rest
      else (i, sg) :: setTagIn segmentId name value rest
  end.

(** [segment.SetTag(name, value)] on the segment that [GetSegment] returned
    for [segmentId] in [node]; the method call fails on [None]. *)
Definition SetTag (node : NodeID) (segmentId : string) (segment : option Segment)
    (name value : string) : M unit :=
  match segment with
  | Some _ => modify (set_scene (updateNode node (fun n =>
                with_segments (setTagIn segmentId name value (segments n)) n)))
  | None => raise AttributeError
  end.

(** [l[0]]. *)
Definition item0 {A : Type} (l : list A) : M A :=
  match l with
  | x :: _ => mret x
  | [] => raise IndexError
  end.

(** [parameters[key]] of a dictionary given as its items. *)
Definition dictGet (key : string) (d : Parameters) : option PyValue :=
  snd <$> List.find (fun e => String.eqb (fst e) key) d.

(** ** AirwaySegmentationLogic *)

Section Logic.

Variable host : Host.

Definition dicomFileForInstance (uid : string) : M string :=
  modify (emit (FileForInstance uid));;
  mret (fileForInstance host uid).

Definition dicomFileValue (fileName tag : string) : M string :=
  modify (emit (FileValue fileName tag));;
  mret (fileValue host fileName tag).

(** [slicer.cli.run(slicer.modules.airwaysegmentationcli, None, parameters,
    wait_for_completion=True)]: a command-line-module node is added to the
    scene, the executable runs to completion and its output image is stored
    in the node that [parameters["label"]] names; the module node is
    returned. *)
Definition cli_run (parameters : Parameters) : M NodeID :=
  cliNode ← AddNewNodeByClass "vtkMRMLCommandLineModuleNode";
  modify (emit (CliRun parameters));;
  w ← get;
  match dictGet "label" parameters with
  | Some (PyNodeID out) =>
      modify (set_scene (updateNode out
                (with_image (airwaysegmentationcli host parameters (scene w)))))
  | _ => mret tt
  end;;
  mret cliNode.

(** [slicer.modules.segmentations.logic().ImportLabelmapToSegmentationNode(
    labelmap, segmentation)]: the segments of the label image are added to
    those the segmentation node has, and a segmentation node without a
    display node is given one. *)
Definition ImportLabelmapToSegmentationNode (labelmap segmentation : NodeID) : M unit :=
  w ← get;
  let img := default [] (image <$> lookupNode (scene w) labelmap) in
  modify (set_scene (updateNode segmentation (fun n =>
    with_segments (segments n ++ labelmapSegments host img) n)));;
  CreateDefaultDisplayNodes segmentation.

Definition convolutionKernelFromVolumeNode (inputVolume : NodeID) : M (option string) :=
  instUIDs ← GetAttribute inputVolume "DICOM.instanceUIDs";
  if truthy instUIDs then
    uid ← item0 (split (default "" instUIDs));
    fileName ← dicomFileForInstance uid;
    convolutionKernel ← dicomFileValue fileName "0018,1210";
    mret (Some convolutionKernel)
  else
    mret None.

Definition invalidInputMessage : string :=
  "Input volume or seed or output segmentation is invalid".

Definition unknownKernelMessage : string :=
  "Convolution kernel is unknown, STANDARD will be used.".

Definition tracheaTerminology : string :=
  "Segmentation category and type - 3D Slicer General Anatomy list"
  ++ "~SCT^123037004^Anatomical Structure"
  ++ "~SCT^44567001^Trachea"
  ++ "~^^"
  ++ "~Anatomic codes - DICOM master list"
  ++ "~^^"
  ++ "~^^".

Definition labelValue : Z := 170.

(** The dictionary literal of [process]. *)
Definition parameters (inputVolume : NodeID) (convolutionKernel : string)
    (tmpLabelVolume inputSeed : NodeID) : Parameters :=
  [ ("inputVolume", PyNodeID inputVolume);
    ("reconstructionKernelType", PyStr convolutionKernel);
    ("label", PyNodeID tmpLabelVolume);
    ("seed", PyNodeID inputSeed);
    ("labelValue", PyInt labelValue) ].

Definition process (inputVolume inputSeed outputSegmentation : option NodeID) : M unit :=
  match inputVolume, inputSeed, outputSegmentation with
  | Some inputVolume, Some inputSeed, Some outputSegmentation =>
      logging_info "Processing started";;
      (* Get convolution kernel *)
      convolutionKernel ← convolutionKernelFromVolumeNode inputVolume;
      convolutionKernel ←
        (if truthy convolutionKernel then mret (default "" convolutionKernel)
         else logging_warning unknownKernelMessage;; mret "STANDARD");
      (* Compute the segmentation *)
      tmpLabelVolume ← AddNewNodeByClass "vtkMRMLLabelMapVolumeNode";
      CreateDefaultDisplayNodes tmpLabelVolume;;
      GetDisplayNode_SetAndObserveColorNodeID tmpLabelVolume
        "vtkMRMLColorTableNodeFileGenericAnatomyColors.txt";;
      cliNode ← cli_run (parameters inputVolume convolutionKernel tmpLabelVolume inputSeed);
      RemoveNode host cliNode;;
      (* Convert result to segmentation node *)
      RemoveAllSegments outputSegmentation;;
      ImportLabelmapToSegmentationNode tmpLabelVolume outputSegmentation;;
      SetConversionParameter outputSegmentation "Smoothing factor" "0.2";;
      segmentId ← GetNthSegmentID outputSegmentation 0;
      segment ← GetSegment outputSegmentation segmentId;
      SetTag outputSegmentation segmentId segment (terminologyEntryTagName host)
        tracheaTerminology;;
      RemoveNode host tmpLabelVolume;;
      logging_info ("Processing completed in " ++ elapsed host ++ " seconds")
  | _, _, _ => raise (ValueError invalidInputMessage)
  end.

(** [AirwaySegmentationLogic.show3D]: builds the closed-surface
    representation and turns the 3D view; neither is part of the state
    modelled here. *)
Definition show3D (segmentationNode : NodeID) : M unit := mret tt.

End Logic.

(** ** AirwaySegmentationWidget *)

Definition with_parameterNode (p : option NodeID) (g : Widget) : Widget :=
  mkWidget p (_updatingGUIFromParameterNode g) (observations g) (isEntered g)
           (inputVolumeSelector g) (inputSeedSelector g) (outputSegmentationSelector g)
           (applyButton_enabled g) (applyButton_toolTip g).

Definition with_updatingGUIFromParameterNode (b : bool) (g : Widget) : Widget :=
  mkWidget (_parameterNode g) b (observations g) (isEntered g)
           (inputVolumeSelector g) (inputSeedSelector g) (outputSegmentationSelector g)
           (applyButton_enabled g) (applyButton_toolTip g).

Definition with_observations (o : list NodeID) (g : Widget) : Widget :=
  mkWidget (_parameterNode g) (_updatingGUIFromParameterNode g) o (isEntered g)
           (inputVolumeSelector g) (inputSeedSelector g) (outputSegmentationSelector g)
           (applyButton_enabled g) (applyButton_toolTip g).

Definition with_applyButton (enabled : bool) (toolTip : string) (g : Widget) : Widget :=
  mkWidget (_parameterNode g) (_updatingGUIFromParameterNode g) (observations g) (isEntered g)
           (inputVolumeSelector g) (inputSeedSelector g) (outputSegmentationSelector g)
           enabled toolTip.

(** The three node selectors of the module panel. *)
Inductive Selector : Type :=
  | selInputVolume
  | selInputSeed
  | selOutputSegmentation.

Definition currentNode (sel : Selector) (g : Widget) : option NodeID :=
  match sel with
  | selInputVolume => inputVolumeSelector g
  | selInputSeed => inputSeedSelector g
  | selOutputSegmentation => outputSegmentationSelector g
  end.

Definition with_currentNode (sel : Selector) (node : option NodeID) (g : Widget) : Widget :=
  match sel with
  | selInputVolume =>
      mkWidget (_parameterNode g) (_updatingGUIFromParameterNode g) (observations g)
               (isEntered g) node (inputSeedSelector g) (outputSegmentationSelector g)
               (applyButton_enabled g) (applyButton_toolTip g)
  | selInputSeed =>
      mkWidget (_parameterNode g) (_updatingGUIFromParameterNode g) (observations g)
               (isEntered g) (inputVolumeSelector g) node (outputSegmentationSelector g)
               (applyButton_enabled g) (applyButton_toolTip g)
  | selOutputSegmentation =>
      mkWidget (_parameterNode g) (_updatingGUIFromParameterNode g) (observations g)
               (isEntered g) (inputVolumeSelector g) (inputSeedSelector g) node
               (applyButton_enabled g) (applyButton_toolTip g)
  end.

Definition sameNode (a b : option NodeID) : bool :=
  match a, b with
  | Some x, Some y => Nat.eqb x y
  | None, None => true
  | _, _ => false
  end.

(** [node.GetNodeReference(role)]. *)
Definition GetNodeReference (node : NodeID) (role : string) : M (option NodeID) :=
  w ← get;
  mret (nodeReference (scene w) node role).

(** [slicer.mrmlScene.GetFirstNodeByClass(cls)]: the first node of the scene
    that is of the class [cls] or of a class derived from it. *)
Definition GetFirstNodeByClass (cls : string) : M (option NodeID) :=
  w ← get;
  mret (fst <$> List.find (fun e => isA (snd e) cls) (scene w)).

Definition moduleName : string := "AirwaySegmentation".

(** [ScriptedLoadableModuleLogic.getParameterNode()]: the module's parameter
    node, made on first use. *)
Definition getParameterNode : M NodeID :=
  w ← get;
  match List.find (fun e => String.eqb (className (snd e)) "vtkMRMLScriptedModuleNode"
                            && bool_decide (attributes (snd e) !! "ModuleName" = Some moduleName))
                  (scene w) with
  | Some e => mret (fst e)
  | None =>
      p ← AddNewNodeByClass "vtkMRMLScriptedModuleNode";
      modify (set_scene (updateNode p (with_attributes {["ModuleName" := moduleName]})));;
      mret p
  end.

(** [AirwaySegmentationLogic.setDefaultParameters]: [pass]. *)
Definition setDefaultParameters (parameterNode : NodeID) : M unit := mret tt.

(** [VTKObservationMixin.addObserver] and [removeObserver] for the pair
    ([ModifiedEvent], [updateGUIFromParameterNode]). *)
Definition addObserver (node : NodeID) : M unit :=
  modify (set_self (fun g =>
    if member node (observations g) then g
    else with_observations (observations g ++ [node]) g)).

Definition removeObserver (node : option NodeID) : M unit :=
  match node with
  | Some n =>
      modify (set_self (fun g =>
        with_observations (List.filter (fun x => negb (Nat.eqb x n)) (observations g)) g))
  | None => mret tt
  end.

(** [self._parameterNode.<method>]: the attribute is read when the statement
    runs, and a method call on [None] fails. *)
Definition on_parameterNode {A : Type} (method : NodeID -> M A) : M A :=
  w ← get;
  match _parameterNode (self w) with
  | Some p => method p
  | None => raise AttributeError
  end.

(** The methods that signals and events are connected to: the observer of the
    parameter node's [ModifiedEvent] and the slot of [currentNodeChanged]. *)
Record Slots : Type := mkSlots {
  onModified : M unit;
  onCurrentNodeChanged : M unit;
}.

Section Widget.

(** What a signal or an event invokes from inside a running method. *)
Variable slots : Slots.

Definition InvokeModifiedEvent (node : NodeID) : M unit :=
  w ← get;
  if member node (observations (self w)) then onModified slots else mret tt.

(** [node.Modified()]: counted while modified events are disabled. *)
Definition Modified (node : NodeID) : M unit :=
  w ← get;
  match lookupNode (scene w) node with
  | Some n =>
      if disableModifiedEvent n then
        modify (set_scene (updateNode node
                  (with_modifiedEvent true (S (modifiedEventPending n)))))
      else InvokeModifiedEvent node
  | None => mret tt
  end.

(** [node.StartModify()]: disables modified events, returns the old setting. *)
Definition StartModify (node : NodeID) : M bool :=
  w ← get;
  match lookupNode (scene w) node with
  | Some n =>
      modify (set_scene (updateNode node (with_modifiedEvent true (modifiedEventPending n))));;
      mret (disableModifiedEvent n)
  | None => mret false
  end.

(** [node.EndModify(wasModified)]: restores the setting and, when events are
    enabled again, sends the pending modified event. *)
Definition EndModify (node : NodeID) (wasModified : bool) : M unit :=
  w ← get;
  match lookupNode (scene w) node with
  | Some n =>
      if wasModified then
        modify (set_scene (updateNode node (with_modifiedEvent true (modifiedEventPending n))))
      else if Nat.eqb (modifiedEventPending n) 0 then
        modify (set_scene (updateNode node (with_modifiedEvent false 0)))
      else
        modify (set_scene (updateNode node (with_modifiedEvent false 0)));;
        InvokeModifiedEvent node
  | None => mret tt
  end.

(** [node.SetNodeReferenceID(role, id)]; the empty ID of a selector without
    a current node ([None] here) removes the reference.  The node is
    modified only when the reference changes. *)
Definition SetNodeReferenceID (node : NodeID) (role : string) (id : option NodeID) : M unit :=
  w ← get;
  match lookupNode (scene w) node with
  | Some n =>
      if sameNode (references n !! role) id then mret tt
      else
        modify (set_scene (updateNode node (setReference role id)));;
        Modified node
  | None => mret tt
  end.

(** [selector.setCurrentNode(node)]: [currentNodeChanged] is emitted when the
    current node changes; the module connects the signal of the input
    volume and input seed selectors, and of no other. *)
Definition setCurrentNode (sel : Selector) (node : option NodeID) : M unit :=
  w ← get;
  if sameNode (currentNode sel (self w)) node then mret tt
  else
    modify (set_self (with_currentNode sel node));;
    match sel with
    | selInputVolume | selInputSeed => onCurrentNodeChanged slots
    | selOutputSegmentation => mret tt
    end.

Definition updateGUIFromParameterNode_body : M unit :=
  w ← get;
  if bool_decide (_parameterNode (self w) = None) || _updatingGUIFromParameterNode (self w)
  then mret tt
  else
    (* Make sure GUI changes do not call updateParameterNodeFromGUI *)
    modify (set_self (with_updatingGUIFromParameterNode true));;
    (* Update node selectors and sliders *)
    r ← on_parameterNode (fun p => GetNodeReference p "InputVolume");
    setCurrentNode selInputVolume r;;
    r ← on_parameterNode (fun p => GetNodeReference p "InputSeed");
    setCurrentNode selInputSeed r;;
    r ← on_parameterNode (fun p => GetNodeReference p "OutputSegmentation");
    setCurrentNode selOutputSegmentation r;;
    (* Update buttons states and tooltips *)
    v ← on_parameterNode (fun p => GetNodeReference p "InputVolume");
    s ← match v with
        | Some _ => on_parameterNode (fun p => GetNodeReference p "InputSeed")
        | None => mret None
        end;
    match v, s with
    | Some _, Some _ =>
        modify (set_self (with_applyButton true "Compute airway segmentation"))
    | _, _ =>
        modify (set_self (with_applyButton false "Select input CT volume and seed point"))
    end;;
    (* All the GUI updates are done *)
    modify (set_self (with_updatingGUIFromParameterNode false)).

Definition updateParameterNodeFromGUI_body : M unit :=
  w ← get;
  if bool_decide (_parameterNode (self w) = None) || _updatingGUIFromParameterNode (self w)
  then mret tt
  else
    wasModified ← on_parameterNode StartModify;
    w ← get;
    on_parameterNode (fun p => SetNodeReferenceID p "InputVolume" (inputVolumeSelector (self w)));;
    w ← get;
    on_parameterNode (fun p => SetNodeReferenceID p "InputSeed" (inputSeedSelector (self w)));;
    w ← get;
    on_parameterNode (fun p => SetNodeReferenceID p "OutputVolume" (outputSegmentationSelector (self w)));;
    on_parameterNode (fun p => EndModify p wasModified).

End Widget.

(** A method that a signal or an event invokes runs nested in the method that
    caused it, until Python's recursion limit is hit; [depth] is the number of
    nested method calls still allowed. *)
Fixpoint connections (depth : nat) : Slots :=
  match depth with
  | 0 => mkSlots (raise RecursionError) (raise RecursionError)
  | S d => mkSlots (updateGUIFromParameterNode_body (connections d))
                   (updateParameterNodeFromGUI_body (connections d))
  end.

Definition updateGUIFromParameterNode (depth : nat) : M unit :=
  onModified (connections depth).

Definition updateParameterNodeFromGUI (depth : nat) : M unit :=
  onCurrentNodeChanged (connections depth).

Definition setParameterNode (depth : nat) (inputParameterNode : option NodeID) : M unit :=
  match inputParameterNode with
  | Some p => setDefaultParameters p
  | None => mret tt
  end;;
  w ← get;
  match _parameterNode (self w) with
  | Some old => removeObserver (Some old)
  | None => mret tt
  end;;
  modify (set_self (with_parameterNode inputParameterNode));;
  w ← get;
  match _parameterNode (self w) with
  | Some p => addObserver p
  | None => mret tt
  end;;
  (* Initial GUI update *)
  updateGUIFromParameterNode depth.

(** The default selection of [initializeParameterNode] for one role. *)
Definition selectDefault (depth : nat) (role cls : string) : M unit :=
  r ← on_parameterNode (fun p => GetNodeReference p role);
  match r with
  | Some _ => mret tt
  | None =>
      first ← GetFirstNodeByClass cls;
      match first with
      | Some f => on_parameterNode (fun p => SetNodeReferenceID (connections depth) p role (Some f))
      | None => mret tt
      end
  end.

Definition initializeParameterNode (depth : nat) : M unit :=
  p ← getParameterNode;
  setParameterNode depth (Some p);;
  selectDefault depth "InputVolume" "vtkMRMLScalarVolumeNode";;
  selectDefault depth "InputSeed" "vtkMRMLMarkupsFiducialNode".

Definition enter (depth : nat) : M unit := initializeParameterNode depth.

Definition exit : M unit :=
  w ← get;
  removeObserver (_parameterNode (self w)).

(** [AirwaySegmentationWidget.cleanup]: [self.removeObservers()] removes
    every observation of the widget. *)
Definition cleanup : M unit :=
  modify (set_self (with_observations [])).

Definition onSceneStartClose (depth : nat) : M unit := setParameterNode depth None.

Definition onSceneEndClose (depth : nat) : M unit :=
  w ← get;
  if isEntered (self w) then initializeParameterNode depth else mret tt.

(** The user picks [node] in a selector: the selector changes its current
    node as [setCurrentNode] does. *)
Definition userSelects (depth : nat) (sel : Selector) (node : option NodeID) : M unit :=
  setCurrentNode (connections depth) sel node.

Definition newline : string := String (ascii_of_nat 10) "".

(** [str(e)]. *)
Definition str (host : Host) (e : PyException) : string :=
  match e with
  | ValueError msg => msg
  | IndexError => "list index out of range"
  | _ => exceptionText host e
  end.

(** [slicer.util.errorDisplay(text)]: the text is logged as an error and
    shown in a box. *)
Definition errorDisplay (text : string) : M unit :=
  modify (emit (LogError text));;
  modify (emit (ErrorDisplay text)).

(** [with slicer.util.tryWithErrorDisplay(message): body]: unless the
    application runs in testing mode, an exception of the body is displayed
    as the message, an empty line and the text of the exception; it is raised
    again in either case. *)
Definition tryWithErrorDisplay {A : Type} (host : Host) (message : string) (body : M A)
  : M A :=
  fun w =>
    match body w with
    | (Ok a, w') => (Ok a, w')
    | (Raise e, w') =>
        (Raise e,
         if testingEnabled host then w'
         else snd (errorDisplay (message ++ newline ++ newline ++ str host e) w'))
    end.

Definition confirmMessage : string :=
  "Convolution kernel cannot be determined from the input volume."
  ++ " The current input volume is not loaded from DICOM or the Convolution Kernel (0018,1210) field is missing."
  ++ " Click OK to use STANDARD convolution kernel.".

(** [slicer.util.confirmOkCancelDisplay(text, dontShowAgainSettingsKey=...)]:
    the text is logged, and the result is the user's answer or the stored
    "don't show again" choice, which [userConfirms] stands for. *)
Definition confirmOkCancelDisplay (text : string) (userConfirms : bool) : M bool :=
  logging_info text;;
  mret userConfirms.

(** [onApplyButton]; [userConfirms] is what the confirmation gives when the
    method asks for it. *)
Definition onApplyButton (host : Host) (depth : nat) (userConfirms : bool) : M unit :=
  (* Get convolution kernel *)
  w ← get;
  let inputVolume := inputVolumeSelector (self w) in
  convolutionKernel ←
    match inputVolume with
    | Some v => convolutionKernelFromVolumeNode host v
    | None => raise AttributeError
    end;
  confirmed ←
    (if truthy convolutionKernel then mret true
     else confirmOkCancelDisplay confirmMessage userConfirms);
  if negb confirmed then mret tt
  else
    (* no event is waiting for [slicer.app.processEvents()] here *)
    modify (set_self (fun g => with_applyButton false (applyButton_toolTip g) g));;
    tryWithErrorDisplay host "Failed to compute results."
      (* Create output segmentation node, if not created yet *)
      (w ← get;
       segmentationNode ←
         match outputSegmentationSelector (self w) with
         | Some n => mret n
         | None =>
             n ← AddNewNodeByClass segmentationClass;
             setCurrentNode (connections depth) selOutputSegmentation (Some n);;
             mret n
         end;
       (* Compute output *)
       w ← get;
       process host inputVolume (inputSeedSelector (self w)) (Some segmentationNode);;
       show3D segmentationNode);;
    modify (set_self (fun g => with_applyButton true (applyButton_toolTip g) g)).

(** The entry points through which the application runs the widget. *)
Inductive Handler : Type :=
  | call_updateGUIFromParameterNode
  | call_updateParameterNodeFromGUI
  | call_setParameterNode (inputParameterNode : option NodeID)
  | call_initializeParameterNode
  | call_enter
  | call_exit
  | call_onSceneStartClose
  | call_onSceneEndClose
  | call_onApplyButton (userConfirms : bool)
  | user_selects (sel : Selector) (node : option NodeID).

Definition handle (host : Host) (depth : nat) (h : Handler) : M unit :=
  match h with
  | call_updateGUIFromParameterNode => updateGUIFromParameterNode depth
  | call_updateParameterNodeFromGUI => updateParameterNodeFromGUI depth
  | call_setParameterNode p => setParameterNode depth p
  | call_initializeParameterNode => initializeParameterNode depth
  | call_enter => enter depth
  | call_exit => exit
  | call_onSceneStartClose => onSceneStartClose depth
  | call_onSceneEndClose => onSceneEndClose depth
  | call_onApplyButton userConfirms => onApplyButton host depth userConfirms
  | user_selects sel node => userSelects depth sel node
  end.

(** ** AirwaySegmentationTest *)

(** [numpy.isclose(a, b, rtol, atol)] on binary64 numbers with [b] finite:
    [abs(a - b) <= atol + rtol * abs(b)]. *)
Definition isclose (rtol atol a b : float) : bool :=
  PrimFloat.leb (PrimFloat.abs (PrimFloat.sub a b))
                (PrimFloat.add atol (PrimFloat.mul rtol (PrimFloat.abs b))).

(** [numpy.allclose(a, b, atol=atol)] on two points; [rtol] keeps its default
    [1e-05]. *)
Definition allclose (atol : float) (a b : Point) : bool :=
  let '(ax, ay, az) := a in
  let '(bx, by_, bz) := b in
  isclose 1e-05 atol ax bx && isclose 1e-05 atol ay by_ && isclose 1e-05 atol az bz.

Definition assertEqual (a b : nat) : M unit :=
  if Nat.eqb a b then mret tt else raise AssertionError.

Definition assertTrue (b : bool) : M unit :=
  if b then mret tt else raise AssertionError.

Definition expectedsegmentCenter : Point := ((-5.5)%float, (-5.9)%float, (-100.3)%float).

Section Test.

Variable host : Host.

(** [SampleData.downloadSample('CTChest')]: the sample is read from an
    image file into a new scalar volume node, which has no DICOM
    attributes. *)
Definition downloadSample_CTChest : M NodeID :=
  v ← AddNewNodeByClass "vtkMRMLScalarVolumeNode";
  modify (set_scene (updateNode v (with_image (CTChest host))));;
  mret v.

Definition AddControlPointWorld (node : NodeID) (p : Point) : M unit :=
  modify (set_scene (updateNode node (fun n => with_controlPoints (controlPoints n ++ [p]) n))).

Definition GetNumberOfSegments (node : NodeID) : M nat :=
  segs ← GetSegmentation node;
  mret (length segs).

Definition GetSegmentCenter (node : NodeID) (segmentId : string) : M Point :=
  w ← get;
  match lookupNode (scene w) node with
  | Some n => mret (segmentCenterOf host n segmentId)
  | None => raise AttributeError
  end.

(** [self.delayDisplay(message)]: the message is logged and shown for a
    moment. *)
Definition delayDisplay (message : string) : M unit := logging_info message.

Definition test_AirwaySegmentation1 : M unit :=
  delayDisplay "Starting the test";;
  (* Get/create input data *)
  inputVolumeNode ← downloadSample_CTChest;
  delayDisplay "Loaded test data set";;
  inputSeedNode ← AddNewNodeByClass "vtkMRMLMarkupsFiducialNode";
  AddControlPointWorld inputSeedNode ((-9.8)%float, 3.4%float, (-40.9)%float);;
  outputSegmentationNode ← AddNewNodeByClass segmentationClass;
  (* Test the module logic *)
  delayDisplay "Compute the segmentation";;
  process host (Some inputVolumeNode) (Some inputSeedNode) (Some outputSegmentationNode);;
  show3D outputSegmentationNode;;
  (* Check if there is a segment in the output segmentation *)
  n ← GetNumberOfSegments outputSegmentationNode;
  assertEqual n 1;;
  (* Check if the segment center is at the expected position. *)
  segmentId ← GetNthSegmentID outputSegmentationNode 0;
  segmentCenter ← GetSegmentCenter outputSegmentationNode segmentId;
  assertTrue (allclose 5.0 segmentCenter expectedsegmentCenter);;
  delayDisplay "Test passed".

End Test.

(** ** Notions used to state what [process] does *)

Section Conversion.

Variable host : Host.

(** The temporary label-map node of [process], displayed by the node [d] and
    holding the image [img], and its display node. *)
Definition tmpLabelNode (d : NodeID) (img : list Z) : Node :=
  with_image img (setReference "display" (Some d) (newNode "vtkMRMLLabelMapVolumeNode")).

Definition tmpLabelDisplayNode : Node :=
  with_colorNodeID (Some "vtkMRMLColorTableNodeFileGenericAnatomyColors.txt")
    (newNode "vtkMRMLLabelMapVolumeDisplayNode").

(** The two of them as [process] adds them to a scene whose next free ID is
    [t]. *)
Definition tmpNodes (t : NodeID) (img : list Z) : Scene :=
  [(t, tmpLabelNode (S t) img); (S t, tmpLabelDisplayNode)].

(** The kernel name that [process] passes on for the result [k] of
    [convolutionKernelFromVolumeNode], and the warning it logs. *)
Definition chosenKernel (k : option string) : string :=
  if truthy k then default "" k else "STANDARD".

Definition kernelWarning (k : option string) : list Event :=
  if truthy k then [] else [LogWarning unknownKernelMessage].

(** The scene on which the executable runs when [process] is called on the
    scene [sc]: the temporary label map, its display node and the module
    node of the run have been added. *)
Definition sceneOfRun (sc : Scene) : Scene :=
  sc ++ tmpNodes (freshRef sc) []
     ++ [(S (S (freshRef sc)), newNode "vtkMRMLCommandLineModuleNode")].

(** The label image of that run. *)
Definition labelImage (sc : Scene) (ps : Parameters) : list Z :=
  airwaysegmentationcli host ps (sceneOfRun sc).

(** The last block of [process], "Convert result to segmentation node". *)
Definition convertResult (tmpLabelVolume outputSegmentation : NodeID) : M unit :=
  RemoveAllSegments outputSegmentation;;
  ImportLabelmapToSegmentationNode host tmpLabelVolume outputSegmentation;;
  SetConversionParameter outputSegmentation "Smoothing factor" "0.2";;
  segmentId ← GetNthSegmentID outputSegmentation 0;
  segment ← GetSegment outputSegmentation segmentId;
  SetTag outputSegmentation segmentId segment (terminologyEntryTagName host)
    tracheaTerminology;;
  RemoveNode host tmpLabelVolume;;
  logging_info ("Processing completed in " ++ elapsed host ++ " seconds").

Definition tagTrachea (sg : Segment) : Segment :=
  mkSegment (segmentName sg)
            (<[terminologyEntryTagName host := tracheaTerminology]> (segmentTags sg)).

(** The segments of a label image with the first one tagged. *)
Definition taggedSegments (segs : list (string * Segment)) : list (string * Segment) :=
  match segs with
  | (i, sg) :: rest => (i, tagTrachea sg) :: rest
  | [] => []
  end.

(** What [process] makes of the output segmentation node, from the segments
    [segs] of the label image. *)
Definition converted (segs : list (string * Segment)) (n : Node) : Node :=
  with_segments (taggedSegments segs)
    (with_conversionParameters (<["Smoothing factor" := "0.2"]> (conversionParameters n)) n).

(** Whether the node [o] of the scene [sc] has a display node when the import
    of [process] runs; the scene then holds the temporary nodes as well. *)
Definition hasDisplayNode (sc : Scene) (o : NodeID) : bool :=
  match displayNodeOf (sc ++ tmpNodes (freshRef sc) []) o with
  | Some _ => true
  | None => false
  end.

(** The display node that the import adds for an output segmentation [o]
    without one, and the reference to it that the output gets.  The ID of the
    module node, which has left the scene by then, is free again. *)
Definition outputDisplayNodes (sc : Scene) (o : NodeID) : Scene :=
  if hasDisplayNode sc o then []
  else [(S (S (freshRef sc)), newNode "vtkMRMLSegmentationDisplayNode")].

Definition displayed (sc : Scene) (o : NodeID) (n : Node) : Node :=
  if hasDisplayNode sc o then n
  else setReference "display" (Some (S (S (freshRef sc)))) n.

(** What [RemoveNode] of the temporary label map [t] leaves of the temporary
    nodes. *)
Definition tmpNodesLeft (t : NodeID) : Scene :=
  if displayNodesRemovedWithNode host then [] else [(S t, tmpLabelDisplayNode)].

Definition startedMessage : string := "Processing started".

Definition completedEvent : Event :=
  LogInfo ("Processing completed in " ++ elapsed host ++ " seconds").

(** The DICOM queries that [convolutionKernelFromVolumeNode] makes on a
    volume of the scene [sc]. *)
Definition kernelQueries (sc : Scene) (v : NodeID) : list Event :=
  match lookupNode sc v ≫= (fun n => attributes n !! "DICOM.instanceUIDs") with
  | Some (String c r) =>
      match split (String c r) with
      | uid :: _ => [FileForInstance uid; FileValue (fileForInstance host uid) "0018,1210"]
      | [] => []
      end
  | _ => []
  end.

(** The scene that [test_AirwaySegmentation1] hands to [process], from the
    scene [sc] it starts on. *)
Definition sceneOfTest (sc : Scene) : Scene :=
  let v := freshRef sc in
  sc ++ [(v, with_image (CTChest host) (newNode "vtkMRMLScalarVolumeNode"))]
     ++ [(S v, with_controlPoints [((-9.8)%float, 3.4%float, (-40.9)%float)]
                 (newNode "vtkMRMLMarkupsFiducialNode"))]
     ++ [(S (S v), newNode segmentationClass)].

End Conversion.

Definition isSegmentationNode (sc : Scene) (o : NodeID) : bool :=
  match lookupNode sc o with
  | Some n => String.eqb (className n) segmentationClass
  | None => false
  end.

Definition segmentsOf (sc : Scene) (o : NodeID) : list (string * Segment) :=
  default [] (segments <$> lookupNode sc o).

(** The value of the role [role] on the parameter node of the widget. *)
Definition parameterReference (w : World) (role : string) : option NodeID :=
  p ← _parameterNode (self w);
  n ← lookupNode (scene w) p;
  references n !! role.

(** Each coordinate within [tol] of the expected one, with no relative term. *)
Definition withinAbsolute (tol : float) (a b : Point) : bool :=
  let '(ax, ay, az) := a in
  let '(bx, by_, bz) := b in
  PrimFloat.leb (PrimFloat.abs (PrimFloat.sub ax bx)) tol
  && PrimFloat.leb (PrimFloat.abs (PrimFloat.sub ay by_)) tol
  && PrimFloat.leb (PrimFloat.abs (PrimFloat.sub az bz)) tol.

(** ** Judgements on computations *)

(** [triple P m Q]: from a world in [P], [m] returns, in a world in [Q]. *)
Definition triple {A : Type} (P : World -> Prop) (m : M A) (Q : A -> World -> Prop) : Prop :=
  forall w, P w -> exists a w', m w = (Ok a, w') /\ Q a w'.

(** [keeps P m]: from a world in [P], [m] ends in a world in [P], returning
    or raising, and does not run out of nested calls. *)
Definition keeps {A : Type} (P : World -> Prop) (m : M A) : Prop :=
  forall w, P w -> P (snd (m w)) /\ fst (m w) <> Raise RecursionError.

(** The flag and the parameter node of the widget. *)
Definition flagIs (b : bool) (p : option NodeID) (w : World) : Prop :=
  _updatingGUIFromParameterNode (self w) = b /\ _parameterNode (self w) = p.

Definition flagOff (w : World) : Prop :=
  _updatingGUIFromParameterNode (self w) = false.

(** Slots that return at once while the flag is set. *)
Definition guarded (slots : Slots) : Prop :=
  forall w, _updatingGUIFromParameterNode (self w) = true ->
            onModified slots w = (Ok tt, w) /\ onCurrentNodeChanged slots w = (Ok tt, w).

(** Slots whose observer of the parameter node returns with the flag cleared
    when it is called with the flag cleared. *)
Definition settles (slots : Slots) : Prop :=
  forall p, triple (flagIs false p) (onModified slots) (fun _ => flagIs false p).

(** The flag is cleared, the parameter node is [p], and [p] refers under
    [role] to the node it refers to in the scene [sc0]. *)
Definition sameReference (role : string) (sc0 : Scene) (p : NodeID) (w : World) : Prop :=
  flagIs false (Some p) w
  /\ nodeReference (scene w) p role = nodeReference sc0 p role.

(** A change of a node that leaves its reference under [role] alone. *)
Definition keepsReference (role : string) (f : Node -> Node) : Prop :=
  forall n, references (f n) !! role = references n !! role.

(** ** Notions used to state what the widget does *)

(** A string of white space only ([''] included). *)
Fixpoint allspace_from (skip : nat) (s : string) : bool :=
  match s with
  | EmptyString => true
  | String c rest =>
      match skip with
      | S k => allspace_from k rest
      | 0 =>
          match spaceLength s with
          | S k => allspace_from k rest
          | 0 => false
          end
      end
  end.

Definition allspace (s : string) : bool := allspace_from 0 s.

Definition isSome {A : Type} (o : option A) : bool :=
  match o with
  | Some _ => true
  | None => false
  end.

(** The widget once [updateGUIFromParameterNode] has shown the parameter
    node [p] of the scene [sc] in it. *)
Definition shownWidget (sc : Scene) (p : NodeID) (g : Widget) : Widget :=
  let v := nodeReference sc p "InputVolume" in
  let s := nodeReference sc p "InputSeed" in
  mkWidget (_parameterNode g) false (observations g) (isEntered g)
           v s (nodeReference sc p "OutputSegmentation")
           (isSome v && isSome s)
           (if isSome v && isSome s then "Compute airway segmentation"
            else "Select input CT volume and seed point").

(** The widgets show the parameter node [p]: running
    [updateGUIFromParameterNode] would change nothing. *)
Definition inSync (p : NodeID) (w : World) : Prop :=
  self w = shownWidget (scene w) p (self w).

(** The references of a node after [SetNodeReferenceID(role, id)]. *)
Definition referencesWith (role : string) (id : option NodeID)
    (refs : gmap string nat) : gmap string nat :=
  match id with
  | Some i => <[role := i]> refs
  | None => delete role refs
  end.

(** A change of a node that keeps its class, the classes it derives from and
    its attributes. *)
Definition keepsIdentity (f : Node -> Node) : Prop :=
  forall n, className (f n) = className n
            /\ superclasses (f n) = superclasses n
            /\ attributes (f n) = attributes n.

(** The scene [sc'] is the scene [sc] with such a change made to the node
    [p]: the same nodes in the same order, the others with the same
    content. *)
Definition sameNodesBut (p : NodeID) (sc sc' : Scene) : Prop :=
  exists f, keepsIdentity f /\ sc' = updateNode p f sc.

(** A world between [StartModify] and [EndModify] on the node [p]: modified
    events of [p] are disabled, [p] has the references [refs], and apart from
    the node [p] the world is [w0]. *)
Definition inBatch (w0 : World) (p : NodeID) (refs : gmap string nat) (w : World) : Prop :=
  self w = self w0
  /\ trace w = trace w0
  /\ sameNodesBut p (scene w0) (scene w)
  /\ exists n, lookupNode (scene w) p = Some n
               /\ disableModifiedEvent n = true
               /\ references n = refs.

(** A world after the references of the parameter node [p] of [w0] were
    written: [p] has the references [refs] and its modified events are
    disabled or not as [disabled] says; the widget is the one of [w0], or
    that widget showing the parameter node when its observer has run. *)
Definition written (w0 : World) (p : NodeID) (refs : gmap string nat) (disabled : bool)
    (w : World) : Prop :=
  trace w = trace w0
  /\ sameNodesBut p (scene w0) (scene w)
  /\ (exists n, lookupNode (scene w) p = Some n
                /\ disableModifiedEvent n = disabled
                /\ references n = refs)
  /\ (self w = self w0 \/ self w = shownWidget (scene w) p (self w0)).

(** The widget of [setParameterNode(new)] before its GUI update: the old
    parameter node is not observed any more, [new] is the parameter node and
    is observed. *)
Definition reobserve (new : option NodeID) (g : Widget) : Widget :=
  let g1 := match _parameterNode g with
            | Some old =>
                with_observations
                  (List.filter (fun x => negb (Nat.eqb x old)) (observations g)) g
            | None => g
            end in
  let g2 := with_parameterNode new g1 in
  match new with
  | Some p =>
      if member p (observations g2) then g2
      else with_observations (observations g2 ++ [p]) g2
  | None => g2
  end.

(** The first node of the scene that is of a class or of a class derived
    from it, as [GetFirstNodeByClass] finds it. *)
Definition firstNodeByClass (sc : Scene) (cls : string) : option NodeID :=
  fst <$> List.find (fun e => isA (snd e) cls) sc.

(** The parameter node of the module in the scene, as [getParameterNode]
    finds it. *)
Definition isParameterNode (e : NodeID * Node) : bool :=
  String.eqb (className (snd e)) "vtkMRMLScriptedModuleNode"
  && bool_decide (attributes (snd e) !! "ModuleName" = Some moduleName).

Definition moduleParameterNode (sc : Scene) : option NodeID :=
  fst <$> List.find isParameterNode sc.

(** The node that [getParameterNode] adds to a scene without one. *)
Definition newParameterNode : Node :=
  with_attributes {["ModuleName" := moduleName]} (newNode "vtkMRMLScriptedModuleNode").

(** The node among [ids] that a reference names, if it names one. *)
Definition resolve (ids : list NodeID) (ref : option NodeID) : option NodeID :=
  r ← ref; if member r ids then Some r else None.

(** The reference that [initializeParameterNode] leaves under [role] on the
    parameter node [p] of a scene: the node it referred to, or else the
    first node of the class [cls]. *)
Definition defaultReference (sc : Scene) (p : NodeID) (role cls : string) : option NodeID :=
  match nodeReference sc p role with
  | Some r => Some r
  | None => firstNodeByClass sc cls
  end.

(** The class, the ancestry and the references of a node, and those of the
    nodes of a scene. *)
Definition outline (n : Node) : string * list string * gmap string nat :=
  (className n, superclasses n, references n).

Definition outlines (sc : Scene) : list (NodeID * (string * list string * gmap string nat)) :=
  map (fun e => (fst e, outline (snd e))) sc.

(** The world in which [onApplyButton] goes on after the kernel look-up has
    left the world [w0] with the kernel [k]: the question has been logged if
    it was asked. *)
Definition worldOfConfirmation (k : option string) (w0 : World) : World :=
  if truthy k then w0 else emit (LogInfo confirmMessage) w0.

(** The text of the error box of [onApplyButton] for the exception [e]. *)
Definition failureText (host : Host) (e : PyException) : string :=
  "Failed to compute results." ++ newline ++ newline ++ str host e.

(** The texts of the error boxes among some events, oldest first. *)
Definition errorBoxes (t : list Event) : list string :=
  omap (fun e => match e with ErrorDisplay msg => Some msg | _ => None end) t.

(** The world in which [onApplyButton] calls [process], from the world [w1]
    that the question has left: the Apply button is disabled, and when
    no output segmentation was selected, a new segmentation node has been
    added to the scene and selected. *)
Definition outputOfApply (w1 : World) : NodeID :=
  default (freshRef (scene w1)) (outputSegmentationSelector (self w1)).

Definition worldOfApply (w1 : World) : World :=
  mkWorld (match outputSegmentationSelector (self w1) with
           | Some _ => scene w1
           | None => scene w1 ++ [(freshRef (scene w1), newNode segmentationClass)]
           end)
          (trace w1)
          (with_currentNode selOutputSegmentation (Some (outputOfApply w1))
             (with_applyButton false (applyButton_toolTip (self w1)) (self w1))).

(** ** Sample scenes *)

Definition sampleWidget : Widget :=
  mkWidget None false [] true None None None false "".

(** A CT volume loaded from DICOM, a seed, and a segmentation that already
    has a segment. *)
Definition sampleScene : Scene :=
  [ (1, with_attributes {["DICOM.instanceUIDs" := "1.2.840.1 1.2.840.2"]}
          (newNode "vtkMRMLScalarVolumeNode"));
    (2, newNode "vtkMRMLMarkupsFiducialNode");
    (3, with_segments [("Segment_1", mkSegment "old" ∅)] (newNode segmentationClass)) ].

Definition sampleWorld : World := mkWorld sampleScene [] sampleWidget.

(** The same with a volume that was not loaded from DICOM. *)
Definition plainScene : Scene :=
  [ (1, newNode "vtkMRMLScalarVolumeNode");
    (2, newNode "vtkMRMLMarkupsFiducialNode");
    (3, newNode segmentationClass) ].

Definition plainWorld : World := mkWorld plainScene [] sampleWidget.

(** The same with a volume whose instance-UID attribute is a single blank,
    and with one whose attribute is the empty string. *)
Definition blankScene : Scene :=
  [ (1, with_attributes {["DICOM.instanceUIDs" := " "]} (newNode "vtkMRMLScalarVolumeNode"));
    (2, newNode "vtkMRMLMarkupsFiducialNode");
    (3, newNode segmentationClass) ].

Definition blankWorld : World := mkWorld blankScene [] sampleWidget.

Definition emptyAttributeScene : Scene :=
  [ (1, with_attributes {["DICOM.instanceUIDs" := ""]} (newNode "vtkMRMLScalarVolumeNode"));
    (2, newNode "vtkMRMLMarkupsFiducialNode");
    (3, newNode segmentationClass) ].

Definition emptyAttributeWorld : World := mkWorld emptyAttributeScene [] sampleWidget.

(** The no-break space U+00A0 in UTF-8, and the same scene with a volume
    whose instance-UID attribute is a no-break space. *)
Definition noBreakSpace : string :=
  String (ascii_of_nat 194) (String (ascii_of_nat 160) EmptyString).

Definition noBreakSpaceScene : Scene :=
  [ (1, with_attributes {["DICOM.instanceUIDs" := noBreakSpace]}
          (newNode "vtkMRMLScalarVolumeNode"));
    (2, newNode "vtkMRMLMarkupsFiducialNode");
    (3, newNode segmentationClass) ].

Definition noBreakSpaceWorld : World := mkWorld noBreakSpaceScene [] sampleWidget.

(** A scene in which a label-map volume comes before the CT volume. *)
Definition labelFirstScene : Scene :=
  [ (1, newNode "vtkMRMLLabelMapVolumeNode");
    (2, newNode "vtkMRMLScalarVolumeNode");
    (3, newNode "vtkMRMLMarkupsFiducialNode") ].

Definition labelFirstWorld : World := mkWorld labelFirstScene [] sampleWidget.

(** An import that makes one segment of the voxels labelled 170, if any. *)
Definition tracheaSegments (img : list Z) : list (string * Segment) :=
  if existsb (Z.eqb 170) img then [("Segment_170", mkSegment "170" ∅)] else [].

(** The text of the exceptions that the hosts below word themselves. *)
Definition sampleExceptionText (e : PyException) : string :=
  match e with
  | AttributeError => "'NoneType' object has no attribute 'SetTag'"
  | _ => ""
  end.

(** A host whose executable labels some voxels 170 ... *)
Definition sampleHost : Host :=
  mkHost (fun uid => String.append "/dicom/" uid) (fun _ _ => "B30f")
         (fun _ _ => [0; 170; 170; 0]%Z) tracheaSegments
         "TerminologyEntry" "1.25" [0; 0; 0; 0]%Z
         (fun _ _ => ((-5.5)%float, (-5.9)%float, (-100.3)%float))
         false false sampleExceptionText.

(** ... the same with a [RemoveNode] that takes the display node of a node
    along ... *)
Definition tidyHost : Host :=
  mkHost (fun uid => String.append "/dicom/" uid) (fun _ _ => "B30f")
         (fun _ _ => [0; 170; 170; 0]%Z) tracheaSegments
         "TerminologyEntry" "1.25" [0; 0; 0; 0]%Z
         (fun _ _ => ((-5.5)%float, (-5.9)%float, (-100.3)%float))
         true false sampleExceptionText.

(** ... one whose executable labels a voxel 170 only if the scene it runs
    on has a label-map volume under the ID that its parameter "label" names,
    and a command-line module node ... *)
Definition probeHost : Host :=
  mkHost (fun uid => String.append "/dicom/" uid) (fun _ _ => "B30f")
         (fun ps sc =>
            match dictGet "label" ps with
            | Some (PyNodeID t) =>
                if bool_decide (className <$> lookupNode sc t = Some "vtkMRMLLabelMapVolumeNode")
                   && existsb (fun e => String.eqb (className (snd e))
                                          "vtkMRMLCommandLineModuleNode") sc
                then [170]%Z else [0]%Z
            | _ => [0]%Z
            end)
         tracheaSegments
         "TerminologyEntry" "1.25" [0; 0; 0; 0]%Z
         (fun _ _ => ((-5.5)%float, (-5.9)%float, (-100.3)%float))
         false false sampleExceptionText.

(** ... one whose executable labels nothing ... *)
Definition silentHost : Host :=
  mkHost (fun uid => String.append "/dicom/" uid) (fun _ _ => "B30f")
         (fun _ _ => [0; 0; 0; 0]%Z) tracheaSegments
         "TerminologyEntry" "1.25" [0; 0; 0; 0]%Z
         (fun _ _ => ((-5.5)%float, (-5.9)%float, (-100.3)%float))
         false false sampleExceptionText.

(** ... and one whose segment centre is 5.001 mm below the expected one. *)
Definition offsetHost : Host :=
  mkHost (fun uid => String.append "/dicom/" uid) (fun _ _ => "B30f")
         (fun _ _ => [0; 170; 170; 0]%Z) tracheaSegments
         "TerminologyEntry" "1.25" [0; 0; 0; 0]%Z
         (fun _ _ => ((-5.5)%float, (-5.9)%float, (-105.301)%float))
         false false sampleExceptionText.

(** The widget after the module was entered on [plainScene] and the user
    picked the segmentation node 3 as output. *)
Definition enteredWorld : World :=
  snd (userSelects 3 selOutputSegmentation (Some 3)
         (snd (initializeParameterNode 3 plainWorld))).


(** The widget after the module was entered on [plainScene], before the user
    has picked an output segmentation. *)
Definition initializedWorld : World := snd (initializeParameterNode 3 plainWorld).

(** The parameter node of [enteredWorld]. *)
Definition enteredParameterNode : Node :=
  default (newNode "") (lookupNode (scene enteredWorld) 4).

(** * Facts *)

(** *** The scene as a table *)

Lemma freshRef_above (sc : Scene) (r : NodeID) :
  In r (sceneIDs sc) -> r < freshRef sc.
Proof.
  unfold freshRef, sceneIDs.
  induction sc as [|[k n] sc IH]; cbn; intros H; [contradiction|].
  destruct H as [->|H]; [lia|]. specialize (IH H). lia.
Qed.

Lemma lookupNode_None (sc : Scene) (r : NodeID) :
  ~ In r (sceneIDs sc) -> lookupNode sc r = None.
Proof.
  unfold lookupNode, sceneIDs.
  induction sc as [|[k n] sc IH]; cbn; intros H; [reflexivity|].
  destruct (Nat.eqb_spec k r) as [->|Hne]; [tauto|].
  apply IH. tauto.
Qed.

Lemma lookupNode_Some (sc : Scene) (r : NodeID) (n : Node) :
  lookupNode sc r = Some n -> In r (sceneIDs sc).
Proof.
  unfold lookupNode, sceneIDs.
  induction sc as [|[k m] sc IH]; cbn; [discriminate|].
  destruct (Nat.eqb_spec k r) as [->|Hne]; [tauto|].
  intros H. right. apply IH, H.
Qed.

Lemma fresh_notin (sc : Scene) (r : NodeID) :
  freshRef sc <= r -> ~ In r (sceneIDs sc).
Proof. intros Hle Hin. apply freshRef_above in Hin. lia. Qed.

Lemma updateNode_notin (sc : Scene) (r : NodeID) (f : Node -> Node) :
  ~ In r (sceneIDs sc) -> updateNode r f sc = sc.
Proof.
  unfold updateNode, sceneIDs.
  induction sc as [|[k n] sc IH]; cbn; intros H; [reflexivity|].
  destruct (Nat.eqb_spec k r) as [->|Hne]; [tauto|].
  f_equal. apply IH. tauto.
Qed.

Lemma removeNode_notin (sc : Scene) (r : NodeID) :
  ~ In r (sceneIDs sc) -> removeNode r sc = sc.
Proof.
  unfold removeNode, sceneIDs.
  induction sc as [|[k n] sc IH]; cbn; intros H; [reflexivity|].
  destruct (Nat.eqb_spec k r) as [->|Hne]; [tauto|].
  cbn. f_equal. apply IH. tauto.
Qed.

Lemma updateNode_app (sc1 sc2 : Scene) (r : NodeID) (f : Node -> Node) :
  updateNode r f (sc1 ++ sc2) = updateNode r f sc1 ++ updateNode r f sc2.
Proof. unfold updateNode. apply map_app. Qed.

Lemma removeNode_app (sc1 sc2 : Scene) (r : NodeID) :
  removeNode r (sc1 ++ sc2) = removeNode r sc1 ++ removeNode r sc2.
Proof. unfold removeNode. apply List.filter_app. Qed.

Lemma sceneIDs_updateNode (sc : Scene) (r : NodeID) (f : Node -> Node) :
  sceneIDs (updateNode r f sc) = sceneIDs sc.
Proof.
  unfold sceneIDs, updateNode.
  induction sc as [|[k n] sc IH]; cbn; [reflexivity|].
  rewrite IH. destruct (Nat.eqb k r); reflexivity.
Qed.

Lemma freshRef_snoc (sc : Scene) (n : Node) :
  freshRef (sc ++ [(freshRef sc, n)]) = S (freshRef sc).
Proof.
  unfold freshRef at 1. rewrite map_app. cbn [map fst].
  rewrite foldr_app. cbn [foldr].
  assert (H : forall l a, foldr Nat.max a l = Nat.max a (foldr Nat.max 0 l)).
  { induction l as [|x l IH]; intros a; cbn; [lia|]. rewrite IH. lia. }
  rewrite H. unfold freshRef. lia.
Qed.

Lemma lookupNode_app (sc1 sc2 : Scene) (r : NodeID) :
  lookupNode (sc1 ++ sc2) r =
  match lookupNode sc1 r with
  | Some n => Some n
  | None => lookupNode sc2 r
  end.
Proof.
  unfold lookupNode.
  induction sc1 as [|[k n] sc1 IH]; cbn; [reflexivity|].
  destruct (Nat.eqb k r); [reflexivity|apply IH].
Qed.

Lemma lookupNode_updateNode (sc : Scene) (r r' : NodeID) (f : Node -> Node) :
  lookupNode (updateNode r f sc) r' =
  if Nat.eqb r r' then f <$> lookupNode sc r' else lookupNode sc r'.
Proof.
  unfold lookupNode, updateNode.
  induction sc as [|[k n] sc IH]; cbn.
  - destruct (Nat.eqb r r'); reflexivity.
  - destruct (Nat.eqb_spec k r) as [->|Hkr]; cbn.
    + destruct (Nat.eqb_spec r r') as [->|Hrr']; [reflexivity|].
      rewrite IH. destruct (Nat.eqb_spec r r'); [contradiction|reflexivity].
    + destruct (Nat.eqb_spec k r') as [->|Hkr']; [|apply IH].
      destruct (Nat.eqb_spec r r') as [->|Hrr']; [contradiction|reflexivity].
Qed.

Lemma updateNode_updateNode (sc : Scene) (r : NodeID) (f g : Node -> Node) :
  updateNode r g (updateNode r f sc) = updateNode r (fun n => g (f n)) sc.
Proof.
  unfold updateNode. rewrite map_map. apply map_ext. intros [k n]. cbn.
  destruct (Nat.eqb k r) eqn:E; cbn; rewrite E; reflexivity.
Qed.

Lemma lookupNode_singleton (r r' : NodeID) (n : Node) :
  lookupNode [(r, n)] r' = if Nat.eqb r r' then Some n else None.
Proof. unfold lookupNode. cbn. destruct (Nat.eqb r r'); reflexivity. Qed.

Lemma updateNode_singleton (r r' : NodeID) (f : Node -> Node) (n : Node) :
  updateNode r' f [(r, n)] = [(r, if Nat.eqb r r' then f n else n)].
Proof. unfold updateNode. cbn. destruct (Nat.eqb r r'); reflexivity. Qed.

Lemma removeNode_singleton (r r' : NodeID) (n : Node) :
  removeNode r' [(r, n)] = if Nat.eqb r r' then [] else [(r, n)].
Proof. unfold removeNode. cbn. destruct (Nat.eqb r r'); reflexivity. Qed.

Lemma updateNode_ext (sc : Scene) (r : NodeID) (f g : Node -> Node) :
  (forall n, f n = g n) -> updateNode r f sc = updateNode r g sc.
Proof.
  intros H. unfold updateNode. apply map_ext. intros [k n]. cbn.
  now rewrite H.
Qed.

Lemma isSegmentationNode_In (sc : Scene) (o : NodeID) :
  isSegmentationNode sc o = true -> In o (sceneIDs sc).
Proof.
  unfold isSegmentationNode. destruct (lookupNode sc o) eqn:E; [|discriminate].
  intros _. eapply lookupNode_Some, E.
Qed.

Lemma isSegmentationNode_updateNode (sc : Scene) (r o : NodeID) (f : Node -> Node) :
  (forall n, className (f n) = className n) ->
  isSegmentationNode (updateNode r f sc) o = isSegmentationNode sc o.
Proof.
  intros H. unfold isSegmentationNode. rewrite lookupNode_updateNode.
  destruct (Nat.eqb r o); [|reflexivity].
  destruct (lookupNode sc o); cbn; [now rewrite H|reflexivity].
Qed.

Lemma isSegmentationNode_snoc (sc : Scene) (t o : NodeID) (n : Node) :
  String.eqb (className n) segmentationClass = false ->
  isSegmentationNode (sc ++ [(t, n)]) o = isSegmentationNode sc o.
Proof.
  intros H. unfold isSegmentationNode.
  rewrite lookupNode_app, lookupNode_singleton.
  destruct (lookupNode sc o); [reflexivity|].
  destruct (Nat.eqb t o); [exact H|reflexivity].
Qed.

Lemma sceneIDs_app (sc1 sc2 : Scene) :
  sceneIDs (sc1 ++ sc2) = sceneIDs sc1 ++ sceneIDs sc2.
Proof. apply map_app. Qed.

Lemma foldr_max_app (l1 l2 : list nat) :
  S (foldr Nat.max 0 (l1 ++ l2)) = Nat.max (S (foldr Nat.max 0 l1)) (S (foldr Nat.max 0 l2)).
Proof.
  induction l1 as [|x l1 IH]; cbn [app foldr]; lia.
Qed.

Lemma freshRef_app (sc1 sc2 : Scene) :
  freshRef (sc1 ++ sc2) = Nat.max (freshRef sc1) (freshRef sc2).
Proof. unfold freshRef. rewrite map_app. apply foldr_max_app. Qed.

Lemma freshRef_updateNode (sc : Scene) (r : NodeID) (f : Node -> Node) :
  freshRef (updateNode r f sc) = freshRef sc.
Proof.
  unfold freshRef. change (map fst ?x) with (sceneIDs x).
  now rewrite sceneIDs_updateNode.
Qed.

Lemma lookupNode_app_fresh (sc1 sc2 : Scene) (r : NodeID) :
  ~ In r (sceneIDs sc1) -> lookupNode (sc1 ++ sc2) r = lookupNode sc2 r.
Proof. intros H. now rewrite lookupNode_app, lookupNode_None. Qed.

Lemma lookupNode_app_old (sc1 sc2 : Scene) (r : NodeID) :
  In r (sceneIDs sc1) -> lookupNode (sc1 ++ sc2) r = lookupNode sc1 r.
Proof.
  intros H. rewrite lookupNode_app.
  destruct (lookupNode sc1 r) eqn:E; [reflexivity|].
  exfalso. revert H E. unfold lookupNode, sceneIDs.
  induction sc1 as [|[k n] sc1 IH]; cbn; [tauto|].
  destruct (Nat.eqb_spec k r) as [->|Hne]; [discriminate|].
  intros [H|H]; [contradiction|]. now apply IH.
Qed.

Lemma updateNode_app_old (sc1 sc2 : Scene) (r : NodeID) (f : Node -> Node) :
  ~ In r (sceneIDs sc2) -> updateNode r f (sc1 ++ sc2) = updateNode r f sc1 ++ sc2.
Proof. intros H. now rewrite updateNode_app, (updateNode_notin sc2). Qed.

Lemma updateNode_app_fresh (sc1 sc2 : Scene) (r : NodeID) (f : Node -> Node) :
  ~ In r (sceneIDs sc1) -> updateNode r f (sc1 ++ sc2) = sc1 ++ updateNode r f sc2.
Proof. intros H. now rewrite updateNode_app, (updateNode_notin sc1). Qed.

Lemma removeNode_app_fresh (sc1 sc2 : Scene) (r : NodeID) :
  ~ In r (sceneIDs sc1) -> removeNode r (sc1 ++ sc2) = sc1 ++ removeNode r sc2.
Proof. intros H. now rewrite removeNode_app, (removeNode_notin sc1). Qed.

Lemma isSegmentationNode_app_old (sc1 sc2 : Scene) (o : NodeID) :
  In o (sceneIDs sc1) -> isSegmentationNode (sc1 ++ sc2) o = isSegmentationNode sc1 o.
Proof. intros H. unfold isSegmentationNode. now rewrite lookupNode_app_old. Qed.

Lemma member_In (x : NodeID) (l : list NodeID) : member x l = true <-> In x l.
Proof.
  unfold member. rewrite existsb_exists. split.
  - intros (y & Hy & E). apply Nat.eqb_eq in E. now subst.
  - intros H. exists x. split; [exact H|apply Nat.eqb_refl].
Qed.

(** *** Display nodes *)

Lemma displayNodeOf_no_reference (sc : Scene) (r : NodeID) (n : Node) :
  lookupNode sc r = Some n -> references n !! "display" = None ->
  displayNodeOf sc r = None.
Proof.
  intros Hn Hr. unfold displayNodeOf, nodeReference. rewrite Hn.
  cbn [mbind option_bind]. unfold NodeID in *. rewrite Hr. reflexivity.
Qed.

Lemma displayNodeOf_absent (sc : Scene) (r : NodeID) :
  lookupNode sc r = None -> displayNodeOf sc r = None.
Proof. intros Hn. unfold displayNodeOf, nodeReference. now rewrite Hn. Qed.

Lemma displayNodeOf_reference (sc : Scene) (r d : NodeID) (n m : Node) :
  lookupNode sc r = Some n -> references n !! "display" = Some d ->
  lookupNode sc d = Some m -> isA m "vtkMRMLDisplayNode" = true ->
  displayNodeOf sc r = Some d.
Proof.
  intros Hn Hr Hm Hd. unfold displayNodeOf, nodeReference. rewrite Hn.
  cbn [mbind option_bind]. unfold NodeID in *. rewrite Hr. cbn [mbind option_bind].
  assert (Hin : member d (sceneIDs sc) = true)
    by (apply member_In; eapply lookupNode_Some, Hm).
  rewrite Hin. cbn [mbind option_bind]. rewrite Hm. cbn [mbind option_bind].
  now rewrite Hd.
Qed.

(** What [GetDisplayNode] finds depends on the classes and the references
    of the nodes only. *)
Lemma outlines_lookupNode (sc sc' : Scene) (r : NodeID) :
  outlines sc = outlines sc' ->
  outline <$> lookupNode sc r = outline <$> lookupNode sc' r.
Proof.
  unfold outlines, lookupNode.
  revert sc'. induction sc as [|[k n] sc IH]; intros [|[k' n'] sc']; cbn;
    try discriminate; [reflexivity|].
  intros [= -> Hc Hs Hf Hrest].
  destruct (Nat.eqb k' r); cbn; [unfold outline; congruence|now apply IH].
Qed.

Lemma outlines_sceneIDs (sc sc' : Scene) :
  outlines sc = outlines sc' -> sceneIDs sc = sceneIDs sc'.
Proof.
  intros H. apply (f_equal (map fst)) in H. unfold outlines in H.
  rewrite !map_map in H. exact H.
Qed.

Lemma displayNodeOf_outlines (sc sc' : Scene) (r : NodeID) :
  outlines sc = outlines sc' -> displayNodeOf sc r = displayNodeOf sc' r.
Proof.
  intros H. unfold displayNodeOf, nodeReference.
  rewrite <- (outlines_sceneIDs _ _ H).
  pose proof (outlines_lookupNode _ _ r H) as Hr.
  destruct (lookupNode sc r) as [n|], (lookupNode sc' r) as [n'|];
    try discriminate; [|reflexivity].
  injection Hr as Hc Hs Hf. cbn [mbind option_bind]. unfold NodeID in *. rewrite Hf.
  destruct (references n' !! "display") as [d|]; [|reflexivity].
  cbn [mbind option_bind].
  destruct (member d (sceneIDs sc)); [|reflexivity]. cbn [mbind option_bind].
  pose proof (outlines_lookupNode _ _ d H) as Hd.
  destruct (lookupNode sc d) as [m|], (lookupNode sc' d) as [m'|];
    try discriminate; [|reflexivity].
  injection Hd as Hc' Hs' Hf'. cbn [mbind option_bind]. unfold isA.
  now rewrite Hc', Hs'.
Qed.

Lemma outlines_app (sc1 sc2 : Scene) :
  outlines (sc1 ++ sc2) = outlines sc1 ++ outlines sc2.
Proof. apply map_app. Qed.

Lemma outlines_updateNode (sc : Scene) (r : NodeID) (f : Node -> Node) :
  (forall n, outline (f n) = outline n) ->
  outlines (updateNode r f sc) = outlines sc.
Proof.
  intros Hf. unfold outlines, updateNode. rewrite map_map.
  apply map_ext. intros [k n]. cbn.
  destruct (Nat.eqb k r); cbn; [now rewrite Hf|reflexivity].
Qed.

(** Unfolds the changes made to a node down to its fields. *)
Ltac node_simpl :=
  cbn [with_attributes with_references with_colorNodeID with_image with_segments
       with_conversionParameters with_modifiedEvent with_controlPoints setReference
       className superclasses attributes references disableModifiedEvent
       modifiedEventPending colorNodeID image segments conversionParameters
       controlPoints].

(** *** White space *)

Lemma split_from_nil (skip : nat) (tok : option string) (s : string) :
  split_from skip tok s = [] <-> tok = None /\ allspace_from skip s = true.
Proof.
  revert skip tok.
  induction s as [|c rest IH]; intros skip tok; cbn [split_from allspace_from].
  - destruct tok; split; [discriminate|intros [[=] _]|auto|auto].
  - destruct skip as [|k]; [|apply IH].
    destruct (spaceLength (String c rest)) as [|k].
    + rewrite IH. split; [intros [[=] _]|intros [_ [=]]].
    + destruct tok as [t|].
      * split; [discriminate|intros [[=] _]].
      * rewrite IH. tauto.
Qed.

Lemma split_nil (s : string) : split s = [] <-> allspace s = true.
Proof. unfold split, allspace. rewrite split_from_nil. tauto. Qed.

Lemma split_cons (s : string) :
  allspace s = false -> exists uid rest, split s = uid :: rest.
Proof.
  intros H. destruct (split s) as [|uid rest] eqn:E; [|eauto].
  apply split_nil in E. congruence.
Qed.

(** *** Running computations *)

Lemma run_bind {A B : Type} (m : M A) (k : A -> M B) (w : World) :
  (m ≫= k) w =
  match m w with
  | (Ok a, w') => k a w'
  | (Raise e, w') => (Raise e, w')
  end.
Proof. reflexivity. Qed.

Section LogicFacts.

Variable host : Host.

Lemma convolutionKernelFromVolumeNode_run (v : NodeID) (w : World) :
  convolutionKernelFromVolumeNode host v w =
  match lookupNode (scene w) v ≫= (fun n => attributes n !! "DICOM.instanceUIDs") with
  | Some (String c r) =>
      match split (String c r) with
      | uid :: _ =>
          (Ok (Some (fileValue host (fileForInstance host uid) "0018,1210")),
           emit (FileValue (fileForInstance host uid) "0018,1210") (emit (FileForInstance uid) w))
      | [] => (Raise IndexError, w)
      end
  | _ => (Ok None, w)
  end.
Proof.
  unfold convolutionKernelFromVolumeNode, GetAttribute.
  rewrite !run_bind. cbn [get mret M_ret ret].
  destruct (lookupNode (scene w) v ≫= _) as [[|c r]|]; cbn [truthy]; try reflexivity.
  change (default "" (Some (String c r))) with (String c r).
  rewrite run_bind.
  destruct (split (String c r)) as [|uid toks]; reflexivity.
Qed.

Lemma convolutionKernelFromVolumeNode_frame (v : NodeID) (w w1 : World) r :
  convolutionKernelFromVolumeNode host v w = (r, w1) ->
  scene w1 = scene w /\ self w1 = self w.
Proof.
  rewrite convolutionKernelFromVolumeNode_run.
  destruct (lookupNode (scene w) v ≫= _) as [[|c s]|];
    [| destruct (split _) |]; intros [= <- <-]; auto.
Qed.










Lemma set_scene_mk (f : Scene -> Scene) sc tr g :
  set_scene f (mkWorld sc tr g) = mkWorld (f sc) tr g.
Proof. reflexivity. Qed.

Lemma run_modify (f : World -> World) (w : World) : modify f w = (Ok tt, f w).
Proof. reflexivity. Qed.

Lemma run_AddNewNodeByClass (cls : string) sc tr g :
  AddNewNodeByClass cls (mkWorld sc tr g) =
  (Ok (freshRef sc), mkWorld (sc ++ [(freshRef sc, newNode cls)]) tr g).
Proof. reflexivity. Qed.

Lemma run_RemoveNode (r : NodeID) sc tr g :
  RemoveNode host r (mkWorld sc tr g) =
  (Ok tt,
   mkWorld (removeNode r
              match displayNodeOf sc r with
              | Some d => if displayNodesRemovedWithNode host then removeNode d sc else sc
              | None => sc
              end) tr g).
Proof.
  unfold RemoveNode. rewrite run_bind. cbn [get scene].
  destruct (displayNodeOf sc r) as [d|]; [|reflexivity].
  destruct (displayNodesRemovedWithNode host); reflexivity.
Qed.

Lemma run_CreateDefaultDisplayNodes (r : NodeID) sc tr g :
  CreateDefaultDisplayNodes r (mkWorld sc tr g) =
  (Ok tt,
   mkWorld match lookupNode sc r, displayNodeOf sc r with
           | Some n, None =>
               updateNode r (setReference "display" (Some (freshRef sc)))
                 (sc ++ [(freshRef sc, newNode (displayClass (className n)))])
           | _, _ => sc
           end tr g).
Proof.
  unfold CreateDefaultDisplayNodes. rewrite run_bind. cbn [get scene].
  destruct (lookupNode sc r) as [n|]; [|reflexivity].
  destruct (displayNodeOf sc r); reflexivity.
Qed.

Lemma run_SetAndObserveColorNodeID (r : NodeID) (color : string) sc tr g :
  GetDisplayNode_SetAndObserveColorNodeID r color (mkWorld sc tr g) =
  match displayNodeOf sc r with
  | Some d => (Ok tt, mkWorld (updateNode d (with_colorNodeID (Some color)) sc) tr g)
  | None => (Raise AttributeError, mkWorld sc tr g)
  end.
Proof.
  unfold GetDisplayNode_SetAndObserveColorNodeID. rewrite run_bind. cbn [get scene].
  destruct (displayNodeOf sc r); reflexivity.
Qed.

Lemma run_logging_info (msg : string) sc tr g :
  logging_info msg (mkWorld sc tr g) = (Ok tt, mkWorld sc (tr ++ [LogInfo msg]) g).
Proof. reflexivity. Qed.

Lemma run_cli_run (v s t : NodeID) (kernel : string) sc tr g :
  let ps := parameters v kernel t s in
  let sc' := sc ++ [(freshRef sc, newNode "vtkMRMLCommandLineModuleNode")] in
  cli_run host ps (mkWorld sc tr g) =
  (Ok (freshRef sc),
   mkWorld (updateNode t (with_image (airwaysegmentationcli host ps sc')) sc')
           (tr ++ [CliRun ps]) g).
Proof. reflexivity. Qed.

Lemma run_GetSegmentation (o : NodeID) sc tr g :
  GetSegmentation o (mkWorld sc tr g) =
  match lookupNode sc o with
  | Some n =>
      if String.eqb (className n) segmentationClass
      then (Ok (segments n), mkWorld sc tr g)
      else (Raise AttributeError, mkWorld sc tr g)
  | None => (Raise AttributeError, mkWorld sc tr g)
  end.
Proof.
  unfold GetSegmentation. rewrite run_bind. cbn [get scene].
  destruct (lookupNode sc o) as [n|]; [|reflexivity].
  destruct (String.eqb _ _); reflexivity.
Qed.

Lemma eqb_succ_l (t : nat) : Nat.eqb (S t) t = false.
Proof. apply Nat.eqb_neq. lia. Qed.

Lemma eqb_succ_r (t : nat) : Nat.eqb t (S t) = false.
Proof. apply Nat.eqb_neq. lia. Qed.

Lemma eqb_succ2_l (t : nat) : Nat.eqb (S (S t)) t = false.
Proof. apply Nat.eqb_neq. lia. Qed.

Lemma eqb_succ2_r (t : nat) : Nat.eqb t (S (S t)) = false.
Proof. apply Nat.eqb_neq. lia. Qed.

Lemma tmpLabelNode_display (d : NodeID) (img : list Z) :
  references (tmpLabelNode d img) !! "display" = Some d.
Proof. apply lookup_insert_eq. Qed.

Lemma freshRef_tmpNodes (sc : Scene) (img : list Z) :
  freshRef (sc ++ tmpNodes (freshRef sc) img) = S (S (freshRef sc)).
Proof.
  rewrite freshRef_app. generalize (freshRef sc). intros t.
  unfold freshRef, tmpNodes. cbn [map fst foldr]. lia.
Qed.

Lemma tmpNodes_fresh (sc : Scene) (t : NodeID) (img : list Z) (r : NodeID) :
  freshRef sc <= t -> In r (sceneIDs sc) -> ~ In r (sceneIDs (tmpNodes t img)).
Proof.
  intros Ht Hr. apply freshRef_above in Hr. cbn. lia.
Qed.

(** The temporary label map has its display node as long as the two are in
    the scene. *)
Lemma displayNodeOf_tmpLabelNode (sc rest : Scene) (t : NodeID) (img : list Z) :
  ~ In t (sceneIDs sc) -> ~ In (S t) (sceneIDs sc) ->
  displayNodeOf (sc ++ tmpNodes t img ++ rest) t = Some (S t).
Proof.
  intros Ht Hd.
  apply (displayNodeOf_reference _ _ _ (tmpLabelNode (S t) img) tmpLabelDisplayNode).
  - rewrite lookupNode_app_fresh by assumption.
    unfold lookupNode, tmpNodes. cbn. now rewrite Nat.eqb_refl.
  - apply tmpLabelNode_display.
  - rewrite lookupNode_app_fresh by assumption.
    unfold lookupNode, tmpNodes. cbn. now rewrite eqb_succ_r, Nat.eqb_refl.
  - reflexivity.
Qed.

(** The scene once the temporary label map is prepared, the executable has
    run and its module node is removed again. *)
Lemma run_segmentation_block {A : Type} (K : NodeID -> M A)
    (v s : NodeID) (kernel : string) sc tr g :
  let t := freshRef sc in
  let ps := parameters v kernel t s in
  (tmpLabelVolume ← AddNewNodeByClass "vtkMRMLLabelMapVolumeNode";
   CreateDefaultDisplayNodes tmpLabelVolume;;
   GetDisplayNode_SetAndObserveColorNodeID tmpLabelVolume
     "vtkMRMLColorTableNodeFileGenericAnatomyColors.txt";;
   cliNode ← cli_run host (parameters v kernel tmpLabelVolume s);
   RemoveNode host cliNode;;
   K tmpLabelVolume) (mkWorld sc tr g) =
  K t (mkWorld (sc ++ tmpNodes t (labelImage host sc ps)) (tr ++ [CliRun ps]) g).
Proof.
  intros t ps.
  assert (Ht : ~ In t (sceneIDs sc)) by (apply fresh_notin; unfold t; lia).
  assert (Hd : ~ In (S t) (sceneIDs sc)) by (apply fresh_notin; unfold t; lia).
  assert (Hc : ~ In (S (S t)) (sceneIDs sc)) by (apply fresh_notin; unfold t; lia).
  rewrite run_bind, run_AddNewNodeByClass. fold t.
  (* the display node of the label map *)
  rewrite run_bind, run_CreateDefaultDisplayNodes.
  rewrite lookupNode_app_fresh, lookupNode_singleton, Nat.eqb_refl by assumption.
  rewrite (displayNodeOf_no_reference _ t (newNode "vtkMRMLLabelMapVolumeNode"));
    [| now rewrite lookupNode_app_fresh, lookupNode_singleton, Nat.eqb_refl
     | reflexivity ].
  rewrite freshRef_snoc. fold t.
  rewrite <- app_assoc, updateNode_app_fresh by assumption.
  change (updateNode t (setReference "display" (Some (S t)))
            ([(t, newNode "vtkMRMLLabelMapVolumeNode")]
             ++ [(S t, newNode (displayClass (className (newNode "vtkMRMLLabelMapVolumeNode"))))]))
    with (map (fun e => if Nat.eqb (fst e) t
                        then (fst e, setReference "display" (Some (S t)) (snd e)) else e)
              [(t, newNode "vtkMRMLLabelMapVolumeNode");
               (S t, newNode "vtkMRMLLabelMapVolumeDisplayNode")]).
  cbn [map fst snd]. rewrite Nat.eqb_refl, eqb_succ_l.
  (* its colour node *)
  rewrite run_bind, run_SetAndObserveColorNodeID.
  change [(t, setReference "display" (Some (S t)) (newNode "vtkMRMLLabelMapVolumeNode"));
          (S t, newNode "vtkMRMLLabelMapVolumeDisplayNode")]
    with ([(t, tmpLabelNode (S t) []); (S t, newNode "vtkMRMLLabelMapVolumeDisplayNode")] ++ []).
  assert (Hdisplay : displayNodeOf
            (sc ++ [(t, tmpLabelNode (S t) []);
                    (S t, newNode "vtkMRMLLabelMapVolumeDisplayNode")] ++ []) t = Some (S t)).
  { apply (displayNodeOf_reference _ _ _ (tmpLabelNode (S t) [])
             (newNode "vtkMRMLLabelMapVolumeDisplayNode")).
    - rewrite lookupNode_app_fresh by assumption.
      unfold lookupNode. cbn. now rewrite Nat.eqb_refl.
    - apply tmpLabelNode_display.
    - rewrite lookupNode_app_fresh by assumption.
      unfold lookupNode. cbn. now rewrite eqb_succ_r, Nat.eqb_refl.
    - reflexivity. }
  rewrite Hdisplay. rewrite app_nil_r.
  rewrite updateNode_app_fresh by assumption.
  change (updateNode (S t) ?f [(t, tmpLabelNode (S t) []);
                               (S t, newNode "vtkMRMLLabelMapVolumeDisplayNode")])
    with (map (fun e => if Nat.eqb (fst e) (S t) then (fst e, f (snd e)) else e)
              [(t, tmpLabelNode (S t) []); (S t, newNode "vtkMRMLLabelMapVolumeDisplayNode")]).
  cbn [map fst snd]. rewrite Nat.eqb_refl, eqb_succ_r.
  change [(t, tmpLabelNode (S t) []);
          (S t, with_colorNodeID (Some "vtkMRMLColorTableNodeFileGenericAnatomyColors.txt")
                  (newNode "vtkMRMLLabelMapVolumeDisplayNode"))]
    with (tmpNodes t []).
  (* the run *)
  rewrite run_bind, run_cli_run. cbv zeta beta iota.
  unfold t at 3 4. rewrite freshRef_tmpNodes. fold t.
  rewrite <- app_assoc.
  change (sc ++ tmpNodes t [] ++ [(S (S t), newNode "vtkMRMLCommandLineModuleNode")])
    with (sceneOfRun sc).
  fold ps. fold (labelImage host sc ps).
  unfold sceneOfRun at 1. fold t.
  rewrite updateNode_app_fresh by assumption.
  change (updateNode t ?f (tmpNodes t [] ++ [(S (S t), newNode "vtkMRMLCommandLineModuleNode")]))
    with (map (fun e => if Nat.eqb (fst e) t then (fst e, f (snd e)) else e)
              [(t, tmpLabelNode (S t) []); (S t, tmpLabelDisplayNode);
               (S (S t), newNode "vtkMRMLCommandLineModuleNode")]).
  cbn [map fst snd]. rewrite Nat.eqb_refl, eqb_succ_l, eqb_succ2_l.
  change (with_image ?i (tmpLabelNode (S t) [])) with (tmpLabelNode (S t) i).
  (* the module node leaves the scene *)
  rewrite run_bind, run_RemoveNode.
  rewrite (displayNodeOf_no_reference _ (S (S t)) (newNode "vtkMRMLCommandLineModuleNode"));
    [| rewrite lookupNode_app_fresh by assumption;
       unfold lookupNode; cbn; now rewrite eqb_succ2_r, eqb_succ_r, Nat.eqb_refl
     | reflexivity ].
  rewrite removeNode_app_fresh by assumption.
  unfold removeNode at 1. cbn [List.filter fst]. 
  rewrite eqb_succ2_r, eqb_succ_r, Nat.eqb_refl. cbn [negb].
  reflexivity.
Qed.

Lemma run_RemoveAllSegments (o : NodeID) sc tr g :
  RemoveAllSegments o (mkWorld sc tr g) =
  if isSegmentationNode sc o
  then (Ok tt, mkWorld (updateNode o (with_segments []) sc) tr g)
  else (Raise AttributeError, mkWorld sc tr g).
Proof.
  unfold RemoveAllSegments, isSegmentationNode.
  rewrite run_bind, run_GetSegmentation.
  destruct (lookupNode sc o) as [n|]; [|reflexivity].
  destruct (String.eqb _ _); reflexivity.
Qed.

Lemma run_SetConversionParameter (o : NodeID) (name value : string) sc tr g :
  SetConversionParameter o name value (mkWorld sc tr g) =
  if isSegmentationNode sc o
  then (Ok tt, mkWorld (updateNode o (fun n =>
          with_conversionParameters (<[name := value]> (conversionParameters n)) n) sc) tr g)
  else (Raise AttributeError, mkWorld sc tr g).
Proof.
  unfold SetConversionParameter, isSegmentationNode.
  rewrite run_bind, run_GetSegmentation.
  destruct (lookupNode sc o) as [n|]; [|reflexivity].
  destruct (String.eqb _ _); reflexivity.
Qed.

Lemma run_GetNthSegmentID (o : NodeID) (i : nat) sc tr g :
  GetNthSegmentID o i (mkWorld sc tr g) =
  if isSegmentationNode sc o
  then (Ok (default "" (fst <$> segmentsOf sc o !! i)), mkWorld sc tr g)
  else (Raise AttributeError, mkWorld sc tr g).
Proof.
  unfold GetNthSegmentID, isSegmentationNode, segmentsOf.
  rewrite run_bind, run_GetSegmentation.
  destruct (lookupNode sc o) as [n|]; [|reflexivity].
  destruct (String.eqb _ _); reflexivity.
Qed.

Lemma run_GetSegment (o : NodeID) (segmentId : string) sc tr g :
  GetSegment o segmentId (mkWorld sc tr g) =
  if isSegmentationNode sc o
  then (Ok (snd <$> List.find (fun e => String.eqb (fst e) segmentId) (segmentsOf sc o)),
        mkWorld sc tr g)
  else (Raise AttributeError, mkWorld sc tr g).
Proof.
  unfold GetSegment, isSegmentationNode, segmentsOf.
  rewrite run_bind, run_GetSegmentation.
  destruct (lookupNode sc o) as [n|]; [|reflexivity].
  destruct (String.eqb _ _); reflexivity.
Qed.

Lemma isSegmentationNode_tmpNodes (sc : Scene) (t o : NodeID) (img : list Z) :
  isSegmentationNode (sc ++ tmpNodes t img) o = isSegmentationNode sc o.
Proof.
  unfold isSegmentationNode. rewrite lookupNode_app.
  destruct (lookupNode sc o); [reflexivity|].
  unfold lookupNode, tmpNodes. cbn [List.find fst].
  destruct (Nat.eqb t o); [reflexivity|].
  destruct (Nat.eqb (S t) o); reflexivity.
Qed.

Lemma lookupNode_tmpLabelNode (sc rest : Scene) (t : NodeID) (img : list Z) :
  ~ In t (sceneIDs sc) ->
  lookupNode (sc ++ tmpNodes t img ++ rest) t = Some (tmpLabelNode (S t) img).
Proof.
  intros Ht. rewrite lookupNode_app_fresh by assumption.
  unfold lookupNode, tmpNodes. cbn. now rewrite Nat.eqb_refl.
Qed.

Lemma lookupNode_tmpLabelNode_last (sc : Scene) (t : NodeID) (img : list Z) :
  ~ In t (sceneIDs sc) ->
  lookupNode (sc ++ tmpNodes t img) t = Some (tmpLabelNode (S t) img).
Proof.
  intros Ht. rewrite lookupNode_app_fresh by assumption.
  unfold lookupNode, tmpNodes. cbn. now rewrite Nat.eqb_refl.
Qed.

Lemma hasDisplayNode_run (sc : Scene) (o : NodeID) (f : Node -> Node) (img : list Z) :
  (forall n, outline (f n) = outline n) ->
  displayNodeOf (updateNode o f sc ++ tmpNodes (freshRef sc) img) o =
  displayNodeOf (sc ++ tmpNodes (freshRef sc) []) o.
Proof.
  intros Hf. apply displayNodeOf_outlines.
  rewrite !outlines_app, outlines_updateNode by assumption. reflexivity.
Qed.

(** The import on the scene of [process]: the output gets the segments of
    the label image, and a display node unless it has one. *)
Lemma run_ImportLabelmapToSegmentationNode (o : NodeID) (img : list Z)
    (f : Node -> Node) sc tr g :
  (forall n, outline (f n) = outline n) ->
  isSegmentationNode sc o = true ->
  let t := freshRef sc in
  ImportLabelmapToSegmentationNode host t o (mkWorld (updateNode o f sc ++ tmpNodes t img) tr g) =
  (Ok tt,
   mkWorld (updateNode o (fun n =>
              displayed sc o (with_segments (segments (f n) ++ labelmapSegments host img) (f n)))
              sc
            ++ tmpNodes t img ++ outputDisplayNodes sc o) tr g).
Proof.
  intros Hf Hseg t.
  pose proof (isSegmentationNode_In _ _ Hseg) as Ho.
  assert (Ht : ~ In t (sceneIDs (updateNode o f sc)))
    by (rewrite sceneIDs_updateNode; apply fresh_notin; unfold t; lia).
  assert (Hot : ~ In o (sceneIDs (tmpNodes t img)))
    by (apply (tmpNodes_fresh sc); [unfold t; lia|assumption]).
  unfold ImportLabelmapToSegmentationNode.
  rewrite run_bind. cbn [get scene].
  rewrite lookupNode_tmpLabelNode_last by assumption.
  change (default [] (image <$> Some (tmpLabelNode (S t) img))) with img.
  rewrite run_bind, run_modify, set_scene_mk.
  rewrite updateNode_app_old, updateNode_updateNode by assumption.
  rewrite run_CreateDefaultDisplayNodes.
  set (f1 := fun n => with_segments (segments (f n) ++ labelmapSegments host img) (f n)).
  assert (Hf1 : forall n, outline (f1 n) = outline n).
  { intros n. unfold f1. rewrite <- (Hf n). reflexivity. }
  unfold t at 2. rewrite (hasDisplayNode_run sc o f1 img Hf1). fold t.
  unfold displayed, outputDisplayNodes, hasDisplayNode. fold t.
  rewrite lookupNode_app_old by (now rewrite sceneIDs_updateNode).
  rewrite lookupNode_updateNode, Nat.eqb_refl.
  unfold isSegmentationNode in Hseg.
  destruct (lookupNode sc o) as [n0|] eqn:En0; [|discriminate].
  cbn [fmap option_fmap option_map].
  destruct (displayNodeOf (sc ++ tmpNodes t []) o) as [d|].
  - rewrite app_nil_r. reflexivity.
  - rewrite freshRef_app, freshRef_updateNode, <- freshRef_app.
    change (freshRef (sc ++ tmpNodes t img))
      with (freshRef (sc ++ tmpNodes (freshRef sc) img)).
    rewrite freshRef_tmpNodes. fold t.
    assert (Hcls : className (f1 n0) = segmentationClass).
    { transitivity (className n0);
        [exact (f_equal (fun x => fst (fst x)) (Hf1 n0))|now apply String.eqb_eq]. }
    rewrite Hcls.
    change (displayClass segmentationClass) with "vtkMRMLSegmentationDisplayNode".
    assert (Hoc : ~ In o (sceneIDs (tmpNodes t img
                    ++ [(S (S t), newNode "vtkMRMLSegmentationDisplayNode")]))).
    { apply freshRef_above in Ho. fold t in Ho. cbn. lia. }
    rewrite <- app_assoc, updateNode_app_old, updateNode_updateNode by assumption.
    reflexivity.
Qed.

Lemma outputDisplayNodes_fresh (sc : Scene) (o r : NodeID) :
  In r (sceneIDs (outputDisplayNodes sc o)) -> r = S (S (freshRef sc)).
Proof.
  unfold outputDisplayNodes. destruct (hasDisplayNode sc o); cbn; [tauto|].
  intros [<-|[]]. reflexivity.
Qed.

Lemma removeNode_outputDisplayNodes (sc : Scene) (o r : NodeID) :
  r <> S (S (freshRef sc)) ->
  removeNode r (outputDisplayNodes sc o) = outputDisplayNodes sc o.
Proof.
  intros Hr. apply removeNode_notin. intros Hin.
  apply outputDisplayNodes_fresh in Hin. contradiction.
Qed.

(** [RemoveNode] of the temporary label map. *)
Lemma run_RemoveNode_tmpLabelNode (o : NodeID) (img : list Z) (sc0 sc : Scene) tr g :
  let t := freshRef sc0 in
  sceneIDs sc = sceneIDs sc0 ->
  RemoveNode host t (mkWorld (sc ++ tmpNodes t img ++ outputDisplayNodes sc0 o) tr g) =
  (Ok tt, mkWorld (sc ++ tmpNodesLeft host t ++ outputDisplayNodes sc0 o) tr g).
Proof.
  intros t Hids.
  assert (Ht : ~ In t (sceneIDs sc)) by (rewrite Hids; apply fresh_notin; unfold t; lia).
  assert (Hd : ~ In (S t) (sceneIDs sc)) by (rewrite Hids; apply fresh_notin; unfold t; lia).
  rewrite run_RemoveNode, displayNodeOf_tmpLabelNode by assumption.
  unfold tmpNodesLeft. do 2 f_equal.
  assert (Hc1 : removeNode t (outputDisplayNodes sc0 o) = outputDisplayNodes sc0 o)
    by (apply removeNode_outputDisplayNodes; fold t; lia).
  assert (Hc2 : removeNode (S t) (outputDisplayNodes sc0 o) = outputDisplayNodes sc0 o)
    by (apply removeNode_outputDisplayNodes; fold t; lia).
  destruct (displayNodesRemovedWithNode host).
  - rewrite !(removeNode_app_fresh sc) by assumption. f_equal.
    rewrite !removeNode_app, Hc2, Hc1. f_equal.
    unfold removeNode, tmpNodes. cbn [List.filter fst].
    rewrite eqb_succ_r, Nat.eqb_refl. cbn [negb List.filter fst].
    rewrite Nat.eqb_refl. reflexivity.
  - rewrite !(removeNode_app_fresh sc) by assumption. f_equal.
    rewrite !removeNode_app, Hc1. f_equal.
    unfold removeNode, tmpNodes. cbn [List.filter fst].
    rewrite eqb_succ_l, Nat.eqb_refl. reflexivity.
Qed.

Lemma run_convertResult (o : NodeID) (img : list Z) sc tr g :
  let t := freshRef sc in
  let segs := labelmapSegments host img in
  let out := updateNode o (fun n => converted host segs (displayed sc o n)) sc in
  convertResult host t o (mkWorld (sc ++ tmpNodes t img) tr g) =
  if isSegmentationNode sc o then
    match segs with
    | _ :: _ =>
        (Ok tt, mkWorld (out ++ tmpNodesLeft host t ++ outputDisplayNodes sc o)
                        (tr ++ [LogInfo ("Processing completed in " ++ elapsed host ++ " seconds")]) g)
    | [] =>
        (Raise AttributeError,
         mkWorld (out ++ tmpNodes t img ++ outputDisplayNodes sc o) tr g)
    end
  else
    (Raise AttributeError, mkWorld (sc ++ tmpNodes t img) tr g).
Proof.
  intros t segs out. unfold convertResult.
  rewrite run_bind, run_RemoveAllSegments.
  rewrite isSegmentationNode_tmpNodes.
  destruct (isSegmentationNode sc o) eqn:Hseg; [|reflexivity].
  pose proof (isSegmentationNode_In _ _ Hseg) as Ho.
  assert (Hot : ~ In o (sceneIDs (tmpNodes t img)))
    by (apply (tmpNodes_fresh sc); [unfold t; lia|assumption]).
  assert (Hoc : ~ In o (sceneIDs (tmpNodes t img ++ outputDisplayNodes sc o))).
  { rewrite sceneIDs_app, in_app_iff. intros [H|H]; [contradiction|].
    apply outputDisplayNodes_fresh in H. apply freshRef_above in Ho. lia. }
  rewrite updateNode_app_old by assumption.
  rewrite run_bind. unfold t.
  rewrite (run_ImportLabelmapToSegmentationNode o img (with_segments [])) by
    (reflexivity || assumption).
  fold t segs. cbv beta iota.
  (* the steps on the output node *)
  assert (Hstep : forall f : Node -> Node, (forall n, className (f n) = className n) ->
            isSegmentationNode
              (updateNode o f sc ++ tmpNodes t img ++ outputDisplayNodes sc o) o = true).
  { intros f Hf. rewrite isSegmentationNode_app_old by now rewrite sceneIDs_updateNode.
    now rewrite isSegmentationNode_updateNode. }
  assert (Hsegs : forall f : Node -> Node, (forall n, segments (f n) = segs) ->
            segmentsOf (updateNode o f sc ++ tmpNodes t img ++ outputDisplayNodes sc o) o
            = segs).
  { intros f Hf. unfold segmentsOf.
    rewrite lookupNode_app_old by now rewrite sceneIDs_updateNode.
    rewrite lookupNode_updateNode, Nat.eqb_refl.
    unfold isSegmentationNode in Hseg.
    destruct (lookupNode sc o) as [n|]; [|discriminate]. cbn. apply Hf. }
  assert (Hdisp : forall n, className (displayed sc o n) = className n).
  { intros n. unfold displayed. destruct (hasDisplayNode sc o); reflexivity. }
  assert (Hdispseg : forall n, segments (displayed sc o n) = segments n).
  { intros n. unfold displayed. destruct (hasDisplayNode sc o); reflexivity. }
  rewrite run_bind, run_SetConversionParameter.
  rewrite Hstep by (intros n; now rewrite Hdisp).
  rewrite updateNode_app_old, updateNode_updateNode by assumption.
  rewrite run_bind, run_GetNthSegmentID.
  rewrite Hstep by (intros n; node_simpl; now rewrite Hdisp).
  cbv beta iota.
  rewrite Hsegs by (intros n; node_simpl; now rewrite Hdispseg).
  rewrite run_bind, run_GetSegment.
  rewrite Hstep by (intros n; node_simpl; now rewrite Hdisp).
  rewrite Hsegs by (intros n; node_simpl; now rewrite Hdispseg). cbv beta iota.
  destruct segs as [|[i sg] rest] eqn:Esegs.
  - cbn [lookup list_lookup fmap option_fmap option_map fst default List.find].
    rewrite run_bind. unfold SetTag. cbn [raise]. do 2 f_equal.
    unfold out. f_equal. apply updateNode_ext. intros n.
    unfold converted, displayed. destruct (hasDisplayNode sc o); reflexivity.
  - cbn [lookup list_lookup fmap option_fmap option_map fst default List.find].
    rewrite String.eqb_refl. cbn [snd].
    change (snd <$> Some (i, sg)) with (Some sg). change (id i) with i.
    rewrite run_bind. unfold SetTag. rewrite run_modify, set_scene_mk.
    rewrite updateNode_app_old, updateNode_updateNode by assumption.
    rewrite run_bind. unfold t.
    rewrite (run_RemoveNode_tmpLabelNode o img sc) by apply sceneIDs_updateNode.
    fold t. rewrite run_logging_info. do 3 f_equal.
    apply updateNode_ext. intros n.
    unfold converted, displayed. destruct (hasDisplayNode sc o);
      node_simpl; cbn [app setTagIn taggedSegments tagTrachea segmentName segmentTags];
      rewrite String.eqb_refl; reflexivity.
Qed.

Lemma process_unfold (w w1 : World) (v s o : NodeID) (k : option string) :
  convolutionKernelFromVolumeNode host v
    (emit (LogInfo "Processing started") w) = (Ok k, w1) ->
  let t := freshRef (scene w) in
  let ps := parameters v (chosenKernel k) t s in
  process host (Some v) (Some s) (Some o) w =
  convertResult host t o
    (mkWorld (scene w ++ tmpNodes t (labelImage host (scene w) ps))
             (trace w1 ++ kernelWarning k ++ [CliRun ps]) (self w)).
Proof.
  intros Hk t ps. unfold process.
  rewrite run_bind. cbn [logging_info modify]. rewrite run_bind, Hk.
  apply convolutionKernelFromVolumeNode_frame in Hk as [Hsc Hself].
  cbn [scene self emit] in Hsc, Hself.
  destruct w1 as [sc1 tr1 g1]. cbn [scene self trace] in *. subst sc1 g1.
  rewrite run_bind.
  assert (Hphase :
    (if truthy k then mret (default "" k)
     else logging_warning unknownKernelMessage ≫= λ _ : (), mret "STANDARD")
      (mkWorld (scene w) tr1 (self w))
    = (Ok (chosenKernel k), mkWorld (scene w) (tr1 ++ kernelWarning k) (self w))).
  { unfold chosenKernel, kernelWarning.
    destruct (truthy k); [rewrite app_nil_r|]; reflexivity. }
  rewrite Hphase. clear Hphase.
  rewrite run_segmentation_block. fold t ps. unfold convertResult.
  rewrite <- app_assoc. reflexivity.
Qed.

Lemma convolutionKernelFromVolumeNode_world (v : NodeID) (w : World) :
  snd (convolutionKernelFromVolumeNode host v w) =
  mkWorld (scene w) (trace w ++ kernelQueries host (scene w) v) (self w).
Proof.
  rewrite convolutionKernelFromVolumeNode_run. unfold kernelQueries.
  destruct (lookupNode (scene w) v ≫= _) as [[|c r]|];
    [| destruct (split _) |]; destruct w as [sc tr g]; unfold emit;
    cbn [fst snd scene trace self]; rewrite ?app_nil_r, <- ?app_assoc;
    reflexivity.
Qed.

Lemma convolutionKernelFromVolumeNode_result (v : NodeID) (w w' : World) :
  scene w' = scene w ->
  fst (convolutionKernelFromVolumeNode host v w') =
  fst (convolutionKernelFromVolumeNode host v w).
Proof.
  intros H. rewrite !convolutionKernelFromVolumeNode_run, H.
  destruct (lookupNode (scene w) v ≫= _) as [[|c r]|];
    [| destruct (split _) |]; reflexivity.
Qed.

Lemma cliRuns_kernelQueries (sc : Scene) (v : NodeID) :
  cliRuns (kernelQueries host sc v) = [].
Proof.
  unfold kernelQueries.
  destruct (lookupNode sc v ≫= _) as [[|c r]|];
    [| destruct (split _) |]; reflexivity.
Qed.

Lemma cliRuns_app (t1 t2 : list Event) :
  cliRuns (t1 ++ t2) = cliRuns t1 ++ cliRuns t2.
Proof. unfold cliRuns. apply omap_app. Qed.

Lemma process_invalid (w : World) (vol seed out : option NodeID) :
  vol = None \/ seed = None \/ out = None ->
  process host vol seed out w = (Raise (ValueError invalidInputMessage), w).
Proof.
  intros [-> | [-> | ->]]; try destruct vol; try destruct seed; try destruct out;
    reflexivity.
Qed.

Lemma process_kernel_raises (w : World) (v s o : NodeID) (e : PyException) :
  fst (convolutionKernelFromVolumeNode host v w) = Raise e ->
  process host (Some v) (Some s) (Some o) w =
  (Raise e, mkWorld (scene w) (trace w ++ [LogInfo startedMessage]) (self w)).
Proof.
  intros He. unfold process.
  rewrite run_bind. cbn [logging_info modify]. rewrite run_bind.
  rewrite <- (convolutionKernelFromVolumeNode_result v w (emit (LogInfo "Processing started") w))
    in He by reflexivity.
  pose proof (convolutionKernelFromVolumeNode_run v (emit (LogInfo "Processing started") w)) as Hr.
  destruct (convolutionKernelFromVolumeNode host v _) as [r w1].
  cbn [fst] in He. subst r.
  destruct (lookupNode _ v ≫= _) as [[|c r]|];
    [| destruct (split _) |]; inversion Hr; subst; reflexivity.
Qed.

(** The outcome of [process] on present inputs once the kernel look-up has
    returned [k]. *)
Lemma process_outcome (w : World) (v s o : NodeID) (k : option string) :
  fst (convolutionKernelFromVolumeNode host v w) = Ok k ->
  let t := freshRef (scene w) in
  let ps := parameters v (chosenKernel k) t s in
  let img := labelImage host (scene w) ps in
  let segs := labelmapSegments host img in
  let tr := trace w ++ [LogInfo startedMessage] ++ kernelQueries host (scene w) v
                    ++ kernelWarning k ++ [CliRun ps] in
  let out := updateNode o (fun n => converted host segs (displayed (scene w) o n)) (scene w) in
  process host (Some v) (Some s) (Some o) w =
  if isSegmentationNode (scene w) o then
    match segs with
    | _ :: _ =>
        (Ok tt, mkWorld (out ++ tmpNodesLeft host t ++ outputDisplayNodes (scene w) o)
                        (tr ++ [completedEvent host]) (self w))
    | [] =>
        (Raise AttributeError,
         mkWorld (out ++ tmpNodes t img ++ outputDisplayNodes (scene w) o) tr (self w))
    end
  else
    (Raise AttributeError, mkWorld (scene w ++ tmpNodes t img) tr (self w)).
Proof.
  intros Hk t ps img segs tr out.
  rewrite <- (convolutionKernelFromVolumeNode_result v w (emit (LogInfo "Processing started") w))
    in Hk by reflexivity.
  pose proof (convolutionKernelFromVolumeNode_world v (emit (LogInfo "Processing started") w)) as Hw.
  destruct (convolutionKernelFromVolumeNode host v _) as [r w1] eqn:E.
  cbn [fst snd] in Hk, Hw. subst r.
  rewrite (process_unfold _ _ _ _ _ _ E). cbv zeta. fold t ps img.
  rewrite Hw. cbn [scene trace self emit].
  unfold t. rewrite run_convertResult. fold t.
  fold segs. fold out. unfold tr, completedEvent, startedMessage.
  rewrite <- !app_assoc. reflexivity.
Qed.


(** A run that returns had present inputs, a kernel look-up that returned, a
    segmentation node as output and at least one imported segment; its final
    world is then known. *)
Lemma process_returns (w : World) (vol seed out : option NodeID) :
  fst (process host vol seed out w) = Ok tt ->
  exists v s o k,
    vol = Some v /\ seed = Some s /\ out = Some o /\
    fst (convolutionKernelFromVolumeNode host v w) = Ok k /\
    isSegmentationNode (scene w) o = true /\
    let t := freshRef (scene w) in
    let ps := parameters v (chosenKernel k) t s in
    let segs := labelmapSegments host (labelImage host (scene w) ps) in
    segs <> [] /\
    scene (snd (process host vol seed out w)) =
      updateNode o (fun n => converted host segs (displayed (scene w) o n)) (scene w)
      ++ tmpNodesLeft host t ++ outputDisplayNodes (scene w) o.
Proof.
  intros Hok.
  destruct vol as [v|]; [|rewrite process_invalid in Hok by auto; discriminate].
  destruct seed as [s|]; [|rewrite process_invalid in Hok by auto; discriminate].
  destruct out as [o|]; [|rewrite process_invalid in Hok by auto; discriminate].
  destruct (fst (convolutionKernelFromVolumeNode host v w)) as [k|e] eqn:Hk.
  - pose proof (process_outcome w v s o k Hk) as Ho. cbv zeta in Ho.
    exists v, s, o, k. cbv zeta.
    set (segs := labelmapSegments host _) in *.
    rewrite Ho in Hok |- *.
    destruct (isSegmentationNode (scene w) o); [|discriminate].
    destruct segs as [|sg rest]; [discriminate|].
    repeat split; try reflexivity; try assumption. discriminate.
  - rewrite (process_kernel_raises w v s o e Hk) in Hok. discriminate.
Qed.

Lemma convolutionKernelFromVolumeNode_raises (v : NodeID) (w : World) (e : PyException) :
  fst (convolutionKernelFromVolumeNode host v w) = Raise e -> e = IndexError.
Proof.
  rewrite convolutionKernelFromVolumeNode_run.
  destruct (lookupNode (scene w) v ≫= _) as [[|c r]|];
    [| destruct (split _) |]; cbn; congruence.
Qed.

Lemma run_GetAttribute (v : NodeID) (name : string) (w : World) :
  GetAttribute v name w = (Ok (lookupNode (scene w) v ≫= (fun n => attributes n !! name)), w).
Proof. reflexivity. Qed.

(** The three cases of the kernel look-up, by the attribute
    'DICOM.instanceUIDs' of the volume. *)
Lemma convolutionKernelFromVolumeNode_cases (w : World) (v : NodeID) :
  (forall instUIDs,
     fst (GetAttribute v "DICOM.instanceUIDs" w) = Ok instUIDs ->
     instUIDs = None \/ instUIDs = Some "" ->
     convolutionKernelFromVolumeNode host v w = (Ok None, w))
  /\ (forall instUIDs,
        fst (GetAttribute v "DICOM.instanceUIDs" w) = Ok (Some instUIDs) ->
        instUIDs <> "" -> allspace instUIDs = true ->
        convolutionKernelFromVolumeNode host v w = (Raise IndexError, w))
  /\ (forall instUIDs,
        fst (GetAttribute v "DICOM.instanceUIDs" w) = Ok (Some instUIDs) ->
        allspace instUIDs = false ->
        exists uid rest,
          split instUIDs = uid :: rest
          /\ let fileName := fileForInstance host uid in
             convolutionKernelFromVolumeNode host v w =
             (Ok (Some (fileValue host fileName "0018,1210")),
              mkWorld (scene w)
                      (trace w ++ [FileForInstance uid; FileValue fileName "0018,1210"])
                      (self w))).
Proof.
  rewrite run_GetAttribute, convolutionKernelFromVolumeNode_run. cbn [fst].
  split; [|split].
  - intros instUIDs [= ->] [-> | ->]; reflexivity.
  - intros instUIDs [= ->] Hne Hall.
    destruct instUIDs as [|c r]; [congruence|].
    apply split_nil in Hall. now rewrite Hall.
  - intros instUIDs [= ->] Hall.
    destruct (split_cons _ Hall) as (uid & rest & Hsplit).
    exists uid, rest. split; [exact Hsplit|].
    destruct instUIDs as [|c r]; [discriminate|]. rewrite Hsplit.
    unfold emit. cbn [scene trace self]. now rewrite <- app_assoc.
Qed.

(** The look-up raises exactly on an attribute that is not empty and holds
    white space only. *)
Lemma convolutionKernelFromVolumeNode_raises_when (w : World) (v : NodeID) :
  (exists e, fst (convolutionKernelFromVolumeNode host v w) = Raise e)
  <-> (exists instUIDs,
         fst (GetAttribute v "DICOM.instanceUIDs" w) = Ok (Some instUIDs)
         /\ instUIDs <> "" /\ allspace instUIDs = true).
Proof.
  rewrite run_GetAttribute, convolutionKernelFromVolumeNode_run. cbn [fst].
  destruct (lookupNode (scene w) v ≫= _) as [[|c r]|].
  - split; [intros [e [=]]|intros (s & [= <-] & Hne & _); congruence].
  - destruct (split (String c r)) as [|uid toks] eqn:Es.
    + split; [|intros _; eexists; reflexivity].
      intros _. exists (String c r). repeat split; [discriminate|].
      now apply split_nil.
    + split; [intros [e [=]]|].
      intros (s & [= <-] & _ & Hall). apply split_nil in Hall. congruence.
  - split; [intros [e [=]]|intros (s & [=] & _)].
Qed.

(** The nodes of the scene that [process] was called on, in the scene it
    leaves. *)
Lemma lookupNode_updated (sc rest : Scene) (o r : NodeID) (f : Node -> Node) :
  In r (sceneIDs sc) ->
  lookupNode (updateNode o f sc ++ rest) r =
  if Nat.eqb o r then f <$> lookupNode sc r else lookupNode sc r.
Proof.
  intros Hr. rewrite lookupNode_app_old by now rewrite sceneIDs_updateNode.
  apply lookupNode_updateNode.
Qed.

Lemma segmentsOf_converted (sc rest : Scene) (o : NodeID) (segs : list (string * Segment)) :
  isSegmentationNode sc o = true ->
  segmentsOf (updateNode o (fun n => converted host segs (displayed sc o n)) sc ++ rest) o
  = taggedSegments host segs.
Proof.
  intros Hseg. unfold segmentsOf.
  rewrite lookupNode_updated, Nat.eqb_refl by now apply isSegmentationNode_In.
  unfold isSegmentationNode in Hseg.
  destruct (lookupNode sc o); [reflexivity|discriminate].
Qed.

Lemma sceneOfRun_tmpLabelNode (sc : Scene) :
  lookupNode (sceneOfRun sc) (freshRef sc) = Some (tmpLabelNode (S (freshRef sc)) []).
Proof.
  unfold sceneOfRun. apply lookupNode_tmpLabelNode, fresh_notin. lia.
Qed.

Lemma sceneOfRun_cliNode (sc : Scene) :
  lookupNode (sceneOfRun sc) (S (S (freshRef sc)))
  = Some (newNode "vtkMRMLCommandLineModuleNode").
Proof.
  unfold sceneOfRun. rewrite lookupNode_app_fresh by (apply fresh_notin; lia).
  unfold lookupNode, tmpNodes. cbn [app List.find fst].
  now rewrite eqb_succ2_r, eqb_succ_r, Nat.eqb_refl.
Qed.

(** The runs of the executable in the trace of [process]. *)
Lemma cliRuns_process (tr post : list Event) (sc : Scene) (v : NodeID)
    (k : option string) (ps : Parameters) :
  cliRuns post = [] ->
  cliRuns ((tr ++ [LogInfo startedMessage] ++ kernelQueries host sc v
               ++ kernelWarning k ++ [CliRun ps]) ++ post)
  = cliRuns tr ++ [ps].
Proof.
  intros Hpost. rewrite !cliRuns_app, cliRuns_kernelQueries, Hpost.
  unfold kernelWarning. destruct (truthy k); cbn; now rewrite app_nil_r.
Qed.

(** C2, as it holds.  On a present input volume, seed and output
    segmentation [process] runs the external executable exactly once if the
    kernel look-up returns: on the dictionary of exactly the five keys
    inputVolume (the ID of the input volume), reconstructionKernelType (the
    kernel read from DICOM, or "STANDARD"), label (the ID of a label-map node
    that [process] has made for this run, and that the scene did not have),
    seed (the ID of the seed node) and labelValue (170).  The executable has
    run on the scene that holds this label map, as what [process] does with
    its label image shows: the image is imported into the output when
    [process] returns, and is in the label map that [process] leaves in the
    scene when it raises.  If the look-up raises, which it does exactly on an
    attribute 'DICOM.instanceUIDs' that is not empty and holds white space
    only, [process] raises the [IndexError] as well and the executable is not
    run. *)
Theorem process_runs_executable_once (w : World) (v s o : NodeID) :
  let r := process host (Some v) (Some s) (Some o) w in
  let tmpLabelVolume := freshRef (scene w) in
  (forall k,
     fst (convolutionKernelFromVolumeNode host v w) = Ok k ->
     let ps :=
       [ ("inputVolume", PyNodeID v);
         ("reconstructionKernelType", PyStr (if truthy k then default "" k else "STANDARD"));
         ("label", PyNodeID tmpLabelVolume);
         ("seed", PyNodeID s);
         ("labelValue", PyInt 170) ] in
     let img := airwaysegmentationcli host ps (sceneOfRun (scene w)) in
     cliRuns (trace (snd r)) = cliRuns (trace w) ++ [ps]
     /\ lookupNode (scene w) tmpLabelVolume = None
     /\ className <$> lookupNode (sceneOfRun (scene w)) tmpLabelVolume
        = Some "vtkMRMLLabelMapVolumeNode"
     /\ ((fst r = Ok tt
          /\ segmentsOf (scene (snd r)) o = taggedSegments host (labelmapSegments host img))
         \/ (fst r = Raise AttributeError
             /\ lookupNode (scene (snd r)) tmpLabelVolume
                = Some (tmpLabelNode (S tmpLabelVolume) img))))
  /\ (forall e,
        fst (convolutionKernelFromVolumeNode host v w) = Raise e ->
        fst r = Raise IndexError
        /\ cliRuns (trace (snd r)) = cliRuns (trace w)
        /\ scene (snd r) = scene w)
  /\ ((exists e, fst (convolutionKernelFromVolumeNode host v w) = Raise e)
      <-> (exists instUIDs,
             fst (GetAttribute v "DICOM.instanceUIDs" w) = Ok (Some instUIDs)
             /\ instUIDs <> "" /\ allspace instUIDs = true)).
Proof.
  intros r t. split; [|split].
  - intros k Hk ps img.
    assert (Ht : ~ In t (sceneIDs (scene w))) by (apply fresh_notin; unfold t; lia).
    pose proof (process_outcome w v s o k Hk) as Ho. cbv zeta in Ho.
    fold t r in Ho.
    change (parameters v (chosenKernel k) t s) with ps in Ho.
    change (labelImage host (scene w) ps) with img in Ho.
    split; [|split; [|split]].
    + rewrite Ho.
      pose proof (cliRuns_process (trace w) [] (scene w) v k ps eq_refl) as Hnil.
      rewrite app_nil_r in Hnil.
      destruct (isSegmentationNode (scene w) o); [destruct (labelmapSegments _ _)|];
        cbn [snd trace];
        [exact Hnil | exact (cliRuns_process _ [completedEvent host] _ _ _ _ eq_refl)
        | exact Hnil].
    + now apply lookupNode_None.
    + unfold t. now rewrite sceneOfRun_tmpLabelNode.
    + rewrite Ho.
      destruct (isSegmentationNode (scene w) o) eqn:Hseg;
        [destruct (labelmapSegments host img) as [|sg segs] eqn:Esegs|];
        cbn [fst snd scene].
      * right. split; [reflexivity|].
        apply lookupNode_tmpLabelNode. now rewrite sceneIDs_updateNode.
      * left. split; [reflexivity|]. now apply segmentsOf_converted.
      * right. split; [reflexivity|]. now apply lookupNode_tmpLabelNode_last.
  - intros e He. unfold r.
    rewrite (process_kernel_raises w v s o e He).
    apply convolutionKernelFromVolumeNode_raises in He. subst e.
    cbn [fst snd trace scene]. repeat split.
    rewrite cliRuns_app. cbn. apply app_nil_r.
  - apply convolutionKernelFromVolumeNode_raises_when.
Qed.

(** C4. When the kernel look-up returns a falsy value, [process] logs the
    warning and then runs the executable with reconstructionKernelType
    "STANDARD": the run is not given up. *)
Theorem process_falls_back_to_STANDARD (w : World) (v s o : NodeID) (k : option string) :
  fst (convolutionKernelFromVolumeNode host v w) = Ok k ->
  truthy k = false ->
  exists before after,
    trace (snd (process host (Some v) (Some s) (Some o) w)) =
      trace w ++ before
        ++ [LogWarning unknownKernelMessage;
            CliRun (parameters v "STANDARD" (freshRef (scene w)) s)]
        ++ after
    /\ cliRuns before = [] /\ cliRuns after = [].
Proof.
  intros Hk Hfalsy.
  rewrite (process_outcome _ _ _ _ _ Hk). cbv zeta.
  unfold chosenKernel, kernelWarning. rewrite Hfalsy.
  exists ([LogInfo startedMessage] ++ kernelQueries host (scene w) v).
  destruct (isSegmentationNode (scene w) o); [destruct (labelmapSegments _ _)|];
    cbn [snd trace].
  - exists []. rewrite cliRuns_app, cliRuns_kernelQueries.
    repeat split; try reflexivity; rewrite <- ?app_assoc; reflexivity.
  - exists [completedEvent host]. rewrite cliRuns_app, cliRuns_kernelQueries.
    repeat split; try reflexivity; rewrite <- ?app_assoc; reflexivity.
  - exists []. rewrite cliRuns_app, cliRuns_kernelQueries.
    repeat split; try reflexivity; rewrite <- ?app_assoc; reflexivity.
Qed.

(** C3, as it holds.  [process] raises its [ValueError] exactly when one of
    the three inputs is missing, and then nothing else has happened: the world
    is the one it was called on. *)
Theorem process_raises_ValueError_iff (w : World) (vol seed out : option NodeID) :
  ((exists msg, fst (process host vol seed out w) = Raise (ValueError msg))
   <-> (vol = None \/ seed = None \/ out = None))
  /\ (vol = None \/ seed = None \/ out = None ->
      process host vol seed out w = (Raise (ValueError invalidInputMessage), w)).
Proof.
  split; [split|].
  - intros [msg Hmsg].
    destruct vol as [v|]; [|auto].
    destruct seed as [s|]; [|auto].
    destruct out as [o|]; [|auto].
    exfalso.
    destruct (fst (convolutionKernelFromVolumeNode host v w)) as [k|e] eqn:Hk.
    + rewrite (process_outcome w v s o k Hk) in Hmsg. cbv zeta in Hmsg.
      destruct (isSegmentationNode (scene w) o); [destruct (labelmapSegments _ _)|];
        discriminate.
    + rewrite (process_kernel_raises w v s o e Hk) in Hmsg.
      apply convolutionKernelFromVolumeNode_raises in Hk. subst e. discriminate.
  - intros H. rewrite process_invalid by exact H. eexists. reflexivity.
  - apply process_invalid.
Qed.

(** C5, as it holds.  [convolutionKernelFromVolumeNode] reads the attribute
    'DICOM.instanceUIDs' of the volume.  When the attribute is absent or
    empty it returns [None] and the DICOM database is not consulted.  When it
    is not empty and holds white space only, there is no first instance UID
    and it raises [IndexError], the database not consulted either.  In every
    other case the attribute has a first white-space-separated instance UID
    [uid]: the file of that instance is looked up and the value of tag
    (0018,1210) in that file is returned; these two queries are all that
    happens. *)
Theorem convolutionKernelFromVolumeNode_spec (w : World) (v : NodeID) :
  (forall instUIDs,
     fst (GetAttribute v "DICOM.instanceUIDs" w) = Ok instUIDs ->
     instUIDs = None \/ instUIDs = Some "" ->
     convolutionKernelFromVolumeNode host v w = (Ok None, w))
  /\ (forall instUIDs,
        fst (GetAttribute v "DICOM.instanceUIDs" w) = Ok (Some instUIDs) ->
        instUIDs <> "" -> allspace instUIDs = true ->
        convolutionKernelFromVolumeNode host v w = (Raise IndexError, w))
  /\ (forall instUIDs,
        fst (GetAttribute v "DICOM.instanceUIDs" w) = Ok (Some instUIDs) ->
        allspace instUIDs = false ->
        exists uid rest,
          split instUIDs = uid :: rest
          /\ let fileName := fileForInstance host uid in
             convolutionKernelFromVolumeNode host v w =
             (Ok (Some (fileValue host fileName "0018,1210")),
              mkWorld (scene w)
                      (trace w ++ [FileForInstance uid; FileValue fileName "0018,1210"])
                      (self w))).
Proof. apply convolutionKernelFromVolumeNode_cases. Qed.

(** The nodes that a returning [process] has added to the scene. *)
Lemma lookupNode_gained (sc : Scene) (o r : NodeID) (n : Node) :
  let t := freshRef sc in
  lookupNode (tmpNodesLeft host t ++ outputDisplayNodes sc o) r = Some n ->
  (r = S t /\ n = tmpLabelDisplayNode /\ displayNodesRemovedWithNode host = false)
  \/ (r = S (S t) /\ n = newNode "vtkMRMLSegmentationDisplayNode"
      /\ hasDisplayNode sc o = false).
Proof.
  intros t. unfold tmpNodesLeft, outputDisplayNodes. fold t.
  destruct (displayNodesRemovedWithNode host), (hasDisplayNode sc o);
    unfold lookupNode; cbn [app List.find fst fmap option_fmap option_map snd];
    repeat match goal with
           | |- context [Nat.eqb ?a ?b] => destruct (Nat.eqb_spec a b)
           end;
    cbn [fmap option_fmap option_map snd]; intros [=]; subst; auto.
Qed.

Lemma lookupNode_tmpLabelDisplayNode_left (sc : Scene) (o : NodeID) :
  let t := freshRef sc in
  displayNodesRemovedWithNode host = false ->
  lookupNode (tmpNodesLeft host t ++ outputDisplayNodes sc o) (S t)
  = Some tmpLabelDisplayNode.
Proof.
  intros t Hkeep. unfold tmpNodesLeft. rewrite Hkeep.
  unfold lookupNode. cbn [app List.find fst]. now rewrite Nat.eqb_refl.
Qed.

Lemma lookupNode_outputDisplayNode (sc : Scene) (o : NodeID) :
  let t := freshRef sc in
  hasDisplayNode sc o = false ->
  lookupNode (tmpNodesLeft host t ++ outputDisplayNodes sc o) (S (S t))
  = Some (newNode "vtkMRMLSegmentationDisplayNode").
Proof.
  intros t Hnone. unfold tmpNodesLeft, outputDisplayNodes. rewrite Hnone. fold t.
  destruct (displayNodesRemovedWithNode host);
    unfold lookupNode; cbn [app List.find fst];
    rewrite ?eqb_succ_r, Nat.eqb_refl; reflexivity.
Qed.

(** In a scene whose output node refers to a display node of the scene, or
    to none, the import finds the display node that the output has in the
    scene: the temporary nodes do not matter. *)
Lemma hasDisplayNode_in_scene (sc : Scene) (o : NodeID) :
  In o (sceneIDs sc) ->
  (forall n d, lookupNode sc o = Some n -> references n !! "display" = Some d ->
               In d (sceneIDs sc)) ->
  hasDisplayNode sc o = match displayNodeOf sc o with Some _ => true | None => false end.
Proof.
  intros Ho Hwf. unfold hasDisplayNode, displayNodeOf, nodeReference.
  rewrite lookupNode_app_old by exact Ho.
  destruct (lookupNode sc o) as [n|] eqn:En; [|reflexivity].
  cbn [mbind option_bind]. unfold NodeID in *.
  destruct (references n !! "display") as [d|] eqn:Ed; [|reflexivity].
  cbn [mbind option_bind].
  pose proof (Hwf n d eq_refl Ed) as Hd.
  assert (H1 : member d (sceneIDs (sc ++ tmpNodes (freshRef sc) [])) = true).
  { apply member_In. rewrite sceneIDs_app. apply in_or_app. now left. }
  assert (H2 : member d (sceneIDs sc) = true) by now apply member_In.
  unfold NodeID in *. rewrite H1, H2. cbn [mbind option_bind].
  now rewrite lookupNode_app_old.
Qed.

(** C7, as it holds.  When [process] returns, the two nodes it added for
    the run -- the temporary label map and the module node of the
    executable, both in the scene on which the executable ran, as the
    segments imported from its label image show -- are in the scene no more:
    a label-map volume or a module node of the scene was in it before.  The
    nodes that the scene had are all there, in their order, and every one
    other than the output segmentation is as it was.  But the scene has not
    only these: it has gained the display node that the import makes for an
    output segmentation without one, and the display node of the temporary
    label map where the host leaves it behind; it has gained nothing else.
    (Nodes are numbered by one counter here, so that the display node of the
    output gets the number that the module node had.) *)
Theorem process_leaves_no_transient_node (w : World) (vol seed : option NodeID)
    (o : NodeID) :
  fst (process host vol seed (Some o) w) = Ok tt ->
  let w' := snd (process host vol seed (Some o) w) in
  let tmpLabelVolume := freshRef (scene w) in
  let tmpDisplayNode := S tmpLabelVolume in
  let cliNode := S (S tmpLabelVolume) in
  let outputDisplayNode := S (S tmpLabelVolume) in
  (exists ps,
     cliRuns (trace w') = cliRuns (trace w) ++ [ps]
     /\ segmentsOf (scene w') o
        = taggedSegments host
            (labelmapSegments host (airwaysegmentationcli host ps (sceneOfRun (scene w)))))
  /\ className <$> lookupNode (sceneOfRun (scene w)) tmpLabelVolume
     = Some "vtkMRMLLabelMapVolumeNode"
  /\ className <$> lookupNode (sceneOfRun (scene w)) cliNode
     = Some "vtkMRMLCommandLineModuleNode"
  /\ lookupNode (scene w') tmpLabelVolume = None
  /\ (forall r n,
        lookupNode (scene w') r = Some n ->
        className n = "vtkMRMLLabelMapVolumeNode"
        \/ className n = "vtkMRMLCommandLineModuleNode" ->
        lookupNode (scene w) r = Some n)
  /\ (forall r n,
        ~ In r (sceneIDs (scene w)) -> lookupNode (scene w') r = Some n ->
        (r = tmpDisplayNode /\ n = tmpLabelDisplayNode
         /\ displayNodesRemovedWithNode host = false)
        \/ (r = outputDisplayNode /\ n = newNode "vtkMRMLSegmentationDisplayNode"
            /\ hasDisplayNode (scene w) o = false))
  /\ (displayNodesRemovedWithNode host = false ->
      lookupNode (scene w') tmpDisplayNode = Some tmpLabelDisplayNode)
  /\ (hasDisplayNode (scene w) o = false ->
      lookupNode (scene w') outputDisplayNode
      = Some (newNode "vtkMRMLSegmentationDisplayNode"))
  /\ (exists added, sceneIDs (scene w') = sceneIDs (scene w) ++ added)
  /\ (forall r, r <> o -> In r (sceneIDs (scene w)) ->
                lookupNode (scene w') r = lookupNode (scene w) r).
Proof.
  intros Hok w' t d c c'.
  destruct (process_returns w vol seed (Some o) Hok)
    as (v & s & o' & k & -> & -> & [= <-] & Hk & Hseg & Hret).
  cbv zeta in Hret. fold w' t in Hret. destruct Hret as [Hne Hscene].
  pose proof (process_outcome w v s o k Hk) as Ho. cbv zeta in Ho.
  fold t in Ho. rewrite Hseg in Ho.
  set (ps := parameters v (chosenKernel k) t s) in *.
  set (segs := labelmapSegments host (labelImage host (scene w) ps)) in *.
  assert (Htrace : trace w' =
            (trace w ++ [LogInfo startedMessage] ++ kernelQueries host (scene w) v
               ++ kernelWarning k ++ [CliRun ps]) ++ [completedEvent host]).
  { unfold w'. rewrite Ho. destruct segs; [contradiction|reflexivity]. }
  assert (Hfresh : forall r, ~ In r (sceneIDs (scene w)) ->
            lookupNode (scene w') r
            = lookupNode (tmpNodesLeft host t ++ outputDisplayNodes (scene w) o) r).
  { intros r Hr. rewrite Hscene.
    apply lookupNode_app_fresh. now rewrite sceneIDs_updateNode. }
  assert (Hold : forall r, r <> o -> In r (sceneIDs (scene w)) ->
            lookupNode (scene w') r = lookupNode (scene w) r).
  { intros r Hr Hin. rewrite Hscene, lookupNode_updated by assumption.
    destruct (Nat.eqb_spec o r); [congruence|reflexivity]. }
  assert (Ht : ~ In t (sceneIDs (scene w))) by (apply fresh_notin; unfold t; lia).
  assert (Hd : ~ In d (sceneIDs (scene w))) by (apply fresh_notin; unfold d, t; lia).
  assert (Hc : ~ In c (sceneIDs (scene w))) by (apply fresh_notin; unfold c, t; lia).
  repeat apply conj.
  - exists ps. split.
    + rewrite Htrace. now apply cliRuns_process.
    + rewrite Hscene. now apply segmentsOf_converted.
  - unfold t. now rewrite sceneOfRun_tmpLabelNode.
  - unfold c, t. now rewrite sceneOfRun_cliNode.
  - rewrite Hfresh by assumption.
    destruct (lookupNode _ t) as [n|] eqn:E; [|reflexivity].
    apply lookupNode_gained in E. fold t in E.
    destruct E as [(E & _)|(E & _)]; lia.
  - intros r n Hn Hcls.
    destruct (in_dec Nat.eq_dec r (sceneIDs (scene w))) as [Hin|Hout].
    + destruct (Nat.eq_dec r o) as [->|Hro]; [|now rewrite <- Hold].
      exfalso. rewrite Hscene, lookupNode_updated, Nat.eqb_refl in Hn by exact Hin.
      unfold isSegmentationNode in Hseg.
      destruct (lookupNode (scene w) o) as [n0|]; [|discriminate].
      injection Hn as <-.
      assert (Hcn : className (converted host segs (displayed (scene w) o n0))
                    = className n0).
      { unfold displayed. destruct (hasDisplayNode (scene w) o); reflexivity. }
      rewrite Hcn in Hcls. apply String.eqb_eq in Hseg. rewrite Hseg in Hcls.
      destruct Hcls; discriminate.
    + exfalso. rewrite Hfresh in Hn by exact Hout.
      apply lookupNode_gained in Hn.
      destruct Hn as [(_ & -> & _)|(_ & -> & _)]; destruct Hcls; discriminate.
  - intros r n Hr Hn. rewrite Hfresh in Hn by assumption.
    now apply lookupNode_gained in Hn.
  - intros Hkeep. rewrite Hfresh by assumption.
    now apply lookupNode_tmpLabelDisplayNode_left.
  - intros Hnone. rewrite Hfresh by assumption.
    now apply lookupNode_outputDisplayNode.
  - exists (sceneIDs (tmpNodesLeft host t ++ outputDisplayNodes (scene w) o)).
    now rewrite Hscene, sceneIDs_app, sceneIDs_updateNode.
  - exact Hold.
Qed.

(** C8. When [process] returns, the first segment of the output segmentation
    carries under the terminology tag the same fixed text, whatever the
    inputs: the entry of the anatomical structure Trachea, SCT 44567001. *)
Theorem process_tags_first_segment_as_trachea (w : World) (vol seed : option NodeID)
    (o : NodeID) :
  fst (process host vol seed (Some o) w) = Ok tt ->
  exists segmentId segment rest,
    segmentsOf (scene (snd (process host vol seed (Some o) w))) o
      = (segmentId, segment) :: rest
    /\ segmentTags segment !! terminologyEntryTagName host
       = Some ("Segmentation category and type - 3D Slicer General Anatomy list"
               ++ "~SCT^123037004^Anatomical Structure~SCT^44567001^Trachea"
               ++ "~^^~Anatomic codes - DICOM master list~^^~^^")%string.
Proof.
  intros Hok.
  destruct (process_returns w vol seed (Some o) Hok)
    as (v & s & o' & k & -> & -> & [= <-] & Hk & Hseg & Hret).
  cbv zeta in Hret. destruct Hret as [Hne Hscene].
  rewrite Hscene, segmentsOf_converted by exact Hseg.
  destruct (labelmapSegments host _) as [|[i sg] rest]; [congruence|].
  exists i, (tagTrachea host sg), rest. split; [reflexivity|].
  unfold tagTrachea. cbn [segmentTags]. apply lookup_insert_eq.
Qed.

(** C10. When [process] returns, the output segmentation holds the segments
    that the host's import makes of the label image of this run (the first of
    them tagged), and none of the segments it held before. *)
Theorem process_replaces_segments (w : World) (v s o : NodeID) (k : option string) :
  fst (convolutionKernelFromVolumeNode host v w) = Ok k ->
  fst (process host (Some v) (Some s) (Some o) w) = Ok tt ->
  let ps := parameters v (chosenKernel k) (freshRef (scene w)) s in
  let imported := labelmapSegments host (labelImage host (scene w) ps) in
  let after := segmentsOf (scene (snd (process host (Some v) (Some s) (Some o) w))) o in
  after = taggedSegments host imported
  /\ map fst after = map fst imported.
Proof.
  intros Hk Hok ps imported after.
  destruct (process_returns w _ _ _ Hok)
    as (v' & s' & o' & k' & [= <-] & [= <-] & [= <-] & Hk' & Hseg & Hret).
  assert (k' = k) by congruence. subst k'.
  cbv zeta in Hret. destruct Hret as [Hne Hscene].
  fold ps imported in Hne, Hscene.
  assert (Hafter : after = taggedSegments host imported).
  { unfold after. rewrite Hscene. apply segmentsOf_converted, Hseg. }
  split; [exact Hafter|]. rewrite Hafter.
  destruct imported as [|[i sg] rest]; reflexivity.
Qed.

Lemma updateNode_fresh_snoc (sc : Scene) (t : NodeID) (n : Node) (f : Node -> Node) :
  ~ In t (sceneIDs sc) -> updateNode t f (sc ++ [(t, n)]) = sc ++ [(t, f n)].
Proof.
  intros H. now rewrite updateNode_app, updateNode_notin, updateNode_singleton, Nat.eqb_refl.
Qed.

Lemma test_prefix {A : Type} (K : NodeID -> NodeID -> NodeID -> M A) sc tr g :
  let v := freshRef sc in
  (delayDisplay "Starting the test";;
   inputVolumeNode ← downloadSample_CTChest host;
   delayDisplay "Loaded test data set";;
   inputSeedNode ← AddNewNodeByClass "vtkMRMLMarkupsFiducialNode";
   AddControlPointWorld inputSeedNode ((-9.8)%float, 3.4%float, (-40.9)%float);;
   outputSegmentationNode ← AddNewNodeByClass segmentationClass;
   delayDisplay "Compute the segmentation";;
   K inputVolumeNode inputSeedNode outputSegmentationNode) (mkWorld sc tr g)
  = K v (S v) (S (S v))
      (mkWorld (sceneOfTest host sc)
               (tr ++ [LogInfo "Starting the test"; LogInfo "Loaded test data set";
                       LogInfo "Compute the segmentation"]) g).
Proof.
  intros v. unfold downloadSample_CTChest, delayDisplay.
  rewrite run_bind, run_logging_info. cbv beta iota.
  rewrite !run_bind, run_AddNewNodeByClass. fold v. cbv beta iota.
  rewrite run_bind, run_modify, set_scene_mk.
  rewrite updateNode_fresh_snoc by (apply fresh_notin; unfold v; lia).
  cbn [mret M_ret ret]. cbv beta iota.
  set (V := with_image _ _).
  rewrite run_bind, run_logging_info. cbv beta iota.
  rewrite run_bind, run_AddNewNodeByClass.
  assert (Hs : freshRef (sc ++ [(v, V)]) = S v) by apply freshRef_snoc.
  rewrite Hs.
  rewrite run_bind. unfold AddControlPointWorld. rewrite run_modify, set_scene_mk.
  rewrite updateNode_fresh_snoc by (apply fresh_notin; rewrite Hs; lia).
  cbn [controlPoints newNode app].
  set (P := with_controlPoints _ _).
  rewrite run_bind, run_AddNewNodeByClass.
  match goal with
  | |- context [freshRef ?X] => assert (Ho : freshRef X = S (S v))
  end.
  { rewrite <- Hs at 1. rewrite freshRef_snoc. now rewrite Hs. }
  rewrite Ho. rewrite run_bind, run_logging_info. cbv beta iota.
  unfold sceneOfTest. fold v V.
  rewrite <- !app_assoc. reflexivity.
Qed.

Lemma sceneOfTest_volume (sc : Scene) :
  lookupNode (sceneOfTest host sc) (freshRef sc)
  = Some (with_image (CTChest host) (newNode "vtkMRMLScalarVolumeNode")).
Proof.
  unfold sceneOfTest. cbv zeta.
  rewrite lookupNode_app, lookupNode_None by (apply fresh_notin; lia).
  rewrite lookupNode_app, lookupNode_singleton, Nat.eqb_refl. reflexivity.
Qed.

Lemma sceneOfTest_segmentation (sc : Scene) :
  lookupNode (sceneOfTest host sc) (S (S (freshRef sc))) = Some (newNode segmentationClass).
Proof.
  unfold sceneOfTest. cbv zeta.
  rewrite lookupNode_app, lookupNode_None by (apply fresh_notin; lia).
  rewrite lookupNode_app, lookupNode_singleton.
  replace (Nat.eqb (freshRef sc) (S (S (freshRef sc)))) with false
    by (symmetry; apply Nat.eqb_neq; lia).
  rewrite lookupNode_app, !lookupNode_singleton, Nat.eqb_refl.
  replace (Nat.eqb (S (freshRef sc)) (S (S (freshRef sc)))) with false
    by (symmetry; apply Nat.eqb_neq; lia).
  reflexivity.
Qed.

Lemma hasDisplayNode_no_reference (sc : Scene) (o : NodeID) (n : Node) :
  lookupNode sc o = Some n -> references n !! "display" = None ->
  hasDisplayNode sc o = false.
Proof.
  intros Hn Hr. unfold hasDisplayNode.
  rewrite (displayNodeOf_no_reference _ o n); [reflexivity| |exact Hr].
  now rewrite lookupNode_app, Hn.
Qed.

(** The output segmentation of the test when [process] has returned: the
    node of the test with the display node that the import has made for it,
    converted. *)
Lemma test_output (sc0 : Scene) (segs : list (string * Segment)) (rest : Scene) :
  let sc := sceneOfTest host sc0 in
  let o := S (S (freshRef sc0)) in
  lookupNode (updateNode o (fun n => converted host segs (displayed sc o n)) sc ++ rest) o
  = Some (converted host segs
            (setReference "display" (Some (S (S (freshRef sc)))) (newNode segmentationClass))).
Proof.
  intros sc o.
  assert (Hin : In o (sceneIDs sc)).
  { eapply lookupNode_Some. apply sceneOfTest_segmentation. }
  rewrite lookupNode_updated, Nat.eqb_refl by exact Hin.
  unfold sc, o. rewrite sceneOfTest_segmentation. cbn [fmap option_fmap option_map].
  unfold displayed.
  rewrite (hasDisplayNode_no_reference _ _ _ (sceneOfTest_segmentation sc0));
    reflexivity.
Qed.

(** C9, as it holds.  The test passes exactly when the import makes exactly
    one segment of the label image and each coordinate of that segment's
    centre differs from the expected one by at most 5.0 plus 1e-05 times the
    magnitude of the expected coordinate (the relative term of
    [numpy.allclose]).  The centre is the one of the output segmentation as
    [process] leaves it: converted, and with the display node that the
    import has made for it. *)
Theorem test_AirwaySegmentation1_passes_iff (w : World) :
  let v := freshRef (scene w) in
  let sc := sceneOfTest host (scene w) in
  let ps := parameters v "STANDARD" (freshRef sc) (S v) in
  let segs := labelmapSegments host (labelImage host sc ps) in
  let output :=
    setReference "display" (Some (S (S (freshRef sc)))) (newNode segmentationClass) in
  fst (test_AirwaySegmentation1 host w) = Ok tt
  <->
  exists segmentId segment,
    segs = [(segmentId, segment)]
    /\ let '(x, y, z) :=
         segmentCenterOf host (converted host segs output) segmentId in
       PrimFloat.leb (PrimFloat.abs (PrimFloat.sub x (-5.5)))
                     (PrimFloat.add 5.0 (PrimFloat.mul 1e-05 (PrimFloat.abs (-5.5)))) = true
       /\ PrimFloat.leb (PrimFloat.abs (PrimFloat.sub y (-5.9)))
                        (PrimFloat.add 5.0 (PrimFloat.mul 1e-05 (PrimFloat.abs (-5.9)))) = true
       /\ PrimFloat.leb (PrimFloat.abs (PrimFloat.sub z (-100.3)))
                        (PrimFloat.add 5.0 (PrimFloat.mul 1e-05 (PrimFloat.abs (-100.3)))) = true.
Proof.
  intros v sc ps segs output. destruct w as [sc0 tr g]. cbn [scene] in v, sc.
  unfold test_AirwaySegmentation1. rewrite test_prefix. fold v sc.
  set (W := mkWorld sc _ g).
  assert (Hk : fst (convolutionKernelFromVolumeNode host v W) = Ok None).
  { rewrite convolutionKernelFromVolumeNode_run. unfold W. cbn [scene].
    unfold sc, v. rewrite sceneOfTest_volume. reflexivity. }
  assert (Hseg : isSegmentationNode sc (S (S v)) = true).
  { unfold isSegmentationNode, sc, v. rewrite sceneOfTest_segmentation. reflexivity. }
  rewrite run_bind, (process_outcome W v (S v) (S (S v)) None Hk). cbv zeta.
  unfold W. cbn [scene trace self].
  change (chosenKernel None) with "STANDARD". fold ps segs. rewrite Hseg.
  destruct segs as [|[i sg] rest] eqn:Esegs.
  { cbv beta iota. cbn [fst]. split; [discriminate|]. intros (? & ? & [=] & _). }
  cbv beta iota.
  rewrite run_bind. unfold show3D. cbn [mret M_ret ret]. cbv beta iota.
  set (FS := updateNode (S (S v)) _ sc ++ _).
  assert (Hlook : lookupNode FS (S (S v)) = Some (converted host ((i, sg) :: rest) output)).
  { unfold FS, sc, v, output. apply test_output. }
  assert (HsegF : isSegmentationNode FS (S (S v)) = true).
  { unfold isSegmentationNode. rewrite Hlook. reflexivity. }
  assert (HsegsF : segmentsOf FS (S (S v)) = (i, tagTrachea host sg) :: rest).
  { unfold segmentsOf. rewrite Hlook. reflexivity. }
  rewrite run_bind. unfold GetNumberOfSegments.
  rewrite run_bind, run_GetSegmentation, Hlook.
  change (className (converted host ((i, sg) :: rest) output))
    with segmentationClass.
  change (segments (converted host ((i, sg) :: rest) output))
    with ((i, tagTrachea host sg) :: rest).
  rewrite String.eqb_refl. cbv beta iota.
  cbn [mret M_ret ret length]. cbv beta iota.
  rewrite run_bind. unfold assertEqual.
  destruct rest as [|sg2 rest].
  - cbn [length Nat.eqb mret M_ret ret]. cbv beta iota.
    rewrite run_bind, run_GetNthSegmentID.
    rewrite HsegF, HsegsF. cbv beta iota.
    cbn [lookup list_lookup fmap option_fmap option_map fst default].
    change (id i) with i.
    rewrite run_bind. unfold GetSegmentCenter. rewrite run_bind.
    cbn [get scene]. rewrite Hlook. cbn [mret M_ret ret]. cbv beta iota.
    rewrite run_bind.
    unfold assertTrue, allclose, expectedsegmentCenter, isclose.
    split.
    + intros Hpass. exists i, sg. split; [reflexivity|].
      destruct (segmentCenterOf host _ i) as [[x y] z].
      destruct (PrimFloat.leb (PrimFloat.abs (PrimFloat.sub x _)) _);
        [|discriminate].
      destruct (PrimFloat.leb (PrimFloat.abs (PrimFloat.sub y _)) _);
        [|discriminate].
      destruct (PrimFloat.leb (PrimFloat.abs (PrimFloat.sub z _)) _);
        [|discriminate].
      repeat split.
    + intros (i' & sg' & [= <- <-] & Hc).
      destruct (segmentCenterOf host _ i) as [[x y] z].
      destruct Hc as (Hx & Hy & Hz). rewrite Hx, Hy, Hz. reflexivity.
  - cbn [length Nat.eqb]. split; [discriminate|].
    intros (? & ? & [=] & _).
Qed.

End LogicFacts.

(** *** Total runs that keep an invariant *)

Lemma triple_bind {A B : Type} (P : World -> Prop) (Q : A -> World -> Prop)
    (R : B -> World -> Prop) (m : M A) (k : A -> M B) :
  triple P m Q -> (forall a, triple (Q a) (k a) R) -> triple P (m ≫= k) R.
Proof.
  intros Hm Hk w Hw. destruct (Hm w Hw) as (a & w1 & E & Hq).
  rewrite run_bind, E. exact (Hk a w1 Hq).
Qed.

Lemma triple_ret {A : Type} (P : World -> Prop) (a : A) :
  triple P (mret a) (fun _ => P).
Proof. intros w Hw. exists a, w. split; [reflexivity|exact Hw]. Qed.

Lemma triple_get (P : World -> Prop) :
  triple P get (fun w0 w => w0 = w /\ P w).
Proof. intros w Hw. exists w, w. repeat split. exact Hw. Qed.

Lemma triple_modify (P Q : World -> Prop) (f : World -> World) :
  (forall w, P w -> Q (f w)) -> triple P (modify f) (fun _ => Q).
Proof. intros H w Hw. exists tt, (f w). split; [reflexivity|auto]. Qed.

Lemma triple_weaken {A : Type} (P P' : World -> Prop) (Q Q' : A -> World -> Prop) (m : M A) :
  (forall w, P' w -> P w) -> (forall a w, Q a w -> Q' a w) ->
  triple P m Q -> triple P' m Q'.
Proof.
  intros HP HQ Hm w Hw. destruct (Hm w (HP w Hw)) as (a & w1 & E & Hq).
  exists a, w1. split; [exact E|auto].
Qed.

Lemma triple_keeps {A : Type} (P : World -> Prop) (m : M A) :
  triple P m (fun _ => P) -> keeps P m.
Proof.
  intros Hm w Hw. destruct (Hm w Hw) as (a & w1 & E & Hq).
  rewrite E. split; [exact Hq|discriminate].
Qed.

Lemma keeps_bind {A B : Type} (P : World -> Prop) (m : M A) (k : A -> M B) :
  keeps P m -> (forall a, keeps P (k a)) -> keeps P (m ≫= k).
Proof.
  intros Hm Hk w Hw. rewrite run_bind.
  destruct (Hm w Hw) as [Hp Hr]. destruct (m w) as [[a|e] w1]; cbn [fst snd] in *.
  - exact (Hk a w1 Hp).
  - split; [exact Hp|]. intros [= ->]. now apply Hr.
Qed.


Lemma triple_on_parameterNode {A : Type} (P : World -> Prop) (p : NodeID)
    (method : NodeID -> M A) (Q : A -> World -> Prop) :
  (forall w, P w -> _parameterNode (self w) = Some p) ->
  triple P (method p) Q ->
  triple P (on_parameterNode method) Q.
Proof.
  intros HP H w Hw. unfold on_parameterNode. rewrite run_bind. cbn [get].
  rewrite (HP w Hw). apply H, Hw.
Qed.

Lemma triple_GetNodeReference (P : World -> Prop) (node : NodeID) (role : string) :
  triple P (GetNodeReference node role) (fun _ => P).
Proof.
  intros w Hw. unfold GetNodeReference. rewrite run_bind. cbn [get].
  eexists _, w. split; [reflexivity|exact Hw].
Qed.

(** *** The reentrancy flag *)

Ltac triple_of_goal P Q T :=
  match goal with
  | |- exists a w', ?m ?w = (Ok a, w') /\ _ => assert (T : triple P m Q)
  end.

Lemma sameNode_eq (a b : option NodeID) : sameNode a b = true -> a = b.
Proof.
  destruct a, b; cbn; try discriminate; try reflexivity.
  intros H. apply Nat.eqb_eq in H. now subst.
Qed.

Lemma with_currentNode_same (sel : Selector) (node : option NodeID) (g : Widget) :
  currentNode sel g = node -> with_currentNode sel node g = g.
Proof. intros <-. destruct g, sel; reflexivity. Qed.

Lemma setCurrentNode_guarded_run (slots : Slots) (sel : Selector)
    (node : option NodeID) (w : World) :
  guarded slots ->
  _updatingGUIFromParameterNode (self w) = true ->
  setCurrentNode slots sel node w = (Ok tt, set_self (with_currentNode sel node) w).
Proof.
  intros Hg Hw. unfold setCurrentNode. rewrite run_bind. cbn [get].
  destruct (sameNode _ _) eqn:E.
  - apply sameNode_eq in E. unfold set_self.
    rewrite (with_currentNode_same _ _ _ E). destruct w; reflexivity.
  - rewrite run_bind, run_modify.
    assert (Hw' : _updatingGUIFromParameterNode
                    (self (set_self (with_currentNode sel node) w)) = true).
    { destruct sel; exact Hw. }
    destruct sel; cbv beta iota; try rewrite (proj2 (Hg _ Hw')); reflexivity.
Qed.

Lemma on_parameterNode_GetNodeReference_run (p : NodeID) (role : string) (w : World) :
  _parameterNode (self w) = Some p ->
  on_parameterNode (fun p => GetNodeReference p role) w
  = (Ok (nodeReference (scene w) p role), w).
Proof.
  intros Hp. unfold on_parameterNode. rewrite run_bind. cbn [get]. rewrite Hp.
  reflexivity.
Qed.

(** What [updateGUIFromParameterNode] shows, when nothing it triggers gets
    past the flag: the scene is as it was and each selector holds the node
    that the parameter node refers to under the role the method reads. *)
Lemma updateGUIFromParameterNode_body_shows (slots : Slots) (p : NodeID) (w : World) :
  guarded slots ->
  flagIs false (Some p) w ->
  exists w',
    updateGUIFromParameterNode_body slots w = (Ok tt, w')
    /\ scene w' = scene w
    /\ flagIs false (Some p) w'
    /\ inputVolumeSelector (self w') = nodeReference (scene w) p "InputVolume"
    /\ inputSeedSelector (self w') = nodeReference (scene w) p "InputSeed"
    /\ outputSegmentationSelector (self w') = nodeReference (scene w) p "OutputSegmentation".
Proof.
  intros Hg [Hb Hp]. unfold updateGUIFromParameterNode_body.
  rewrite run_bind. cbn [get]. rewrite Hb, Hp.
  rewrite bool_decide_eq_false_2 by discriminate. cbn [orb].
  rewrite run_bind, run_modify. cbv beta iota.
  set (w1 := set_self (with_updatingGUIFromParameterNode true) w).
  rewrite run_bind, (on_parameterNode_GetNodeReference_run p) by exact Hp. cbv beta iota.
  rewrite run_bind, setCurrentNode_guarded_run by (exact Hg || reflexivity). cbv beta iota.
  set (w2 := set_self _ w1).
  rewrite run_bind, (on_parameterNode_GetNodeReference_run p) by exact Hp. cbv beta iota.
  rewrite run_bind, setCurrentNode_guarded_run by (exact Hg || reflexivity). cbv beta iota.
  set (w3 := set_self _ w2).
  rewrite run_bind, (on_parameterNode_GetNodeReference_run p) by exact Hp. cbv beta iota.
  rewrite run_bind, setCurrentNode_guarded_run by (exact Hg || reflexivity). cbv beta iota.
  set (w4 := set_self _ w3).
  rewrite run_bind, (on_parameterNode_GetNodeReference_run p) by exact Hp. cbv beta iota.
  change (scene w4) with (scene w).
  rewrite run_bind.
  destruct (nodeReference (scene w) p "InputVolume") as [v|] eqn:Ev.
  - rewrite (on_parameterNode_GetNodeReference_run p) by exact Hp. cbv beta iota.
    change (scene w4) with (scene w).
    destruct (nodeReference (scene w) p "InputSeed") as [sd|] eqn:Es;
      rewrite run_bind, run_modify; cbv beta iota; rewrite run_modify;
      eexists; (split; [reflexivity|]); cbn;
      rewrite ?Ev, ?Es; repeat split; assumption.
  - cbn [mret M_ret ret]. cbv beta iota.
    rewrite run_bind, run_modify. cbv beta iota. rewrite run_modify.
    eexists. split; [reflexivity|]. cbn. rewrite ?Ev. repeat split; assumption.
Qed.

Lemma updateGUIFromParameterNode_body_settles (slots : Slots) (p : option NodeID) :
  guarded slots ->
  triple (flagIs false p) (updateGUIFromParameterNode_body slots) (fun _ => flagIs false p).
Proof.
  intros Hg w Hw. destruct p as [p|].
  - destruct (updateGUIFromParameterNode_body_shows slots p w Hg Hw) as (w' & E & _ & Hf & _).
    exists tt, w'. split; assumption.
  - destruct Hw as [Hb Hp]. unfold updateGUIFromParameterNode_body.
    rewrite run_bind. cbn [get]. rewrite Hb, Hp.
    exists tt, w. split; [reflexivity|split; assumption].
Qed.

Lemma guarded_connections (d : nat) : guarded (connections (S d)).
Proof.
  intros w Hw. cbn [connections onModified onCurrentNodeChanged].
  unfold updateGUIFromParameterNode_body, updateParameterNodeFromGUI_body.
  rewrite !run_bind. cbn [get]. rewrite Hw, orb_true_r. split; reflexivity.
Qed.

Lemma settles_connections (d : nat) : settles (connections (S (S d))).
Proof.
  intros p. cbn [connections onModified].
  apply updateGUIFromParameterNode_body_settles, guarded_connections.
Qed.

(** *** Writing the parameter node under an invariant *)

Section WritingUnderInvariant.

(** An invariant [Inv] of the world that implies that the flag is cleared and
    the parameter node is [p], and that survives the updates of scene nodes
    which are [allowed]. *)
Variable p : NodeID.
Variable Inv : World -> Prop.
Variable allowed : (Node -> Node) -> Prop.

Hypothesis Inv_flag : forall w, Inv w -> flagIs false (Some p) w.
Hypothesis Inv_update :
  forall node f w, allowed f -> Inv w -> Inv (set_scene (updateNode node f) w).
Hypothesis allowed_modifiedEvent : forall b k, allowed (with_modifiedEvent b k).

Variable slots : Slots.
Hypothesis slots_keep : triple Inv (onModified slots) (fun _ => Inv).

Lemma triple_InvokeModifiedEvent (node : NodeID) :
  triple Inv (InvokeModifiedEvent slots node) (fun _ => Inv).
Proof.
  intros w Hw. unfold InvokeModifiedEvent. rewrite run_bind. cbn [get].
  destruct (member _ _); [apply slots_keep, Hw|exists tt, w; split; [reflexivity|exact Hw]].
Qed.

Lemma triple_Modified (node : NodeID) :
  triple Inv (Modified slots node) (fun _ => Inv).
Proof.
  intros w Hw. unfold Modified. rewrite run_bind. cbn [get].
  destruct (lookupNode _ _) as [n|]; [|exists tt, w; split; [reflexivity|exact Hw]].
  destruct (disableModifiedEvent n).
  - rewrite run_modify. eexists tt, _. split; [reflexivity|].
    apply Inv_update; [apply allowed_modifiedEvent|exact Hw].
  - apply triple_InvokeModifiedEvent, Hw.
Qed.

Lemma triple_StartModify (node : NodeID) :
  triple Inv (StartModify node) (fun _ => Inv).
Proof.
  intros w Hw. unfold StartModify. rewrite run_bind. cbn [get].
  destruct (lookupNode _ _) as [n|]; [|exists false, w; split; [reflexivity|exact Hw]].
  rewrite run_bind, run_modify. eexists _, _. split; [reflexivity|].
  apply Inv_update; [apply allowed_modifiedEvent|exact Hw].
Qed.

Lemma triple_EndModify (node : NodeID) (b : bool) :
  triple Inv (EndModify slots node b) (fun _ => Inv).
Proof.
  intros w Hw. unfold EndModify. rewrite run_bind. cbn [get].
  destruct (lookupNode _ _) as [n|]; [|exists tt, w; split; [reflexivity|exact Hw]].
  assert (Hupd : forall b k, Inv (set_scene (updateNode node (with_modifiedEvent b k)) w))
    by (intros; apply Inv_update; [apply allowed_modifiedEvent|exact Hw]).
  destruct b; [rewrite run_modify; eexists tt, _; split; [reflexivity|apply Hupd]|].
  destruct (Nat.eqb _ 0); [rewrite run_modify; eexists tt, _; split; [reflexivity|apply Hupd]|].
  rewrite run_bind, run_modify.
  apply triple_InvokeModifiedEvent, Hupd.
Qed.

Lemma triple_SetNodeReferenceID (node : NodeID) (role : string) (id : option NodeID) :
  allowed (setReference role id) ->
  triple Inv (SetNodeReferenceID slots node role id) (fun _ => Inv).
Proof.
  intros Ha w Hw. unfold SetNodeReferenceID. rewrite run_bind. cbn [get].
  destruct (lookupNode _ _) as [n|]; [|exists tt, w; split; [reflexivity|exact Hw]].
  destruct (sameNode _ _); [exists tt, w; split; [reflexivity|exact Hw]|].
  rewrite run_bind, run_modify.
  apply triple_Modified. apply (Inv_update node _ w Ha Hw).
Qed.

Lemma Inv_parameterNode (w : World) : Inv w -> _parameterNode (self w) = Some p.
Proof. intros H. exact (proj2 (Inv_flag w H)). Qed.

Hypothesis allowed_written :
  forall id, allowed (setReference "InputVolume" id)
             /\ allowed (setReference "InputSeed" id)
             /\ allowed (setReference "OutputVolume" id).

Lemma updateParameterNodeFromGUI_body_invariant :
  triple Inv (updateParameterNodeFromGUI_body slots) (fun _ => Inv).
Proof.
  intros w Hw. unfold updateParameterNodeFromGUI_body.
  rewrite run_bind. cbn [get].
  destruct (Inv_flag w Hw) as [Hb Hp]. rewrite Hb, Hp.
  rewrite bool_decide_eq_false_2 by discriminate. cbn [orb].
  triple_of_goal Inv (fun (_ : unit) => Inv) T; [|apply T; exact Hw].
  eapply triple_bind; [apply (triple_on_parameterNode _ p _ _ Inv_parameterNode), triple_StartModify|].
  intros wasModified. cbv beta.
  eapply triple_bind; [apply triple_get|]. intros w1. cbv beta.
  eapply triple_bind.
  { eapply triple_weaken with (P := Inv); [intros ? [_ H]; exact H|intros ? ? H; exact H|].
    apply (triple_on_parameterNode _ p _ _ Inv_parameterNode), triple_SetNodeReferenceID, allowed_written. }
  intros ?; cbv beta.
  eapply triple_bind; [apply triple_get|]. intros w2. cbv beta.
  eapply triple_bind.
  { eapply triple_weaken with (P := Inv); [intros ? [_ H]; exact H|intros ? ? H; exact H|].
    apply (triple_on_parameterNode _ p _ _ Inv_parameterNode), triple_SetNodeReferenceID, allowed_written. }
  intros ?; cbv beta.
  eapply triple_bind; [apply triple_get|]. intros w3. cbv beta.
  eapply triple_bind.
  { eapply triple_weaken with (P := Inv); [intros ? [_ H]; exact H|intros ? ? H; exact H|].
    apply (triple_on_parameterNode _ p _ _ Inv_parameterNode), triple_SetNodeReferenceID, allowed_written. }
  intros ?; cbv beta.
  apply (triple_on_parameterNode _ p _ _ Inv_parameterNode), triple_EndModify.
Qed.

End WritingUnderInvariant.

Lemma SetNodeReferenceID_settles (slots : Slots) (p : option NodeID)
    (node : NodeID) (role : string) (id : option NodeID) :
  settles slots ->
  triple (flagIs false p) (SetNodeReferenceID slots node role id) (fun _ => flagIs false p).
Proof.
  intros Hs.
  apply (triple_SetNodeReferenceID (flagIs false p) (fun _ => True));
    [intros ? ? ? _ H; exact H|intros; exact I|apply Hs|exact I].
Qed.

Lemma updateParameterNodeFromGUI_body_settles (slots : Slots) (p : option NodeID) :
  settles slots ->
  triple (flagIs false p) (updateParameterNodeFromGUI_body slots) (fun _ => flagIs false p).
Proof.
  intros Hs. destruct p as [p|].
  - apply (updateParameterNodeFromGUI_body_invariant p (flagIs false (Some p)) (fun _ => True));
      [intros ? H; exact H|intros ? ? ? _ H; exact H|intros; exact I|apply Hs
      |intros; repeat split].
  - intros w [Hb Hp]. unfold updateParameterNodeFromGUI_body.
    rewrite run_bind. cbn [get]. rewrite Hb, Hp.
    exists tt, w. split; [reflexivity|split; assumption].
Qed.

Lemma updateGUIFromParameterNode_settles (d : nat) (p : option NodeID) :
  triple (flagIs false p) (updateGUIFromParameterNode (2 + d)) (fun _ => flagIs false p).
Proof. apply settles_connections. Qed.

Lemma updateParameterNodeFromGUI_settles (d : nat) (p : option NodeID) :
  triple (flagIs false p) (updateParameterNodeFromGUI (3 + d)) (fun _ => flagIs false p).
Proof.
  unfold updateParameterNodeFromGUI. cbn [Nat.add connections onCurrentNodeChanged].
  apply updateParameterNodeFromGUI_body_settles, settles_connections.
Qed.

(** *** The output selection *)

Lemma nodeReference_updateNode (sc : Scene) (p node : NodeID) (role : string)
    (f : Node -> Node) :
  keepsReference role f ->
  nodeReference (updateNode node f sc) p role = nodeReference sc p role.
Proof.
  intros Hf. unfold nodeReference.
  rewrite lookupNode_updateNode, sceneIDs_updateNode.
  destruct (Nat.eqb node p); [|reflexivity].
  destruct (lookupNode sc p) as [n|]; [|reflexivity].
  cbn. now rewrite Hf.
Qed.

Lemma updateParameterNodeFromGUI_keeps_OutputSegmentation (d : nat) (p : NodeID) (sc0 : Scene) :
  triple (sameReference "OutputSegmentation" sc0 p)
         (updateParameterNodeFromGUI (3 + d))
         (fun _ => sameReference "OutputSegmentation" sc0 p).
Proof.
  unfold updateParameterNodeFromGUI. cbn [Nat.add connections onCurrentNodeChanged].
  apply (updateParameterNodeFromGUI_body_invariant p _ (keepsReference "OutputSegmentation")).
  - intros w H. exact (proj1 H).
  - intros node f w Hf [Hflag Href]. split; [exact Hflag|].
    cbn [scene set_scene]. now rewrite nodeReference_updateNode.
  - intros b k n. reflexivity.
  - cbn [connections onModified]. intros w [Hflag Href].
    destruct (updateGUIFromParameterNode_body_shows (connections (S d)) p w
                (guarded_connections d) Hflag) as (w' & E & Hsc & Hflag' & _).
    exists tt, w'. split; [exact E|]. split; [exact Hflag'|]. now rewrite Hsc.
  - intros id. repeat split; intros n; unfold setReference, with_references;
      cbn [references];
      (destruct id; [rewrite lookup_insert_ne by discriminate
                    |rewrite lookup_delete_ne by discriminate]);
      reflexivity.
Qed.

(** C1, as the code behaves.  Whatever the user has picked in the output
    selector, [updateParameterNodeFromGUI] leaves alone the reference that
    the parameter node has under "OutputSegmentation", and the
    [updateGUIFromParameterNode] that follows puts into the output selector
    the node this reference named before the write: the selection that was
    written is not what is read back. *)
Theorem output_selector_ignores_stored_selection (d : nat) (p : NodeID) (w : World) :
  flagIs false (Some p) w ->
  let stored := snd (updateParameterNodeFromGUI (3 + d) w) in
  let restored := snd (updateGUIFromParameterNode (2 + d) stored) in
  nodeReference (scene stored) p "OutputSegmentation"
  = nodeReference (scene w) p "OutputSegmentation"
  /\ outputSegmentationSelector (self restored)
     = nodeReference (scene w) p "OutputSegmentation".
Proof.
  intros Hw stored restored.
  destruct (updateParameterNodeFromGUI_keeps_OutputSegmentation d p (scene w) w)
    as (a & w1 & E & Hflag & Href); [split; [exact Hw|reflexivity]|].
  assert (Hs : stored = w1) by (unfold stored; now rewrite E).
  destruct (updateGUIFromParameterNode_body_shows (connections (S d)) p w1
              (guarded_connections d) Hflag) as (w2 & E2 & _ & _ & _ & _ & Hout).
  unfold restored.
  change (updateGUIFromParameterNode (2 + d))
    with (updateGUIFromParameterNode_body (connections (S d))).
  rewrite Hs, E2. cbn [snd]. split; [exact Href|now rewrite Hout].
Qed.

Lemma triple_flagOff {A : Type} (m : M A) :
  (forall p, triple (flagIs false p) m (fun _ => flagIs false p)) ->
  triple flagOff m (fun _ => flagOff).
Proof.
  intros H w Hw. destruct (H (_parameterNode (self w)) w) as (a & w1 & E & Hq).
  { split; [exact Hw|reflexivity]. }
  exists a, w1. split; [exact E|exact (proj1 Hq)].
Qed.

Lemma setParameterNode_settles (d : nat) (inputParameterNode : option NodeID) :
  triple flagOff (setParameterNode (2 + d) inputParameterNode)
         (fun _ => flagIs false inputParameterNode).
Proof.
  unfold setParameterNode.
  eapply triple_bind with (Q := fun _ => flagOff).
  { destruct inputParameterNode; apply triple_ret. }
  intros ?; cbv beta.
  eapply triple_bind; [apply triple_get|]. intros w0. cbv beta.
  eapply triple_bind with (Q := fun _ => flagOff).
  { eapply triple_weaken with (P := flagOff);
      [intros ? [_ H]; exact H|intros ? ? H; exact H|].
    destruct (_parameterNode (self w0)); [|apply triple_ret].
    apply triple_modify. intros w H. exact H. }
  intros ?; cbv beta.
  eapply triple_bind with (Q := fun _ => flagIs false inputParameterNode).
  { apply triple_modify. intros w H. split; [exact H|reflexivity]. }
  intros ?; cbv beta.
  eapply triple_bind; [apply triple_get|]. intros w1. cbv beta.
  eapply triple_bind with (Q := fun _ => flagIs false inputParameterNode).
  { eapply triple_weaken with (P := flagIs false inputParameterNode);
      [intros ? [_ H]; exact H|intros ? ? H; exact H|].
    destruct (_parameterNode (self w1)); [|apply triple_ret].
    apply triple_modify. intros w H. unfold addObserver.
    destruct H as [Hb Hp]. unfold flagIs, set_self. cbn [self].
    destruct (member _ _); split; assumption. }
  intros ?; cbv beta.
  apply updateGUIFromParameterNode_settles.
Qed.

Lemma selectDefault_settles (d : nat) (p : NodeID) (role cls : string) :
  triple (flagIs false (Some p)) (selectDefault (2 + d) role cls)
         (fun _ => flagIs false (Some p)).
Proof.
  unfold selectDefault.
  eapply triple_bind.
  { apply (triple_on_parameterNode _ p); [intros ? H; exact (proj2 H)|apply triple_GetNodeReference]. }
  intros r. cbv beta. destruct r; [apply triple_ret|].
  eapply triple_bind with (Q := fun _ => flagIs false (Some p)).
  { intros w Hw. unfold GetFirstNodeByClass. rewrite run_bind. cbn [get].
    eexists _, w. split; [reflexivity|exact Hw]. }
  intros first. cbv beta. destruct first; [|apply triple_ret].
  apply (triple_on_parameterNode _ p); [intros ? H; exact (proj2 H)|].
  apply SetNodeReferenceID_settles, settles_connections.
Qed.

Lemma getParameterNode_flagOff : triple flagOff getParameterNode (fun _ => flagOff).
Proof.
  intros w Hw. unfold getParameterNode. rewrite run_bind. cbn [get].
  destruct (List.find _ _) as [e|].
  - exists (fst e), w. split; [reflexivity|exact Hw].
  - rewrite run_bind. destruct w as [sc tr g]. rewrite run_AddNewNodeByClass.
    cbv beta iota. rewrite run_bind, run_modify.
    eexists _, _. split; [reflexivity|exact Hw].
Qed.

Lemma initializeParameterNode_settles (d : nat) :
  triple flagOff (initializeParameterNode (2 + d)) (fun _ => flagOff).
Proof.
  unfold initializeParameterNode.
  eapply triple_bind; [apply getParameterNode_flagOff|]. intros p. cbv beta.
  eapply triple_bind; [apply setParameterNode_settles|]. intros ?; cbv beta.
  eapply triple_bind; [apply selectDefault_settles|]. intros ?; cbv beta.
  apply triple_weaken with (P := flagIs false (Some p))
                           (Q := fun _ => flagIs false (Some p));
    [intros ? H; exact H|intros ? ? H; exact (proj1 H)|].
  apply selectDefault_settles.
Qed.

Lemma triple_setCurrentNode_settles (slots : Slots) (p : option NodeID)
    (sel : Selector) (node : option NodeID) :
  triple (flagIs false p) (onCurrentNodeChanged slots) (fun _ => flagIs false p) ->
  triple (flagIs false p) (setCurrentNode slots sel node) (fun _ => flagIs false p).
Proof.
  intros Hs w Hw. unfold setCurrentNode. rewrite run_bind. cbn [get].
  destruct (sameNode _ _); [exists tt, w; split; [reflexivity|exact Hw]|].
  rewrite run_bind, run_modify.
  assert (Hw' : flagIs false p (set_self (with_currentNode sel node) w)).
  { destruct Hw. destruct sel; split; assumption. }
  destruct sel; cbv beta iota; try (apply Hs; exact Hw');
    eexists tt, _; (split; [reflexivity|exact Hw']).
Qed.

Lemma userSelects_settles (d : nat) (sel : Selector) (node : option NodeID) :
  triple flagOff (userSelects (3 + d) sel node) (fun _ => flagOff).
Proof.
  apply triple_flagOff. intros p. unfold userSelects.
  apply triple_setCurrentNode_settles.
  apply (updateParameterNodeFromGUI_settles d).
Qed.

Section WidgetFacts.

Variable host : Host.

Lemma convolutionKernelFromVolumeNode_keeps (P : World -> Prop) (v : NodeID) :
  (forall w w', self w' = self w -> P w -> P w') ->
  keeps P (convolutionKernelFromVolumeNode host v).
Proof.
  intros HP w Hw. split.
  - rewrite convolutionKernelFromVolumeNode_world. apply (HP w); [reflexivity|exact Hw].
  - intros He. apply convolutionKernelFromVolumeNode_raises in He. discriminate.
Qed.

Lemma process_keeps (P : World -> Prop) (vol seed out : option NodeID) :
  (forall w w', self w' = self w -> P w -> P w') ->
  keeps P (process host vol seed out).
Proof.
  intros HP w Hw.
  destruct vol as [v|]; [|rewrite process_invalid by auto; split; [exact Hw|discriminate]].
  destruct seed as [s|]; [|rewrite process_invalid by auto; split; [exact Hw|discriminate]].
  destruct out as [o|]; [|rewrite process_invalid by auto; split; [exact Hw|discriminate]].
  destruct (fst (convolutionKernelFromVolumeNode host v w)) as [k|e] eqn:Hk.
  - rewrite (process_outcome host w v s o k Hk). cbv zeta.
    destruct (isSegmentationNode (scene w) o); [destruct (labelmapSegments _ _)|];
      (split; [apply (HP w); [reflexivity|exact Hw]|discriminate]).
  - rewrite (process_kernel_raises host w v s o e Hk).
    apply convolutionKernelFromVolumeNode_raises in Hk. subst e.
    split; [apply (HP w); [reflexivity|exact Hw]|discriminate].
Qed.

Lemma keeps_tryWithErrorDisplay {A : Type} (P : World -> Prop) (msg : string) (body : M A) :
  (forall w w', self w' = self w -> P w -> P w') ->
  keeps P body -> keeps P (tryWithErrorDisplay host msg body).
Proof.
  intros HP Hb w Hw. unfold tryWithErrorDisplay.
  destruct (Hb w Hw) as [Hp Hr]. destruct (body w) as [[a|e] w1]; cbn [fst snd] in *.
  - split; [exact Hp|discriminate].
  - split; [|exact Hr].
    destruct (testingEnabled host); [exact Hp|].
    apply (HP w1); [reflexivity|exact Hp].
Qed.

Lemma flagOff_self (w w' : World) : self w' = self w -> flagOff w -> flagOff w'.
Proof. unfold flagOff. now intros ->. Qed.

Lemma onApplyButton_keeps (d : nat) (userConfirms : bool) :
  keeps flagOff (onApplyButton host d userConfirms).
Proof.
  unfold onApplyButton.
  apply keeps_bind; [apply triple_keeps, triple_weaken with (3 := triple_get flagOff);
                     [auto|intros ? ? [_ H]; exact H]|].
  intros w0.
  apply keeps_bind.
  { destruct (inputVolumeSelector (self w0)).
    - apply convolutionKernelFromVolumeNode_keeps, flagOff_self.
    - intros w Hw. split; [exact Hw|discriminate]. }
  intros k.
  apply keeps_bind.
  { destruct (truthy k); [apply triple_keeps, triple_ret|].
    apply triple_keeps. unfold confirmOkCancelDisplay.
    eapply triple_bind with (Q := fun _ => flagOff); [|intros ?; apply triple_ret].
    apply triple_modify. intros w H. exact H. }
  intros confirmed.
  destruct (negb confirmed); [apply triple_keeps, triple_ret|].
  apply keeps_bind; [apply triple_keeps, triple_modify; intros w H; exact H|].
  intros ?.
  apply keeps_bind; [|intros ?; apply triple_keeps, triple_modify; intros w H; exact H].
  apply keeps_tryWithErrorDisplay; [apply flagOff_self|].
  apply keeps_bind; [apply triple_keeps, triple_weaken with (3 := triple_get flagOff);
                     [auto|intros ? ? [_ H]; exact H]|].
  intros w1.
  apply keeps_bind.
  { destruct (outputSegmentationSelector (self w1)); [apply triple_keeps, triple_ret|].
    apply triple_keeps.
    eapply triple_bind with (Q := fun _ => flagOff).
    { intros w Hw. destruct w as [sc tr g]. rewrite run_AddNewNodeByClass.
      eexists _, _. split; [reflexivity|exact Hw]. }
    intros n. cbv beta.
    eapply triple_bind with (Q := fun _ => flagOff); [|intros ?; apply triple_ret].
    intros w Hw. unfold setCurrentNode. rewrite run_bind. cbn [get].
    destruct (sameNode _ _); [exists tt, w; split; [reflexivity|exact Hw]|].
    rewrite run_bind, run_modify. eexists tt, _. split; [reflexivity|exact Hw]. }
  intros segmentationNode.
  apply keeps_bind; [apply triple_keeps, triple_weaken with (3 := triple_get flagOff);
                     [auto|intros ? ? [_ H]; exact H]|].
  intros w2.
  apply keeps_bind; [apply process_keeps, flagOff_self|].
  intros ?. apply triple_keeps, triple_ret.
Qed.

Lemma handle_keeps_flagOff (depth : nat) (h : Handler) :
  keeps flagOff (handle host (3 + depth) h).
Proof.
  destruct h; cbn [handle].
  - apply triple_keeps, triple_flagOff. intros p.
    apply (updateGUIFromParameterNode_settles (S depth)).
  - apply triple_keeps, triple_flagOff. intros p.
    apply (updateParameterNodeFromGUI_settles depth).
  - apply triple_keeps.
    eapply triple_weaken with (P := flagOff)
                              (Q := fun _ => flagIs false inputParameterNode);
      [intros ? H; exact H|intros ? ? H; exact (proj1 H)|].
    apply (setParameterNode_settles (S depth)).
  - apply triple_keeps, (initializeParameterNode_settles (S depth)).
  - apply triple_keeps, (initializeParameterNode_settles (S depth)).
  - apply triple_keeps. unfold exit.
    eapply triple_bind; [apply triple_get|]. intros w0. cbv beta.
    eapply triple_weaken with (P := flagOff);
      [intros ? [_ H]; exact H|intros ? ? H; exact H|].
    destruct (_parameterNode (self w0)); [|apply triple_ret].
    apply triple_modify. intros ? H. exact H.
  - apply triple_keeps.
    eapply triple_weaken with (P := flagOff) (Q := fun _ => flagIs false None);
      [intros ? H; exact H|intros ? ? H; exact (proj1 H)|].
    apply (setParameterNode_settles (S depth) None).
  - apply triple_keeps. unfold onSceneEndClose.
    eapply triple_bind; [apply triple_get|]. intros w0. cbv beta.
    eapply triple_weaken with (P := flagOff);
      [intros ? [_ H]; exact H|intros ? ? H; exact H|].
    destruct (isEntered (self w0)); [|apply triple_ret].
    apply (initializeParameterNode_settles (S depth)).
  - apply onApplyButton_keeps.
  - apply triple_keeps, userSelects_settles.
Qed.

(** The flag is cleared between any two entries into the widget: whatever
    the application runs, one entry point after the other, from a world with
    the flag cleared (a new widget has it cleared), the flag is cleared when
    each of them is over. *)
Lemma flag_cleared_after_session (depth : nat) (hs : list Handler) (w : World) :
  flagOff w ->
  flagOff (foldl (fun w h => snd (handle host (3 + depth) h w)) w hs).
Proof.
  revert w. induction hs as [|h hs IH]; intros w Hw; cbn [foldl]; [exact Hw|].
  apply IH, (handle_keeps_flagOff depth h w Hw).
Qed.


End WidgetFacts.

(** * Further properties of the logic *)

Lemma lookupNode_None_inv (sc : Scene) (r : NodeID) :
  lookupNode sc r = None -> ~ In r (sceneIDs sc).
Proof.
  unfold lookupNode, sceneIDs.
  induction sc as [|[k n] sc IH]; cbn; [tauto|].
  destruct (Nat.eqb_spec k r) as [->|Hne]; [discriminate|].
  intros H [Hk|Hin]; [congruence|]. exact (IH H Hin).
Qed.

Section LogicProperties.

Variable host : Host.

(** X1. [convolutionKernelFromVolumeNode] raises exactly when the attribute
    'DICOM.instanceUIDs' is present, not empty and made of white space only
    (any of the characters at which [str.split()] separates); what it raises
    is the [IndexError] of [split()[0]], and the DICOM database has not been
    consulted. *)
Theorem convolutionKernelFromVolumeNode_raises_iff (w : World) (v : NodeID) :
  ((exists e, fst (convolutionKernelFromVolumeNode host v w) = Raise e)
   <-> (exists instUIDs,
          fst (GetAttribute v "DICOM.instanceUIDs" w) = Ok (Some instUIDs)
          /\ instUIDs <> "" /\ allspace instUIDs = true))
  /\ (forall e, fst (convolutionKernelFromVolumeNode host v w) = Raise e ->
                convolutionKernelFromVolumeNode host v w = (Raise IndexError, w)).
Proof.
  rewrite run_GetAttribute, convolutionKernelFromVolumeNode_run. cbn [fst].
  destruct (lookupNode (scene w) v ≫= _) as [[|c r]|].
  - split; [split|]; [intros [e [=]]|intros (s & [= <-] & Hne & _); congruence
                     |intros e [=]].
  - destruct (split (String c r)) as [|uid toks] eqn:Es.
    + split; [split|]; [|eexists; reflexivity|reflexivity].
      intros _. exists (String c r). repeat split; [discriminate|].
      now apply split_nil.
    + split; [split|]; [intros [e [=]]| |intros e [=]].
      intros (s & [= <-] & _ & Hb). apply split_nil in Hb. congruence.
  - split; [split|]; [intros [e [=]]|intros (s & [=] & _)|intros e [=]].
Qed.

Lemma lookupNode_isSegmentationNode (sc : Scene) (o : NodeID) :
  isSegmentationNode sc o = true -> exists n, lookupNode sc o = Some n.
Proof.
  unfold isSegmentationNode. destruct (lookupNode sc o) as [n|]; [eauto|discriminate].
Qed.

(** X2. When [process] returns, the output segmentation node has the
    conversion parameter "Smoothing factor" set to "0.2" and its other
    conversion parameters as before.  Apart from its segments and from its
    display node nothing else of it has changed: an output that had a display
    node has the references it had; one that had none refers to the new
    display node that the import has added to the scene for it, and its
    other references are as before. *)
Theorem process_sets_smoothing_factor (w : World) (vol seed : option NodeID) (o : NodeID) :
  fst (process host vol seed (Some o) w) = Ok tt ->
  let w' := snd (process host vol seed (Some o) w) in
  let displayNode := S (S (freshRef (scene w))) in
  exists n n',
    lookupNode (scene w) o = Some n
    /\ lookupNode (scene w') o = Some n'
    /\ conversionParameters n' = <["Smoothing factor" := "0.2"]> (conversionParameters n)
    /\ className n' = className n
    /\ superclasses n' = superclasses n
    /\ attributes n' = attributes n
    /\ image n' = image n
    /\ controlPoints n' = controlPoints n
    /\ (forall role, role <> "display" -> references n' !! role = references n !! role)
    /\ (hasDisplayNode (scene w) o = true -> references n' = references n)
    /\ (hasDisplayNode (scene w) o = false ->
        references n' !! "display" = Some displayNode
        /\ lookupNode (scene w') displayNode
           = Some (newNode "vtkMRMLSegmentationDisplayNode")).
Proof.
  intros Hok w' c.
  destruct (process_returns host w vol seed (Some o) Hok)
    as (v & s & o' & k & -> & -> & [= <-] & Hk & Hseg & Hret).
  cbv zeta in Hret. destruct Hret as [_ Hscene]. fold w' in Hscene.
  destruct (lookupNode_isSegmentationNode _ _ Hseg) as [n Hn].
  pose proof (isSegmentationNode_In _ _ Hseg) as Hin.
  exists n, (converted host (labelmapSegments host
               (labelImage host (scene w)
                  (parameters v (chosenKernel k) (freshRef (scene w)) s)))
               (displayed (scene w) o n)).
  split; [exact Hn|]. split.
  { rewrite Hscene, lookupNode_updated, Nat.eqb_refl, Hn by exact Hin. reflexivity. }
  unfold displayed.
  destruct (hasDisplayNode (scene w) o) eqn:Hhas.
  - repeat apply conj; try reflexivity. discriminate.
  - repeat apply conj; try reflexivity; try discriminate.
    + intros role Hrole. unfold converted. node_simpl.
      apply lookup_insert_ne. congruence.
    + intros _. split; [apply lookup_insert_eq|].
      rewrite Hscene.
      rewrite lookupNode_app_fresh
        by (rewrite sceneIDs_updateNode; apply fresh_notin; unfold c; lia).
      now apply lookupNode_outputDisplayNode.
Qed.

Lemma cliRuns_process_trace (tr : list Event) (sc : Scene) (v : NodeID)
    (k : option string) (ps : Parameters) :
  cliRuns (tr ++ [LogInfo startedMessage] ++ kernelQueries host sc v
              ++ kernelWarning k ++ [CliRun ps])
  = cliRuns tr ++ [ps].
Proof.
  rewrite !cliRuns_app, cliRuns_kernelQueries.
  unfold kernelWarning. destruct (truthy k); reflexivity.
Qed.

Lemma last_process_trace (tr : list Event) (sc : Scene) (v : NodeID)
    (k : option string) (ps : Parameters) :
  last (tr ++ [LogInfo startedMessage] ++ kernelQueries host sc v
           ++ kernelWarning k ++ [CliRun ps])
  = Some (CliRun ps).
Proof. rewrite !app_assoc. apply last_snoc. Qed.

(** X3. When the import makes no segment of the label image, [process]
    fails with the [AttributeError] of [segment.SetTag] on [None], after the
    executable has run.  The output segmentation has then lost the segments
    it had; the temporary label map, holding the label image, and its
    display node are still in the scene, the first nodes after those the
    scene had (the only other node added is the display node of an output
    that had none); and the run of the executable is the last thing recorded:
    no "Processing completed" is logged. *)
Theorem process_fails_when_nothing_is_imported (w : World) (v s o : NodeID)
    (k : option string) :
  fst (convolutionKernelFromVolumeNode host v w) = Ok k ->
  isSegmentationNode (scene w) o = true ->
  labelmapSegments host
    (labelImage host (scene w) (parameters v (chosenKernel k) (freshRef (scene w)) s)) = [] ->
  let tmpLabelVolume := freshRef (scene w) in
  let displayNode := S tmpLabelVolume in
  let ps := parameters v (chosenKernel k) tmpLabelVolume s in
  let r := process host (Some v) (Some s) (Some o) w in
  fst r = Raise AttributeError
  /\ segmentsOf (scene (snd r)) o = []
  /\ lookupNode (scene (snd r)) tmpLabelVolume
     = Some (tmpLabelNode displayNode (labelImage host (scene w) ps))
  /\ lookupNode (scene (snd r)) displayNode = Some tmpLabelDisplayNode
  /\ sceneIDs (scene (snd r))
     = sceneIDs (scene w) ++ [tmpLabelVolume; displayNode]
       ++ (if hasDisplayNode (scene w) o then [] else [S displayNode])
  /\ cliRuns (trace (snd r)) = cliRuns (trace w) ++ [ps]
  /\ last (trace (snd r)) = Some (CliRun ps).
Proof.
  intros Hk Hseg Hnil t d ps r. unfold r.
  rewrite (process_outcome host w v s o k Hk). cbv zeta. fold t ps.
  fold t ps in Hnil. rewrite Hseg, Hnil. cbn [fst snd scene trace].
  assert (Ht : ~ In t (sceneIDs (scene w))) by (apply fresh_notin; unfold t; lia).
  assert (Hd : ~ In d (sceneIDs (scene w))) by (apply fresh_notin; unfold d, t; lia).
  repeat split.
  - change [] with (taggedSegments host []). now apply segmentsOf_converted.
  - apply lookupNode_tmpLabelNode. now rewrite sceneIDs_updateNode.
  - rewrite lookupNode_app_fresh by now rewrite sceneIDs_updateNode.
    unfold lookupNode, tmpNodes. cbn [app List.find fst]. fold d.
    unfold d at 1. now rewrite eqb_succ_r, Nat.eqb_refl.
  - rewrite !sceneIDs_app, sceneIDs_updateNode. unfold outputDisplayNodes.
    fold t. destruct (hasDisplayNode (scene w) o); reflexivity.
  - apply cliRuns_process_trace.
  - apply last_process_trace.
Qed.

(** X4. [process] does not look at the class of the output node before it
    runs the executable: with an output that is not a segmentation node, the
    executable runs, and then [GetSegmentation] fails with [AttributeError].
    The scene is then the one [process] started on followed by the temporary
    label map, holding the label image, and its display node; neither is
    removed. *)
Theorem process_checks_output_after_the_run (w : World) (v s o : NodeID)
    (k : option string) :
  fst (convolutionKernelFromVolumeNode host v w) = Ok k ->
  isSegmentationNode (scene w) o = false ->
  let tmpLabelVolume := freshRef (scene w) in
  let displayNode := S tmpLabelVolume in
  let ps := parameters v (chosenKernel k) tmpLabelVolume s in
  let r := process host (Some v) (Some s) (Some o) w in
  fst r = Raise AttributeError
  /\ scene (snd r)
     = scene w ++ [(tmpLabelVolume, tmpLabelNode displayNode (labelImage host (scene w) ps));
                   (displayNode, tmpLabelDisplayNode)]
  /\ cliRuns (trace (snd r)) = cliRuns (trace w) ++ [ps]
  /\ last (trace (snd r)) = Some (CliRun ps).
Proof.
  intros Hk Hseg t d ps r. unfold r.
  rewrite (process_outcome host w v s o k Hk). cbv zeta. fold t ps.
  rewrite Hseg. cbn [fst snd scene trace].
  repeat split; [apply cliRuns_process_trace|apply last_process_trace].
Qed.

(** X5. Whatever its inputs and however it ends, [process] leaves the widget
    alone, only adds to the record of events, keeps the nodes of the scene in
    their order (adding at most nodes after them), and changes no node that
    was in the scene other than the output. *)
Theorem process_frame (w : World) (vol seed out : option NodeID) :
  let w' := snd (process host vol seed out w) in
  self w' = self w
  /\ (exists events, trace w' = trace w ++ events)
  /\ (exists added, sceneIDs (scene w') = sceneIDs (scene w) ++ added)
  /\ (forall r, out <> Some r -> In r (sceneIDs (scene w)) ->
                lookupNode (scene w') r = lookupNode (scene w) r).
Proof.
  intros w'. unfold w'. clear w'.
  destruct vol as [v|];
    [|rewrite process_invalid by auto; cbn [snd]; repeat split;
      [exists []|exists []]; now rewrite app_nil_r].
  destruct seed as [s|];
    [|rewrite process_invalid by auto; cbn [snd]; repeat split;
      [exists []|exists []]; now rewrite app_nil_r].
  destruct out as [o|];
    [|rewrite process_invalid by auto; cbn [snd]; repeat split;
      [exists []|exists []]; now rewrite app_nil_r].
  destruct (fst (convolutionKernelFromVolumeNode host v w)) as [k|e] eqn:Hk.
  - rewrite (process_outcome host w v s o k Hk). cbv zeta.
    set (t := freshRef (scene w)).
    set (ps := parameters v (chosenKernel k) t s).
    set (img := labelImage host (scene w) ps).
    assert (Ht : ~ In t (sceneIDs (scene w))) by (apply fresh_notin; unfold t; lia).
    assert (Hupd : forall f rest r, Some o <> Some r -> In r (sceneIDs (scene w)) ->
              lookupNode (updateNode o f (scene w) ++ rest) r = lookupNode (scene w) r).
    { intros f rest r Hr Hin. rewrite lookupNode_updated by exact Hin.
      destruct (Nat.eqb_spec o r) as [->|]; [congruence|reflexivity]. }
    destruct (isSegmentationNode (scene w) o); [destruct (labelmapSegments host img)|];
      cbn [snd self trace scene]; (split; [reflexivity|]); (split; [eexists; rewrite <- ?app_assoc; reflexivity|]).
    + split.
      * eexists. rewrite sceneIDs_app, sceneIDs_updateNode. reflexivity.
      * intros r Hr Hin. now apply Hupd.
    + split.
      * eexists. rewrite sceneIDs_app, sceneIDs_updateNode. reflexivity.
      * intros r Hr Hin. now apply Hupd.
    + split.
      * eexists. rewrite sceneIDs_app. reflexivity.
      * intros r Hr Hin. now apply lookupNode_app_old.
  - rewrite (process_kernel_raises host w v s o e Hk). cbn [snd self trace scene].
    repeat split; [eexists; reflexivity|exists []; now rewrite app_nil_r].
Qed.

(** X6. The events of a run of [process] that returns, in their order:
    "Processing started" is logged first; then come the DICOM queries of the
    kernel look-up, if any; then the warning, if the kernel is unknown; then
    the one run of the executable; and "Processing completed" is logged
    last. *)
Theorem process_event_order (w : World) (v s o : NodeID) (k : option string) :
  fst (convolutionKernelFromVolumeNode host v w) = Ok k ->
  fst (process host (Some v) (Some s) (Some o) w) = Ok tt ->
  trace (snd (process host (Some v) (Some s) (Some o) w))
  = trace w
    ++ [LogInfo "Processing started"]
    ++ kernelQueries host (scene w) v
    ++ (if truthy k then []
        else [LogWarning "Convolution kernel is unknown, STANDARD will be used."])
    ++ [CliRun (parameters v (if truthy k then default "" k else "STANDARD")
                           (freshRef (scene w)) s)]
    ++ [LogInfo ("Processing completed in " ++ elapsed host ++ " seconds")].
Proof.
  intros Hk Hok. revert Hok.
  rewrite (process_outcome host w v s o k Hk). cbv zeta.
  destruct (isSegmentationNode (scene w) o); [|discriminate].
  destruct (labelmapSegments host _); [discriminate|].
  intros _. cbn [snd trace].
  unfold kernelWarning, chosenKernel, completedEvent, startedMessage, unknownKernelMessage.
  rewrite <- !app_assoc. reflexivity.
Qed.

(** X7. How [test_AirwaySegmentation1] ends, from the segments that the
    import makes of the label image: with none, [process] fails with
    [AttributeError] before any check of the test is reached; with exactly
    one, the test passes or fails with [AssertionError] as [numpy.allclose]
    decides on the centre of the output segmentation as [process] has left
    it; with more than one, [assertEqual] fails with [AssertionError]. *)
Theorem test_AirwaySegmentation1_result (w : World) :
  let v := freshRef (scene w) in
  let sc := sceneOfTest host (scene w) in
  let ps := parameters v "STANDARD" (freshRef sc) (S v) in
  let segs := labelmapSegments host (labelImage host sc ps) in
  let output :=
    setReference "display" (Some (S (S (freshRef sc)))) (newNode segmentationClass) in
  fst (test_AirwaySegmentation1 host w) =
  match segs with
  | [] => Raise AttributeError
  | [(segmentId, _)] =>
      if allclose 5.0
           (segmentCenterOf host (converted host segs output) segmentId)
           expectedsegmentCenter
      then Ok tt else Raise AssertionError
  | _ :: _ :: _ => Raise AssertionError
  end.
Proof.
  intros v sc ps segs output. destruct w as [sc0 tr g]. cbn [scene] in v, sc.
  unfold test_AirwaySegmentation1. rewrite test_prefix. fold v sc.
  set (W := mkWorld sc _ g).
  assert (Hk : fst (convolutionKernelFromVolumeNode host v W) = Ok None).
  { rewrite convolutionKernelFromVolumeNode_run. unfold W. cbn [scene].
    unfold sc, v. rewrite sceneOfTest_volume. reflexivity. }
  assert (Hseg : isSegmentationNode sc (S (S v)) = true).
  { unfold isSegmentationNode, sc, v. rewrite sceneOfTest_segmentation. reflexivity. }
  rewrite run_bind, (process_outcome host W v (S v) (S (S v)) None Hk). cbv zeta.
  unfold W. cbn [scene trace self].
  change (chosenKernel None) with "STANDARD". fold ps segs. rewrite Hseg.
  destruct segs as [|[i sg] rest] eqn:Esegs; [reflexivity|].
  cbv beta iota.
  rewrite run_bind. unfold show3D. cbn [mret M_ret ret]. cbv beta iota.
  set (FS := updateNode (S (S v)) _ sc ++ _).
  assert (Hlook : lookupNode FS (S (S v)) = Some (converted host ((i, sg) :: rest) output)).
  { unfold FS, sc, v, output. apply test_output. }
  assert (HsegF : isSegmentationNode FS (S (S v)) = true).
  { unfold isSegmentationNode. rewrite Hlook. reflexivity. }
  assert (HsegsF : segmentsOf FS (S (S v)) = (i, tagTrachea host sg) :: rest).
  { unfold segmentsOf. rewrite Hlook. reflexivity. }
  rewrite run_bind. unfold GetNumberOfSegments.
  rewrite run_bind, run_GetSegmentation, Hlook.
  change (className (converted host ((i, sg) :: rest) output))
    with segmentationClass.
  change (segments (converted host ((i, sg) :: rest) output))
    with ((i, tagTrachea host sg) :: rest).
  rewrite String.eqb_refl. cbv beta iota.
  cbn [mret M_ret ret length]. cbv beta iota.
  rewrite run_bind. unfold assertEqual.
  destruct rest as [|sg2 rest]; [|reflexivity].
  cbn [length Nat.eqb mret M_ret ret]. cbv beta iota.
  rewrite run_bind, run_GetNthSegmentID.
  rewrite HsegF, HsegsF. cbv beta iota.
  cbn [lookup list_lookup fmap option_fmap option_map fst default].
  change (id i) with i.
  rewrite run_bind. unfold GetSegmentCenter. rewrite run_bind.
  cbn [get scene]. rewrite Hlook. cbn [mret M_ret ret]. cbv beta iota.
  rewrite run_bind. unfold assertTrue.
  destruct (allclose 5.0 _ expectedsegmentCenter); reflexivity.
Qed.

End LogicProperties.

(** * Further properties of the widget *)

(** ** Showing the parameter node *)

Lemma updateGUIFromParameterNode_body_run (slots : Slots) (p : NodeID) (w : World) :
  guarded slots ->
  flagIs false (Some p) w ->
  updateGUIFromParameterNode_body slots w
  = (Ok tt, mkWorld (scene w) (trace w) (shownWidget (scene w) p (self w))).
Proof.
  intros Hg [Hb Hp]. unfold updateGUIFromParameterNode_body.
  rewrite run_bind. cbn [get]. rewrite Hb, Hp.
  rewrite bool_decide_eq_false_2 by discriminate. cbn [orb].
  rewrite run_bind, run_modify. cbv beta iota.
  set (w1 := set_self (with_updatingGUIFromParameterNode true) w).
  rewrite run_bind, (on_parameterNode_GetNodeReference_run p) by exact Hp. cbv beta iota.
  rewrite run_bind, setCurrentNode_guarded_run by (exact Hg || reflexivity). cbv beta iota.
  set (w2 := set_self _ w1).
  rewrite run_bind, (on_parameterNode_GetNodeReference_run p) by exact Hp. cbv beta iota.
  rewrite run_bind, setCurrentNode_guarded_run by (exact Hg || reflexivity). cbv beta iota.
  set (w3 := set_self _ w2).
  rewrite run_bind, (on_parameterNode_GetNodeReference_run p) by exact Hp. cbv beta iota.
  rewrite run_bind, setCurrentNode_guarded_run by (exact Hg || reflexivity). cbv beta iota.
  set (w4 := set_self _ w3).
  rewrite run_bind, (on_parameterNode_GetNodeReference_run p) by exact Hp. cbv beta iota.
  rewrite run_bind. unfold shownWidget.
  assert (Hp4 : _parameterNode (self w4) = Some p) by exact Hp.
  assert (Hsc : forall role, nodeReference (scene w4) p role = nodeReference (scene w) p role)
    by reflexivity.
  assert (Hw4 : w4 = mkWorld (scene w) (trace w)
            (mkWidget (Some p) true (observations (self w)) (isEntered (self w))
               (nodeReference (scene w) p "InputVolume")
               (nodeReference (scene w) p "InputSeed")
               (nodeReference (scene w) p "OutputSegmentation")
               (applyButton_enabled (self w)) (applyButton_toolTip (self w)))).
  { subst w4 w3 w2 w1. destruct w as [sc tr g]. cbn in Hp. rewrite <- Hp.
    destruct g. reflexivity. }
  rewrite Hsc.
  destruct (nodeReference (scene w) p "InputVolume") as [v|] eqn:Ev.
  - rewrite (on_parameterNode_GetNodeReference_run p) by exact Hp4. cbv beta iota.
    rewrite Hsc.
    destruct (nodeReference (scene w) p "InputSeed") as [sd|] eqn:Es;
      rewrite run_bind, run_modify; cbv beta iota; rewrite run_modify;
      rewrite Hw4, <- Hp; reflexivity.
  - cbn [mret M_ret ret]. cbv beta iota.
    rewrite run_bind, run_modify. cbv beta iota. rewrite run_modify.
    rewrite Hw4, <- Hp; reflexivity.
Qed.

Lemma updateGUIFromParameterNode_idle (slots : Slots) (w : World) :
  _parameterNode (self w) = None \/ _updatingGUIFromParameterNode (self w) = true ->
  updateGUIFromParameterNode_body slots w = (Ok tt, w).
Proof.
  intros H. unfold updateGUIFromParameterNode_body. rewrite run_bind. cbn [get].
  destruct H as [-> | ->]; [reflexivity|]. now rewrite orb_true_r.
Qed.

Lemma updateParameterNodeFromGUI_idle (slots : Slots) (w : World) :
  _parameterNode (self w) = None \/ _updatingGUIFromParameterNode (self w) = true ->
  updateParameterNodeFromGUI_body slots w = (Ok tt, w).
Proof.
  intros H. unfold updateParameterNodeFromGUI_body. rewrite run_bind. cbn [get].
  destruct H as [-> | ->]; [reflexivity|]. now rewrite orb_true_r.
Qed.

Lemma updateGUIFromParameterNode_run (d : nat) (w : World) :
  updateGUIFromParameterNode (2 + d) w
  = (Ok tt,
     match _parameterNode (self w), _updatingGUIFromParameterNode (self w) with
     | Some p, false => mkWorld (scene w) (trace w) (shownWidget (scene w) p (self w))
     | _, _ => w
     end).
Proof.
  change (updateGUIFromParameterNode (2 + d))
    with (updateGUIFromParameterNode_body (connections (S d))).
  destruct (_parameterNode (self w)) as [p|] eqn:Hp.
  - destruct (_updatingGUIFromParameterNode (self w)) eqn:Hb.
    + apply updateGUIFromParameterNode_idle. now right.
    + apply updateGUIFromParameterNode_body_run; [apply guarded_connections|split; assumption].
  - apply updateGUIFromParameterNode_idle. now left.
Qed.

(** X8. After [updateGUIFromParameterNode] the Apply button is enabled
    exactly when the parameter node refers to a node of the scene both as
    "InputVolume" and as "InputSeed", and its tool tip says which of the two
    cases it is. *)
Theorem applyButton_enabled_iff_inputs (d : nat) (p : NodeID) (w : World) :
  flagIs false (Some p) w ->
  let w' := snd (updateGUIFromParameterNode (2 + d) w) in
  (applyButton_enabled (self w') = true
   <-> (exists v, nodeReference (scene w) p "InputVolume" = Some v)
       /\ (exists s, nodeReference (scene w) p "InputSeed" = Some s))
  /\ applyButton_toolTip (self w')
     = (if applyButton_enabled (self w') then "Compute airway segmentation"
        else "Select input CT volume and seed point").
Proof.
  intros [Hb Hp] w'. unfold w'. rewrite updateGUIFromParameterNode_run, Hb, Hp.
  cbn [snd self shownWidget applyButton_enabled applyButton_toolTip].
  split; [|reflexivity].
  destruct (nodeReference (scene w) p "InputVolume") as [v|];
    destruct (nodeReference (scene w) p "InputSeed") as [s|]; cbn [isSome andb];
    (split; [try discriminate; eauto|]);
    try reflexivity; intros [[? ?] [? ?]]; discriminate.
Qed.

(** X9. [updateGUIFromParameterNode] only reads the parameter node: in
    every world it returns, and the scene, the record of events, the
    widget's parameter node, its observations and its flag are what they
    were. *)
Theorem updateGUIFromParameterNode_reads_only (d : nat) (w : World) :
  exists w',
    updateGUIFromParameterNode (2 + d) w = (Ok tt, w')
    /\ scene w' = scene w
    /\ trace w' = trace w
    /\ _parameterNode (self w') = _parameterNode (self w)
    /\ observations (self w') = observations (self w)
    /\ _updatingGUIFromParameterNode (self w') = _updatingGUIFromParameterNode (self w).
Proof.
  rewrite updateGUIFromParameterNode_run. eexists. split; [reflexivity|].
  destruct (_parameterNode (self w)) as [p|] eqn:Hp;
    [destruct (_updatingGUIFromParameterNode (self w)) eqn:Hb|];
    repeat split; assumption.
Qed.

(** X10. Showing the parameter node twice is showing it once: a second
    [updateGUIFromParameterNode] right after the first changes nothing. *)
Theorem updateGUIFromParameterNode_idempotent (d : nat) (w : World) :
  let w' := snd (updateGUIFromParameterNode (2 + d) w) in
  updateGUIFromParameterNode (2 + d) w' = (Ok tt, w').
Proof.
  intros w'. unfold w'. rewrite !updateGUIFromParameterNode_run. cbn [snd].
  destruct (_parameterNode (self w)) as [p|] eqn:Hp;
    [destruct (_updatingGUIFromParameterNode (self w)) eqn:Hb|].
  - now rewrite Hp, Hb.
  - cbn [self scene trace shownWidget _parameterNode _updatingGUIFromParameterNode].
    now rewrite Hp.
  - now rewrite Hp.
Qed.

(** ** Writing the parameter node *)

Lemma updateNode_id (p : NodeID) (sc : Scene) : updateNode p (fun n => n) sc = sc.
Proof.
  unfold updateNode. rewrite <- (map_id sc) at 2. apply map_ext.
  intros [k n]. cbn. now destruct (Nat.eqb k p).
Qed.

Lemma sameNodesBut_refl (p : NodeID) (sc : Scene) : sameNodesBut p sc sc.
Proof.
  exists (fun n => n). split; [intros n; repeat split; reflexivity|].
  now rewrite updateNode_id.
Qed.

Lemma sameNodesBut_updateNode (p : NodeID) (g : Node -> Node) (sc sc' : Scene) :
  keepsIdentity g -> sameNodesBut p sc sc' -> sameNodesBut p sc (updateNode p g sc').
Proof.
  intros Hg (f & Hf & ->). exists (fun n => g (f n)). split.
  - intros n. destruct (Hg (f n)) as (-> & -> & ->). apply Hf.
  - apply updateNode_updateNode.
Qed.

Lemma sameNodesBut_trans (p : NodeID) (sc1 sc2 sc3 : Scene) :
  sameNodesBut p sc1 sc2 -> sameNodesBut p sc2 sc3 -> sameNodesBut p sc1 sc3.
Proof.
  intros H12 (g & Hg & ->). now apply sameNodesBut_updateNode.
Qed.

Lemma sameNodesBut_ids (p : NodeID) (sc sc' : Scene) :
  sameNodesBut p sc sc' -> sceneIDs sc' = sceneIDs sc.
Proof. intros (f & _ & ->). apply sceneIDs_updateNode. Qed.

Lemma sameNodesBut_lookup (p r : NodeID) (sc sc' : Scene) :
  sameNodesBut p sc sc' -> r <> p -> lookupNode sc' r = lookupNode sc r.
Proof.
  intros (f & _ & ->) Hr. rewrite lookupNode_updateNode.
  destruct (Nat.eqb_spec p r) as [->|]; [congruence|reflexivity].
Qed.

Lemma keepsIdentity_modifiedEvent (b : bool) (k : nat) :
  keepsIdentity (with_modifiedEvent b k).
Proof. intros n. repeat split; reflexivity. Qed.

Lemma keepsIdentity_setReference (role : string) (id : option NodeID) :
  keepsIdentity (setReference role id).
Proof. intros n. repeat split; reflexivity. Qed.

Lemma referencesWith_same (role : string) (id : option NodeID) (refs : gmap string nat) :
  sameNode (refs !! role) id = true -> referencesWith role id refs = refs.
Proof.
  intros H. apply sameNode_eq in H. unfold referencesWith.
  destruct id as [i|]; [now apply insert_id|now apply delete_id].
Qed.

Lemma lookup_referencesWith (role : string) (id : option NodeID) (refs : gmap string nat) :
  referencesWith role id refs !! role = id.
Proof.
  unfold referencesWith.
  destruct id; [apply lookup_insert_eq|apply lookup_delete_eq].
Qed.

Lemma lookup_referencesWith_ne (role role' : string) (id : option NodeID)
    (refs : gmap string nat) :
  role <> role' -> referencesWith role id refs !! role' = refs !! role'.
Proof.
  intros H. unfold referencesWith.
  destruct id; [now apply lookup_insert_ne|now apply lookup_delete_ne].
Qed.

Lemma StartModify_batch (p : NodeID) (w : World) (n : Node) :
  lookupNode (scene w) p = Some n ->
  exists w', StartModify p w = (Ok (disableModifiedEvent n), w')
             /\ inBatch w p (references n) w'.
Proof.
  intros Hn. unfold StartModify. rewrite run_bind. cbn [get]. rewrite Hn.
  rewrite run_bind, run_modify. eexists. split; [reflexivity|].
  repeat split.
  - apply sameNodesBut_updateNode;
      [apply keepsIdentity_modifiedEvent|apply sameNodesBut_refl].
  - cbn [scene set_scene]. rewrite lookupNode_updateNode, Nat.eqb_refl, Hn.
    eexists. split; [reflexivity|]. split; reflexivity.
Qed.

Lemma SetNodeReferenceID_batch (slots : Slots) (w0 : World) (p : NodeID)
    (refs : gmap string nat) (role : string) (id : option NodeID) (w : World) :
  inBatch w0 p refs w ->
  exists w', SetNodeReferenceID slots p role id w = (Ok tt, w')
             /\ inBatch w0 p (referencesWith role id refs) w'.
Proof.
  intros (Hself & Htr & Hsame & n & Hn & Hdis & Hrefs).
  unfold SetNodeReferenceID. rewrite run_bind. cbn [get]. rewrite Hn.
  destruct (sameNode _ _) eqn:E.
  - exists w. split; [reflexivity|]. rewrite Hrefs in E.
    rewrite (referencesWith_same _ _ _ E).
    split; [exact Hself|]. split; [exact Htr|]. split; [exact Hsame|]. exists n. auto.
  - rewrite run_bind, run_modify. cbv beta iota.
    unfold Modified. rewrite run_bind. cbn [get scene set_scene].
    rewrite lookupNode_updateNode, Nat.eqb_refl, Hn.
    cbn [fmap option_fmap option_map].
    change (disableModifiedEvent (setReference role id n)) with (disableModifiedEvent n).
    rewrite Hdis, run_modify. eexists. split; [reflexivity|].
    split; [exact Hself|]. split; [exact Htr|]. split.
    + cbn [scene set_scene].
      apply sameNodesBut_updateNode; [apply keepsIdentity_modifiedEvent|].
      apply sameNodesBut_updateNode; [apply keepsIdentity_setReference|exact Hsame].
    + cbn [scene set_scene].
      rewrite !lookupNode_updateNode, Nat.eqb_refl, Hn.
      eexists. split; [reflexivity|]. split; [reflexivity|].
      rewrite <- Hrefs. destruct id; reflexivity.
Qed.

Lemma inBatch_flagIs (w0 : World) (p : NodeID) (refs : gmap string nat) (w : World)
    (b : bool) (q : option NodeID) :
  inBatch w0 p refs w -> flagIs b q w0 -> flagIs b q w.
Proof. intros (Hself & _) H. unfold flagIs. now rewrite Hself. Qed.

Lemma EndModify_batch (d : nat) (w0 : World) (p : NodeID) (refs : gmap string nat)
    (wasModified : bool) (w : World) :
  flagIs false (Some p) w0 ->
  inBatch w0 p refs w ->
  exists w', EndModify (connections (S (S d))) p wasModified w = (Ok tt, w')
             /\ written w0 p refs wasModified w'.
Proof.
  intros Hflag Hb. pose proof (inBatch_flagIs _ _ _ _ _ _ Hb Hflag) as Hflagw.
  destruct Hb as (Hself & Htr & Hsame & n & Hn & Hdis & Hrefs).
  unfold EndModify. rewrite run_bind. cbn [get]. rewrite Hn.
  assert (Hupd : forall b k,
            written w0 p refs b (set_scene (updateNode p (with_modifiedEvent b k)) w)).
  { intros b k. split; [exact Htr|].
    split; [apply sameNodesBut_updateNode; [apply keepsIdentity_modifiedEvent|exact Hsame]|].
    split; [|left; exact Hself].
    cbn [scene set_scene]. rewrite lookupNode_updateNode, Nat.eqb_refl, Hn.
    eexists. split; [reflexivity|]. split; [reflexivity|exact Hrefs]. }
  destruct wasModified; [rewrite run_modify; eexists; split; [reflexivity|apply Hupd]|].
  destruct (Nat.eqb _ 0); [rewrite run_modify; eexists; split; [reflexivity|apply Hupd]|].
  rewrite run_bind, run_modify. cbv beta iota.
  set (w1 := set_scene _ w). specialize (Hupd false 0). fold w1 in Hupd.
  unfold InvokeModifiedEvent. rewrite run_bind. cbn [get].
  destruct (member _ _); [|exists w1; split; [reflexivity|exact Hupd]].
  cbn [connections onModified].
  rewrite (updateGUIFromParameterNode_body_run _ p) by (apply guarded_connections || exact Hflagw).
  eexists. split; [reflexivity|].
  destruct Hupd as (Ht1 & Hs1 & Hn1 & _).
  split; [exact Ht1|]. split; [exact Hs1|]. split; [exact Hn1|].
  right. cbn [self scene]. change (self w1) with (self w). now rewrite Hself.
Qed.

(** What [updateParameterNodeFromGUI] writes, past its guard: the current
    node of each selector, under "InputVolume", "InputSeed" and
    "OutputVolume". *)
Lemma updateParameterNodeFromGUI_body_writes (d : nat) (p : NodeID) (w : World) (n : Node) :
  flagIs false (Some p) w ->
  lookupNode (scene w) p = Some n ->
  exists w',
    updateParameterNodeFromGUI_body (connections (S (S d))) w = (Ok tt, w')
    /\ written w p
         (referencesWith "OutputVolume" (outputSegmentationSelector (self w))
            (referencesWith "InputSeed" (inputSeedSelector (self w))
               (referencesWith "InputVolume" (inputVolumeSelector (self w))
                  (references n))))
         (disableModifiedEvent n) w'.
Proof.
  intros Hflag Hn. unfold updateParameterNodeFromGUI_body.
  rewrite run_bind. cbn [get]. rewrite (proj1 Hflag), (proj2 Hflag).
  rewrite bool_decide_eq_false_2 by discriminate. cbn [orb].
  assert (Hon : forall A (m : NodeID -> M A) w1 refs,
            inBatch w p refs w1 -> on_parameterNode m w1 = m p w1).
  { intros A m w1 refs Hb. unfold on_parameterNode. rewrite run_bind. cbn [get].
    now rewrite (proj2 (inBatch_flagIs _ _ _ _ _ _ Hb Hflag)). }
  rewrite run_bind.
  assert (Hon0 : on_parameterNode StartModify w = StartModify p w).
  { unfold on_parameterNode. rewrite run_bind. cbn [get]. now rewrite (proj2 Hflag). }
  rewrite Hon0.
  destruct (StartModify_batch p w n Hn) as (w1 & -> & Hb1). cbv beta iota.
  rewrite run_bind. cbn [get]. rewrite run_bind, (Hon _ _ _ _ Hb1).
  rewrite (proj1 Hb1).
  destruct (SetNodeReferenceID_batch (connections (S (S d))) w p _ "InputVolume"
              (inputVolumeSelector (self w)) w1 Hb1) as (w2 & -> & Hb2).
  cbv beta iota.
  rewrite run_bind. cbn [get]. rewrite run_bind, (Hon _ _ _ _ Hb2).
  rewrite (proj1 Hb2).
  destruct (SetNodeReferenceID_batch (connections (S (S d))) w p _ "InputSeed"
              (inputSeedSelector (self w)) w2 Hb2) as (w3 & -> & Hb3).
  cbv beta iota.
  rewrite run_bind. cbn [get]. rewrite run_bind, (Hon _ _ _ _ Hb3).
  rewrite (proj1 Hb3).
  destruct (SetNodeReferenceID_batch (connections (S (S d))) w p _ "OutputVolume"
              (outputSegmentationSelector (self w)) w3 Hb3) as (w4 & -> & Hb4).
  cbv beta iota.
  rewrite (Hon _ _ _ _ Hb4).
  exact (EndModify_batch d w p _ (disableModifiedEvent n) w4 Hflag Hb4).
Qed.

Lemma written_flagIs (w0 : World) (p : NodeID) (refs : gmap string nat) (b : bool)
    (w : World) :
  flagIs false (Some p) w0 -> written w0 p refs b w -> flagIs false (Some p) w.
Proof.
  unfold flagIs. intros [Hb Hp] (_ & _ & _ & [-> | ->]); split;
    assumption || reflexivity.
Qed.

Lemma written_parameterReference (w0 : World) (p : NodeID) (refs : gmap string nat)
    (b : bool) (w : World) (role : string) :
  flagIs false (Some p) w0 -> written w0 p refs b w ->
  parameterReference w role = refs !! role.
Proof.
  intros Hflag Hw. pose proof (written_flagIs _ _ _ _ _ Hflag Hw) as [_ Hp].
  destruct Hw as (_ & _ & (n & Hn & _ & Hrefs) & _).
  unfold parameterReference. rewrite Hp. cbn. rewrite Hn. cbn. now rewrite Hrefs.
Qed.

(** X11. Past its guard, [updateParameterNodeFromGUI] returns with the
    current node of the input volume selector stored on the parameter node
    under "InputVolume", that of the input seed selector under "InputSeed"
    and that of the output segmentation selector under "OutputVolume".  The
    references under every other role, the other nodes of the scene and the
    record of events are as before, and the modified events of the parameter
    node are enabled or disabled as they were. *)
Theorem updateParameterNodeFromGUI_stores_selection (d : nat) (p : NodeID) (w : World)
    (n : Node) :
  flagIs false (Some p) w ->
  lookupNode (scene w) p = Some n ->
  let r := updateParameterNodeFromGUI (3 + d) w in
  fst r = Ok tt
  /\ parameterReference (snd r) "InputVolume" = inputVolumeSelector (self w)
  /\ parameterReference (snd r) "InputSeed" = inputSeedSelector (self w)
  /\ parameterReference (snd r) "OutputVolume" = outputSegmentationSelector (self w)
  /\ (forall role, role <> "InputVolume" -> role <> "InputSeed" -> role <> "OutputVolume" ->
        parameterReference (snd r) role = parameterReference w role)
  /\ sceneIDs (scene (snd r)) = sceneIDs (scene w)
  /\ (forall r0, r0 <> p -> lookupNode (scene (snd r)) r0 = lookupNode (scene w) r0)
  /\ (disableModifiedEvent <$> lookupNode (scene (snd r)) p) = Some (disableModifiedEvent n)
  /\ trace (snd r) = trace w.
Proof.
  intros Hflag Hn r. unfold r.
  change (updateParameterNodeFromGUI (3 + d))
    with (updateParameterNodeFromGUI_body (connections (S (S d)))).
  destruct (updateParameterNodeFromGUI_body_writes d p w n Hflag Hn) as (w' & -> & Hw).
  cbn [fst snd]. split; [reflexivity|].
  rewrite !(written_parameterReference _ _ _ _ _ _ Hflag Hw).
  split; [|split; [|split; [|split]]].
  - rewrite !lookup_referencesWith_ne by discriminate. apply lookup_referencesWith.
  - rewrite lookup_referencesWith_ne by discriminate. apply lookup_referencesWith.
  - apply lookup_referencesWith.
  - intros role H1 H2 H3.
    rewrite (written_parameterReference _ _ _ _ _ _ Hflag Hw).
    rewrite !lookup_referencesWith_ne by congruence.
    unfold parameterReference. rewrite (proj2 Hflag). cbn. now rewrite Hn.
  - destruct Hw as (Htr & Hsame & (n' & Hn' & Hdis & _) & _).
    split; [exact (sameNodesBut_ids _ _ _ Hsame)|].
    split; [intros r0 Hr0; exact (sameNodesBut_lookup _ _ _ _ Hsame Hr0)|].
    split; [|exact Htr].
    rewrite Hn'. cbn. now rewrite Hdis.
Qed.

Lemma written_nodeReference (w0 : World) (p : NodeID) (refs : gmap string nat)
    (b : bool) (w : World) (role : string) :
  written w0 p refs b w ->
  (forall r, refs !! role = Some r -> In r (sceneIDs (scene w0))) ->
  nodeReference (scene w) p role = refs !! role.
Proof.
  intros (_ & Hsame & (n & Hn & _ & Hrefs) & _) Hin.
  pose proof (sameNodesBut_ids _ _ _ Hsame) as Hids.
  unfold nodeReference. rewrite Hn. cbn. rewrite Hrefs.
  destruct (refs !! role) as [r|] eqn:E; [|reflexivity]. cbn.
  rewrite Hids. now rewrite (proj2 (member_In r _) (Hin r eq_refl)).
Qed.

(** X12. The two input selectors do round-trip: when the node picked in
    each of them is a node of the scene (or none is picked),
    [updateParameterNodeFromGUI] followed by [updateGUIFromParameterNode]
    leaves each of them on the node it was on, and the Apply button is then
    enabled exactly when both have a node. *)
Theorem input_selection_round_trips (d : nat) (p : NodeID) (w : World) (n : Node) :
  flagIs false (Some p) w ->
  lookupNode (scene w) p = Some n ->
  (forall v, inputVolumeSelector (self w) = Some v -> In v (sceneIDs (scene w))) ->
  (forall s, inputSeedSelector (self w) = Some s -> In s (sceneIDs (scene w))) ->
  let stored := snd (updateParameterNodeFromGUI (3 + d) w) in
  let restored := snd (updateGUIFromParameterNode (2 + d) stored) in
  inputVolumeSelector (self restored) = inputVolumeSelector (self w)
  /\ inputSeedSelector (self restored) = inputSeedSelector (self w)
  /\ applyButton_enabled (self restored)
     = isSome (inputVolumeSelector (self w)) && isSome (inputSeedSelector (self w)).
Proof.
  intros Hflag Hn Hv Hs stored restored. unfold restored, stored.
  change (updateParameterNodeFromGUI (3 + d))
    with (updateParameterNodeFromGUI_body (connections (S (S d)))).
  destruct (updateParameterNodeFromGUI_body_writes d p w n Hflag Hn) as (w' & -> & Hw).
  cbn [snd]. rewrite updateGUIFromParameterNode_run.
  destruct (written_flagIs _ _ _ _ _ Hflag Hw) as [-> ->].
  cbn [snd self shownWidget inputVolumeSelector inputSeedSelector applyButton_enabled].
  assert (Hiv : nodeReference (scene w') p "InputVolume" = inputVolumeSelector (self w)).
  { rewrite (written_nodeReference _ _ _ _ _ "InputVolume" Hw);
      rewrite !lookup_referencesWith_ne by discriminate;
      rewrite lookup_referencesWith; [reflexivity|exact Hv]. }
  assert (His : nodeReference (scene w') p "InputSeed" = inputSeedSelector (self w)).
  { rewrite (written_nodeReference _ _ _ _ _ "InputSeed" Hw);
      rewrite !lookup_referencesWith_ne by discriminate;
      rewrite lookup_referencesWith; [reflexivity|exact Hs]. }
  rewrite Hiv, His. repeat split.
Qed.

Lemma sameNode_ne (a b : option NodeID) : a <> b -> sameNode a b = false.
Proof.
  intros H. destruct (sameNode a b) eqn:E; [|reflexivity].
  now apply sameNode_eq in E.
Qed.

(** X13. A pick of the user in one of the two input selectors is stored on
    the parameter node at once, under the role of that selector.  A pick in
    the output segmentation selector changes that selector and nothing else:
    its signal is not connected, and the parameter node is not written. *)
Theorem user_selection_reaches_parameterNode (d : nat) (p : NodeID) (w : World) (n : Node)
    (sel : Selector) (node : option NodeID) :
  flagIs false (Some p) w ->
  lookupNode (scene w) p = Some n ->
  currentNode sel (self w) <> node ->
  let r := userSelects (3 + d) sel node w in
  fst r = Ok tt
  /\ match sel with
     | selInputVolume => parameterReference (snd r) "InputVolume" = node
     | selInputSeed => parameterReference (snd r) "InputSeed" = node
     | selOutputSegmentation =>
         snd r = set_self (with_currentNode selOutputSegmentation node) w
     end.
Proof.
  intros Hflag Hn Hne r. unfold r, userSelects, setCurrentNode.
  rewrite run_bind. cbn [get]. rewrite (sameNode_ne _ _ Hne).
  rewrite run_bind, run_modify. cbv beta iota.
  set (w1 := set_self (with_currentNode sel node) w).
  assert (Hflag1 : flagIs false (Some p) w1) by (destruct Hflag; destruct sel; split; assumption).
  assert (Hn1 : lookupNode (scene w1) p = Some n) by exact Hn.
  destruct (updateParameterNodeFromGUI_body_writes d p w1 n Hflag1 Hn1) as (w' & E & Hw).
  destruct sel; cbv beta iota;
    try change (onCurrentNodeChanged (connections (3 + d)))
          with (updateParameterNodeFromGUI_body (connections (S (S d)))).
  - rewrite E. cbn [fst snd]. split; [reflexivity|].
    rewrite (written_parameterReference _ _ _ _ _ _ Hflag1 Hw).
    rewrite !lookup_referencesWith_ne by discriminate. apply lookup_referencesWith.
  - rewrite E. cbn [fst snd]. split; [reflexivity|].
    rewrite (written_parameterReference _ _ _ _ _ _ Hflag1 Hw).
    rewrite !lookup_referencesWith_ne by discriminate. apply lookup_referencesWith.
  - split; reflexivity.
Qed.

(** ** Setting the parameter node *)

Lemma setParameterNode_run (depth : nat) (new : option NodeID) (w : World) :
  setParameterNode depth new w
  = updateGUIFromParameterNode depth (set_self (reobserve new) w).
Proof.
  unfold setParameterNode.
  rewrite run_bind.
  assert (H0 : match new with Some p => setDefaultParameters p | None => mret tt end w
               = (Ok tt, w)) by (destruct new; reflexivity).
  rewrite H0. cbv beta iota.
  rewrite run_bind. cbn [get]. rewrite run_bind.
  destruct w as [sc tr g]. cbn [self].
  unfold reobserve, set_self. cbn [self scene trace].
  destruct (_parameterNode g) as [old|] eqn:Hold.
  - unfold removeObserver. rewrite run_modify. cbv beta iota.
    rewrite run_bind, run_modify. cbv beta iota.
    rewrite run_bind. cbn [get]. rewrite run_bind.
    unfold set_self. cbn [self scene trace].
    destruct new as [p|].
    + cbn [with_parameterNode _parameterNode].
      unfold addObserver. rewrite run_modify. cbv beta iota.
      unfold set_self. cbn [self scene trace]. reflexivity.
    + reflexivity.
  - cbn [mret M_ret ret]. cbv beta iota.
    rewrite run_bind, run_modify. cbv beta iota.
    rewrite run_bind. cbn [get]. rewrite run_bind.
    unfold set_self. cbn [self scene trace].
    destruct new as [p|].
    + cbn [with_parameterNode _parameterNode].
      unfold addObserver. rewrite run_modify. cbv beta iota.
      unfold set_self. cbn [self scene trace]. reflexivity.
    + reflexivity.
Qed.

Lemma member_app (x : NodeID) (l1 l2 : list NodeID) :
  member x (l1 ++ l2) = member x l1 || member x l2.
Proof. apply existsb_app. Qed.

Lemma member_filter_ne (x old : NodeID) (l : list NodeID) :
  member x (List.filter (fun y => negb (Nat.eqb y old)) l)
  = negb (Nat.eqb x old) && member x l.
Proof.
  unfold member. induction l as [|y l IH]; cbn [List.filter existsb].
  - now rewrite andb_false_r.
  - destruct (Nat.eqb_spec y old) as [->|Hy]; cbn [negb existsb].
    + rewrite IH. destruct (Nat.eqb_spec x old) as [->|Hx]; [reflexivity|].
      cbn [negb andb orb]. reflexivity.
    + rewrite IH. destruct (Nat.eqb_spec x y) as [->|Hxy]; cbn [orb].
      * destruct (Nat.eqb_spec y old); [contradiction|reflexivity].
      * reflexivity.
Qed.

Lemma reobserve_parameterNode (new : option NodeID) (g : Widget) :
  _parameterNode (reobserve new g) = new
  /\ _updatingGUIFromParameterNode (reobserve new g) = _updatingGUIFromParameterNode g
  /\ (forall sel, currentNode sel (reobserve new g) = currentNode sel g)
  /\ applyButton_enabled (reobserve new g) = applyButton_enabled g
  /\ applyButton_toolTip (reobserve new g) = applyButton_toolTip g.
Proof.
  unfold reobserve.
  destruct (_parameterNode g); destruct new; cbv zeta;
    try (match goal with |- context [if ?c then _ else _] => destruct c end);
    repeat split; try intros []; reflexivity.
Qed.

Lemma reobserve_observations (new : option NodeID) (g : Widget) (x : NodeID) :
  member x (observations (reobserve new g))
  = (if sameNode new (Some x) then true
     else if sameNode (_parameterNode g) (Some x) then false
     else member x (observations g)).
Proof.
  unfold reobserve.
  destruct (_parameterNode g) as [old|]; destruct new as [p|];
    cbn [with_parameterNode observations with_observations sameNode].
  - destruct (member p _) eqn:Hm; cbn [observations with_observations with_parameterNode];
      rewrite ?member_app, member_filter_ne.
    + destruct (Nat.eqb_spec p x) as [->|Hpx].
      * now rewrite member_filter_ne in Hm.
      * destruct (Nat.eqb_spec old x) as [->|]; [now rewrite Nat.eqb_refl|].
        destruct (Nat.eqb_spec x old); [congruence|reflexivity].
    + cbn [member existsb]. rewrite orb_false_r.
      destruct (Nat.eqb_spec p x) as [->|Hpx].
      * rewrite Nat.eqb_refl. now rewrite orb_true_r.
      * destruct (Nat.eqb_spec x p); [congruence|]. rewrite orb_false_r.
        destruct (Nat.eqb_spec old x) as [->|]; [now rewrite Nat.eqb_refl|].
        destruct (Nat.eqb_spec x old); [congruence|reflexivity].
  - rewrite member_filter_ne.
    destruct (Nat.eqb_spec old x) as [->|]; [now rewrite Nat.eqb_refl|].
    destruct (Nat.eqb_spec x old); [congruence|reflexivity].
  - destruct (member p _) eqn:Hm; cbn [observations with_observations with_parameterNode];
      rewrite ?member_app.
    + destruct (Nat.eqb_spec p x) as [->|Hpx]; [exact Hm|reflexivity].
    + cbn [member existsb]. rewrite orb_false_r.
      destruct (Nat.eqb_spec p x) as [->|Hpx].
      * rewrite Nat.eqb_refl. now rewrite orb_true_r.
      * destruct (Nat.eqb_spec x p); [congruence|]. now rewrite orb_false_r.
  - reflexivity.
Qed.

(** X14. [setParameterNode(p)], called with the flag cleared, returns with
    [p] as the widget's parameter node and observed; the node that was the
    parameter node before, if another, is observed no more; the scene is
    untouched; and each selector shows what [p] refers to under the role
    that [updateGUIFromParameterNode] reads for it. *)
Theorem setParameterNode_observes_and_shows (d : nat) (p : NodeID) (w : World) :
  flagOff w ->
  let r := setParameterNode (2 + d) (Some p) w in
  fst r = Ok tt
  /\ _parameterNode (self (snd r)) = Some p
  /\ member p (observations (self (snd r))) = true
  /\ (forall old, _parameterNode (self w) = Some old -> old <> p ->
                  member old (observations (self (snd r))) = false)
  /\ scene (snd r) = scene w
  /\ trace (snd r) = trace w
  /\ inputVolumeSelector (self (snd r)) = nodeReference (scene w) p "InputVolume"
  /\ inputSeedSelector (self (snd r)) = nodeReference (scene w) p "InputSeed"
  /\ outputSegmentationSelector (self (snd r))
     = nodeReference (scene w) p "OutputSegmentation".
Proof.
  intros Hoff r. unfold r. rewrite setParameterNode_run, updateGUIFromParameterNode_run.
  cbn [fst snd self set_self].
  destruct (reobserve_parameterNode (Some p) (self w)) as (Hp & Hb & _).
  rewrite Hp, Hb, Hoff. cbn [self scene trace shownWidget _parameterNode observations
    inputVolumeSelector inputSeedSelector outputSegmentationSelector].
  split; [reflexivity|]. split; [exact Hp|].
  split; [|split; [|repeat split]].
  - rewrite reobserve_observations. cbn [sameNode]. now rewrite Nat.eqb_refl.
  - intros old Hold Hne. rewrite reobserve_observations, Hold. cbn [sameNode].
    destruct (Nat.eqb_spec p old); [congruence|]. now rewrite Nat.eqb_refl.
Qed.

(** X15. [onSceneStartClose] detaches the widget from its parameter node in
    every world: it returns with no parameter node, the old one is observed
    no more, the scene, the selectors and the Apply button are as they were;
    and from then on both synchronisation methods return without doing
    anything. *)
Theorem onSceneStartClose_detaches (d : nat) (w : World) :
  let r := onSceneStartClose (S d) w in
  let w' := snd r in
  fst r = Ok tt
  /\ _parameterNode (self w') = None
  /\ (forall old, _parameterNode (self w) = Some old ->
                  member old (observations (self w')) = false)
  /\ scene w' = scene w
  /\ (forall sel, currentNode sel (self w') = currentNode sel (self w))
  /\ applyButton_enabled (self w') = applyButton_enabled (self w)
  /\ updateGUIFromParameterNode (S d) w' = (Ok tt, w')
  /\ updateParameterNodeFromGUI (S d) w' = (Ok tt, w').
Proof.
  intros r w'. unfold w', r, onSceneStartClose. clear r w'.
  rewrite setParameterNode_run.
  destruct (reobserve_parameterNode None (self w)) as (Hp & Hb & Hsel & Hen & _).
  assert (Hidle : updateGUIFromParameterNode (S d) (set_self (reobserve None) w)
                  = (Ok tt, set_self (reobserve None) w)).
  { apply updateGUIFromParameterNode_idle. left. exact Hp. }
  rewrite Hidle. cbn [fst snd].
  split; [reflexivity|]. split; [exact Hp|].
  split; [|split; [reflexivity|split; [exact Hsel|split; [exact Hen|split]]]].
  - intros old Hold. cbn [self set_self].
    rewrite reobserve_observations, Hold. cbn [sameNode]. now rewrite Nat.eqb_refl.
  - exact Hidle.
  - apply updateParameterNodeFromGUI_idle. left. exact Hp.
Qed.

(** X16. [exit] keeps the parameter node but stops observing it: after it,
    a change of a reference of the parameter node (by a script, by another
    module) does not reach the widget, whose selectors and button stay as
    they are. *)
Theorem exit_stops_observing (d : nat) (p : NodeID) (w : World)
    (role : string) (id : option NodeID) :
  _parameterNode (self w) = Some p ->
  let w' := snd (exit w) in
  fst (exit w) = Ok tt
  /\ _parameterNode (self w') = Some p
  /\ member p (observations (self w')) = false
  /\ scene w' = scene w
  /\ self (snd (SetNodeReferenceID (connections d) p role id w')) = self w'.
Proof.
  intros Hp w'. unfold w', exit. clear w'. rewrite !run_bind. cbn [get].
  rewrite Hp. unfold removeObserver. rewrite run_modify. cbn [fst snd].
  set (w' := set_self _ w).
  assert (Hobs : member p (observations (self w')) = false).
  { unfold w'. cbn [self set_self observations with_observations].
    rewrite member_filter_ne, Nat.eqb_refl. reflexivity. }
  split; [reflexivity|]. split; [exact Hp|]. split; [exact Hobs|]. split; [reflexivity|].
  unfold SetNodeReferenceID. rewrite run_bind. cbn [get].
  destruct (lookupNode (scene w') p) as [n|]; [|reflexivity].
  destruct (sameNode _ _); [reflexivity|].
  rewrite run_bind, run_modify. cbv beta iota.
  unfold Modified. rewrite run_bind. cbn [get].
  destruct (lookupNode _ p) as [n'|]; [|reflexivity].
  destruct (disableModifiedEvent n'); [reflexivity|].
  unfold InvokeModifiedEvent. rewrite run_bind. cbn [get self set_scene].
  now rewrite Hobs.
Qed.

(** ** Initialising the parameter node *)

Lemma lookupNode_In (sc : Scene) (r : NodeID) :
  In r (sceneIDs sc) -> exists n, lookupNode sc r = Some n.
Proof.
  intros H. destruct (lookupNode sc r) as [n|] eqn:E; [eauto|].
  now apply lookupNode_None_inv in E.
Qed.

Lemma find_updateNode (P : NodeID * Node -> bool) (p : NodeID) (f : Node -> Node)
    (sc : Scene) :
  (forall k n, P (k, f n) = P (k, n)) ->
  fst <$> List.find P (updateNode p f sc) = fst <$> List.find P sc.
Proof.
  intros HP. unfold updateNode.
  induction sc as [|[k n] sc IH]; cbn [map List.find fst snd]; [reflexivity|].
  destruct (Nat.eqb k p); cbn [fst snd]; rewrite ?HP;
    (destruct (P (k, n)); [reflexivity|exact IH]).
Qed.

Lemma firstNodeByClass_sameNodesBut (p : NodeID) (sc sc' : Scene) (cls : string) :
  sameNodesBut p sc sc' -> firstNodeByClass sc' cls = firstNodeByClass sc cls.
Proof.
  intros (f & Hf & ->). apply find_updateNode. intros k n. cbn [snd].
  unfold isA. destruct (Hf n) as (-> & -> & _). reflexivity.
Qed.

Lemma moduleParameterNode_sameNodesBut (p : NodeID) (sc sc' : Scene) :
  sameNodesBut p sc sc' -> moduleParameterNode sc' = moduleParameterNode sc.
Proof.
  intros (f & Hf & ->). apply find_updateNode. intros k n.
  unfold isParameterNode. cbn [snd]. destruct (Hf n) as (-> & _ & ->). reflexivity.
Qed.

Lemma find_fst_In (P : NodeID * Node -> bool) (sc : Scene) (r : NodeID) :
  fst <$> List.find P sc = Some r -> In r (sceneIDs sc).
Proof.
  destruct (List.find P sc) as [e|] eqn:E; [|discriminate].
  intros [= <-]. apply find_some in E as [Hin _].
  unfold sceneIDs. now apply in_map.
Qed.

Lemma run_GetFirstNodeByClass (cls : string) (w : World) :
  GetFirstNodeByClass cls w = (Ok (firstNodeByClass (scene w) cls), w).
Proof. reflexivity. Qed.

Lemma run_getParameterNode (w : World) :
  getParameterNode w =
  match moduleParameterNode (scene w) with
  | Some p => (Ok p, w)
  | None =>
      (Ok (freshRef (scene w)),
       mkWorld (scene w ++ [(freshRef (scene w), newParameterNode)]) (trace w) (self w))
  end.
Proof.
  unfold getParameterNode, moduleParameterNode. rewrite run_bind. cbn [get].
  fold isParameterNode.
  change (fun e : NodeID * Node =>
            String.eqb (className (snd e)) "vtkMRMLScriptedModuleNode"
            && bool_decide (attributes (snd e) !! "ModuleName" = Some moduleName))
    with isParameterNode.
  destruct (List.find isParameterNode (scene w)) as [e|]; [reflexivity|].
  cbn [fmap option_fmap option_map].
  destruct w as [sc tr g]. cbn [scene trace self].
  rewrite run_bind, run_AddNewNodeByClass. cbv beta iota.
  rewrite run_bind, run_modify, set_scene_mk.
  rewrite updateNode_fresh_snoc by (apply fresh_notin; lia).
  reflexivity.
Qed.

Lemma find_app_None {A : Type} (P : A -> bool) (l1 l2 : list A) :
  List.find P l1 = None -> List.find P (l1 ++ l2) = List.find P l2.
Proof.
  induction l1 as [|x l1 IH]; cbn [List.find app]; [reflexivity|].
  destruct (P x); [discriminate|exact IH].
Qed.

Lemma find_app_Some {A : Type} (P : A -> bool) (l1 l2 : list A) (x : A) :
  List.find P l1 = Some x -> List.find P (l1 ++ l2) = Some x.
Proof.
  induction l1 as [|y l1 IH]; cbn [List.find app]; [discriminate|].
  destruct (P y); [auto|exact IH].
Qed.

(** What [getParameterNode] returns and leaves: the parameter node of the
    module is in the scene, and for the rest of [initializeParameterNode]
    the scene is as good as the one before. *)
Lemma getParameterNode_post (w : World) :
  exists p w1,
    getParameterNode w = (Ok p, w1)
    /\ self w1 = self w
    /\ trace w1 = trace w
    /\ moduleParameterNode (scene w1) = Some p
    /\ (forall q, moduleParameterNode (scene w) = Some q -> p = q)
    /\ (forall role, nodeReference (scene w1) p role = nodeReference (scene w) p role)
    /\ (forall cls, isA newParameterNode cls = false ->
                    firstNodeByClass (scene w1) cls = firstNodeByClass (scene w) cls).
Proof.
  rewrite run_getParameterNode.
  destruct (moduleParameterNode (scene w)) as [p|] eqn:E.
  - exists p, w. repeat split; [exact E|congruence].
  - eexists _, _. split; [reflexivity|]. cbn [self trace scene].
    set (p := freshRef (scene w)).
    assert (Hp : lookupNode (scene w) p = None)
      by (apply lookupNode_None, fresh_notin; unfold p; lia).
    unfold moduleParameterNode in E.
    destruct (List.find isParameterNode (scene w)) as [e|] eqn:Ef; [discriminate|].
    split; [reflexivity|]. split; [reflexivity|]. split; [|split; [discriminate|split]].
    + unfold moduleParameterNode.
      etransitivity;
        [exact (f_equal (fmap (M := option) fst)
                  (find_app_None isParameterNode (scene w) [(p, newParameterNode)] Ef))
        |reflexivity].
    + intros role. unfold nodeReference.
      rewrite lookupNode_app, Hp, lookupNode_singleton, Nat.eqb_refl. reflexivity.
    + intros cls Hcls. unfold firstNodeByClass.
      destruct (List.find (fun e => isA (snd e) cls) (scene w))
        as [c|] eqn:Ec.
      * exact (f_equal (fmap (M := option) fst)
                 (find_app_Some _ _ [(p, newParameterNode)] _ Ec)).
      * etransitivity;
          [exact (f_equal (fmap (M := option) fst)
                    (find_app_None _ _ [(p, newParameterNode)] Ec))|].
        cbn [List.find snd]. now rewrite Hcls.
Qed.

Lemma written_refl (w : World) (p : NodeID) (n : Node) :
  lookupNode (scene w) p = Some n ->
  written w p (references n) (disableModifiedEvent n) w.
Proof.
  intros Hn. split; [reflexivity|]. split; [apply sameNodesBut_refl|].
  split; [|now left]. exists n. auto.
Qed.

Lemma SetNodeReferenceID_writes (d : nat) (p : NodeID) (role : string)
    (id : option NodeID) (w : World) (n : Node) :
  flagIs false (Some p) w ->
  lookupNode (scene w) p = Some n ->
  exists w',
    SetNodeReferenceID (connections (S (S d))) p role id w = (Ok tt, w')
    /\ written w p (referencesWith role id (references n)) (disableModifiedEvent n) w'.
Proof.
  intros Hflag Hn. unfold SetNodeReferenceID. rewrite run_bind. cbn [get]. rewrite Hn.
  destruct (sameNode _ _) eqn:E.
  - exists w. split; [reflexivity|]. rewrite (referencesWith_same _ _ _ E).
    now apply written_refl.
  - rewrite run_bind, run_modify. cbv beta iota.
    set (w1 := set_scene _ w).
    assert (Hn1 : lookupNode (scene w1) p = Some (setReference role id n)).
    { unfold w1. cbn [scene set_scene]. now rewrite lookupNode_updateNode, Nat.eqb_refl, Hn. }
    assert (Hs1 : sameNodesBut p (scene w) (scene w1)).
    { apply sameNodesBut_updateNode; [apply keepsIdentity_setReference|apply sameNodesBut_refl]. }
    assert (Hr1 : references (setReference role id n) = referencesWith role id (references n))
      by (destruct id; reflexivity).
    unfold Modified. rewrite run_bind. cbn [get]. rewrite Hn1.
    change (disableModifiedEvent (setReference role id n)) with (disableModifiedEvent n).
    destruct (disableModifiedEvent n) eqn:Hdis.
    + rewrite run_modify. eexists. split; [reflexivity|].
      split; [reflexivity|]. split.
      { apply sameNodesBut_updateNode; [apply keepsIdentity_modifiedEvent|exact Hs1]. }
      split; [|now left].
      cbn [scene set_scene]. rewrite lookupNode_updateNode, Nat.eqb_refl, Hn1.
      eexists. split; [reflexivity|]. split; [reflexivity|exact Hr1].
    + assert (Hw1 : written w p (referencesWith role id (references n)) false w1).
      { split; [reflexivity|]. split; [exact Hs1|]. split; [|now left].
        exists (setReference role id n). auto. }
      unfold InvokeModifiedEvent. rewrite run_bind. cbn [get].
      destruct (member _ _); [|exists w1; split; [reflexivity|exact Hw1]].
      cbn [connections onModified].
      rewrite (updateGUIFromParameterNode_body_run _ p)
        by (apply guarded_connections || exact Hflag).
      eexists. split; [reflexivity|].
      split; [reflexivity|]. split; [exact Hs1|].
      split; [exists (setReference role id n); auto|now right].
Qed.

Lemma written_observations (w0 : World) (p : NodeID) (refs : gmap string nat) (b : bool)
    (w : World) :
  written w0 p refs b w -> observations (self w) = observations (self w0).
Proof. intros (_ & _ & _ & [-> | ->]); reflexivity. Qed.

Lemma written_resolve (w0 : World) (p : NodeID) (refs : gmap string nat)
    (b : bool) (w : World) (role : string) :
  written w0 p refs b w ->
  nodeReference (scene w) p role = resolve (sceneIDs (scene w0)) (refs !! role).
Proof.
  intros (_ & Hsame & (n & Hn & _ & Hrefs) & _).
  unfold nodeReference, resolve. rewrite Hn. cbn [mbind option_bind].
  now rewrite Hrefs, (sameNodesBut_ids _ _ _ Hsame).
Qed.

Lemma nodeReference_resolve (sc : Scene) (p : NodeID) (n : Node) (role : string) :
  lookupNode sc p = Some n ->
  nodeReference sc p role = resolve (sceneIDs sc) (references n !! role).
Proof. intros Hn. unfold nodeReference. now rewrite Hn. Qed.

(** One default selection of [initializeParameterNode]. *)
Lemma selectDefault_post (d : nat) (p : NodeID) (role cls : string) (w : World) (n : Node) :
  flagIs false (Some p) w ->
  lookupNode (scene w) p = Some n ->
  exists w' refs,
    selectDefault (2 + d) role cls w = (Ok tt, w')
    /\ written w p refs (disableModifiedEvent n) w'
    /\ (forall role', role <> role' -> refs !! role' = references n !! role')
    /\ nodeReference (scene w') p role = defaultReference (scene w) p role cls.
Proof.
  intros Hflag Hn. unfold selectDefault, defaultReference.
  rewrite run_bind, (on_parameterNode_GetNodeReference_run p) by exact (proj2 Hflag).
  cbv beta iota.
  destruct (nodeReference (scene w) p role) as [r|] eqn:Er.
  - exists w, (references n). split; [reflexivity|]. split; [now apply written_refl|].
    split; [reflexivity|exact Er].
  - rewrite run_bind, run_GetFirstNodeByClass. cbv beta iota.
    destruct (firstNodeByClass (scene w) cls) as [f|] eqn:Ef.
    + assert (Hon : forall m : NodeID -> M unit, on_parameterNode m w = m p w).
      { intros m. unfold on_parameterNode. rewrite run_bind. cbn [get].
        now rewrite (proj2 Hflag). }
      rewrite Hon.
      change (connections (2 + d)) with (connections (S (S d))).
      destruct (SetNodeReferenceID_writes d p role (Some f) w n Hflag Hn) as (w' & E & Hw).
      exists w', (referencesWith role (Some f) (references n)).
      split; [exact E|]. split; [exact Hw|]. split.
      * intros role' Hne. now apply lookup_referencesWith_ne.
      * rewrite (written_resolve _ _ _ _ _ role Hw), lookup_referencesWith.
        unfold resolve. cbn [mbind option_bind].
        now rewrite (proj2 (member_In f _) (find_fst_In _ _ _ Ef)).
    + exists w, (references n). split; [reflexivity|]. split; [now apply written_refl|].
      split; [reflexivity|exact Er].
Qed.

(** What [initializeParameterNode] reaches from a world with the flag
    cleared. *)
Lemma initializeParameterNode_post (d : nat) (w : World) :
  flagOff w ->
  exists p w',
    initializeParameterNode (2 + d) w = (Ok tt, w')
    /\ flagIs false (Some p) w'
    /\ member p (observations (self w')) = true
    /\ moduleParameterNode (scene w') = Some p
    /\ (forall q, moduleParameterNode (scene w) = Some q -> p = q)
    /\ nodeReference (scene w') p "InputVolume"
       = defaultReference (scene w) p "InputVolume" "vtkMRMLScalarVolumeNode"
    /\ nodeReference (scene w') p "InputSeed"
       = defaultReference (scene w) p "InputSeed" "vtkMRMLMarkupsFiducialNode".
Proof.
  intros Hoff. unfold initializeParameterNode.
  destruct (getParameterNode_post w)
    as (p & w1 & E1 & Hself1 & Htr1 & Hmod1 & Hsame1 & Href1 & Hfst1).
  rewrite run_bind, E1. cbv beta iota.
  rewrite run_bind, setParameterNode_run, updateGUIFromParameterNode_run.
  cbn [self set_self].
  destruct (reobserve_parameterNode (Some p) (self w1)) as (Hp & Hb & _).
  assert (Hoff1 : _updatingGUIFromParameterNode (self w1) = false)
    by (rewrite Hself1; exact Hoff).
  rewrite Hp, Hb, Hoff1. cbv beta iota.
  change (scene (set_self (reobserve (Some p)) w1)) with (scene w1).
  change (trace (set_self (reobserve (Some p)) w1)) with (trace w1).
  set (w2 := mkWorld (scene w1) (trace w1)
               (shownWidget (scene w1) p (reobserve (Some p) (self w1)))).
  assert (Hflag2 : flagIs false (Some p) w2).
  { split; [reflexivity|]. unfold w2. cbn [self shownWidget _parameterNode]. exact Hp. }
  assert (Hobs2 : member p (observations (self w2)) = true).
  { unfold w2. cbn [self shownWidget observations].
    rewrite reobserve_observations. cbn [sameNode]. now rewrite Nat.eqb_refl. }
  destruct (lookupNode_In (scene w2) p (find_fst_In _ _ _ Hmod1)) as [n2 Hn2].
  destruct (selectDefault_post d p "InputVolume" "vtkMRMLScalarVolumeNode" w2 n2 Hflag2 Hn2)
    as (w3 & refs3 & E3 & Hw3 & Hoth3 & Hdef3).
  rewrite run_bind, E3. cbv beta iota.
  pose proof (written_flagIs _ _ _ _ _ Hflag2 Hw3) as Hflag3.
  destruct Hw3 as (Htr3 & Hsame3 & (n3 & Hn3 & Hdis3 & Hrefs3) & Hself3).
  assert (Hobs3 : observations (self w3) = observations (self w2))
    by (destruct Hself3 as [-> | ->]; reflexivity).
  destruct (selectDefault_post d p "InputSeed" "vtkMRMLMarkupsFiducialNode" w3 n3 Hflag3 Hn3)
    as (w4 & refs4 & E4 & Hw4 & Hoth4 & Hdef4).
  rewrite E4. exists p, w4. split; [reflexivity|].
  pose proof (written_flagIs _ _ _ _ _ Hflag3 Hw4) as Hflag4.
  split; [exact Hflag4|].
  pose proof (written_observations _ _ _ _ _ Hw4) as Hobs4.
  pose proof (written_resolve _ _ _ _ _ "InputVolume" Hw4) as Hiv4.
  destruct Hw4 as (Htr4 & Hsame4 & _ & _).
  split; [now rewrite Hobs4, Hobs3|].
  split.
  { rewrite (moduleParameterNode_sameNodesBut _ _ _ Hsame4).
    rewrite (moduleParameterNode_sameNodesBut _ _ _ Hsame3). exact Hmod1. }
  split; [exact Hsame1|].
  split.
  - rewrite Hiv4, Hoth4 by discriminate.
    rewrite <- (nodeReference_resolve _ _ _ _ Hn3), Hdef3.
    unfold defaultReference. change (scene w2) with (scene w1).
    rewrite Href1, Hfst1 by reflexivity. reflexivity.
  - rewrite Hdef4. unfold defaultReference.
    rewrite (firstNodeByClass_sameNodesBut _ _ _ _ Hsame3).
    rewrite (nodeReference_resolve _ _ _ _ Hn3), Hrefs3, Hoth3 by discriminate.
    rewrite (sameNodesBut_ids _ _ _ Hsame3).
    rewrite <- (nodeReference_resolve _ _ _ _ Hn2).
    change (scene w2) with (scene w1).
    rewrite Href1, Hfst1 by reflexivity. reflexivity.
Qed.

(** X17. [initializeParameterNode], called with the flag cleared, returns
    with the parameter node of the module in the scene, kept by the widget
    and observed by it.  It is the node that [getParameterNode] goes on
    returning, without adding another. *)
Theorem initializeParameterNode_ensures_parameterNode (d : nat) (w : World) :
  flagOff w ->
  let r := initializeParameterNode (2 + d) w in
  fst r = Ok tt
  /\ exists p,
       _parameterNode (self (snd r)) = Some p
       /\ In p (sceneIDs (scene (snd r)))
       /\ member p (observations (self (snd r))) = true
       /\ getParameterNode (snd r) = (Ok p, snd r).
Proof.
  intros Hoff r. unfold r.
  destruct (initializeParameterNode_post d w Hoff)
    as (p & w' & -> & Hflag & Hobs & Hmod & _).
  cbn [fst snd]. split; [reflexivity|]. exists p.
  split; [exact (proj2 Hflag)|]. split; [exact (find_fst_In _ _ _ Hmod)|].
  split; [exact Hobs|]. now rewrite run_getParameterNode, Hmod.
Qed.

(** X18. The default selections of [initializeParameterNode]: a reference
    of the parameter node to a node of the scene, under "InputVolume" or
    under "InputSeed", is kept; where there is none, the parameter node is
    made to refer to the first node of the scene that is a scalar volume
    node, and to the first that is a markups fiducial node, when the scene
    has one.  A node of a derived class counts: a label-map volume that
    comes before every other volume is the default input volume. *)
Theorem initializeParameterNode_selects_defaults (d : nat) (w : World) :
  flagOff w ->
  let w' := snd (initializeParameterNode (2 + d) w) in
  exists p,
    _parameterNode (self w') = Some p
    /\ nodeReference (scene w') p "InputVolume"
       = match nodeReference (scene w) p "InputVolume" with
         | Some v => Some v
         | None => firstNodeByClass (scene w) "vtkMRMLScalarVolumeNode"
         end
    /\ nodeReference (scene w') p "InputSeed"
       = match nodeReference (scene w) p "InputSeed" with
         | Some s => Some s
         | None => firstNodeByClass (scene w) "vtkMRMLMarkupsFiducialNode"
         end.
Proof.
  intros Hoff w'. unfold w'.
  destruct (initializeParameterNode_post d w Hoff)
    as (p & w1 & -> & Hflag & _ & _ & _ & Hiv & His).
  cbn [snd]. exists p. split; [exact (proj2 Hflag)|]. split; [exact Hiv|exact His].
Qed.

(** X23. Leaving the module and coming back: after [exit] and then [enter],
    the widget has the parameter node of the module it had, and observes it
    again. *)
Theorem exit_then_enter_observes_again (d : nat) (p : NodeID) (w : World) :
  flagOff w ->
  _parameterNode (self w) = Some p ->
  moduleParameterNode (scene w) = Some p ->
  let left := snd (exit w) in
  let back := snd (enter (2 + d) left) in
  member p (observations (self left)) = false
  /\ fst (enter (2 + d) left) = Ok tt
  /\ _parameterNode (self back) = Some p
  /\ member p (observations (self back)) = true.
Proof.
  intros Hoff Hp Hmod left back.
  assert (Hleft : left = set_self (fun g =>
            with_observations (List.filter (fun x => negb (Nat.eqb x p)) (observations g)) g) w).
  { unfold left, exit. rewrite run_bind. cbn [get]. now rewrite Hp. }
  assert (Hoff' : flagOff left) by (rewrite Hleft; exact Hoff).
  assert (Hmod' : moduleParameterNode (scene left) = Some p) by (rewrite Hleft; exact Hmod).
  split.
  - rewrite Hleft. cbn [self set_self observations with_observations].
    now rewrite member_filter_ne, Nat.eqb_refl.
  - unfold back, enter.
    destruct (initializeParameterNode_post d left Hoff')
      as (q & w' & -> & Hflag & Hobs & _ & Hq & _).
    rewrite (Hq p Hmod') in *. cbn [fst snd].
    split; [reflexivity|]. split; [exact (proj2 Hflag)|exact Hobs].
Qed.

(** * Further properties of the Apply button *)

Section ApplyButton.

Variable host : Host.

Lemma convolutionKernelFromVolumeNode_raise_run (v : NodeID) (w : World) (e : PyException) :
  fst (convolutionKernelFromVolumeNode host v w) = Raise e ->
  convolutionKernelFromVolumeNode host v w = (Raise IndexError, w).
Proof.
  rewrite convolutionKernelFromVolumeNode_run.
  destruct (lookupNode (scene w) v ≫= _) as [[|c r]|];
    [| destruct (split _) |]; cbn [fst]; try discriminate. reflexivity.
Qed.

Lemma process_self (w : World) (vol seed out : option NodeID) :
  self (snd (process host vol seed out w)) = self w.
Proof.
  destruct vol as [v|]; [|now rewrite process_invalid by auto].
  destruct seed as [s|]; [|now rewrite process_invalid by auto].
  destruct out as [o|]; [|now rewrite process_invalid by auto].
  destruct (fst (convolutionKernelFromVolumeNode host v w)) as [k|e] eqn:Hk.
  - rewrite (process_outcome host w v s o k Hk). cbv zeta.
    destruct (isSegmentationNode (scene w) o); [destruct (labelmapSegments host _)|];
      reflexivity.
  - now rewrite (process_kernel_raises host w v s o e Hk).
Qed.

Lemma process_keeps_class (w : World) (vol seed out : option NodeID) (r : NodeID) (n : Node) :
  lookupNode (scene w) r = Some n ->
  exists n', lookupNode (scene (snd (process host vol seed out w))) r = Some n'
             /\ className n' = className n.
Proof.
  intros Hn.
  destruct vol as [v|]; [|rewrite process_invalid by auto; eauto].
  destruct seed as [s|]; [|rewrite process_invalid by auto; eauto].
  destruct out as [o|]; [|rewrite process_invalid by auto; eauto].
  destruct (fst (convolutionKernelFromVolumeNode host v w)) as [k|e] eqn:Hk.
  - rewrite (process_outcome host w v s o k Hk). cbv zeta.
    pose proof (lookupNode_Some _ _ _ Hn) as Hin.
    assert (Hupd : forall segs rest, exists n',
              lookupNode (updateNode o (fun m => converted host segs (displayed (scene w) o m))
                            (scene w) ++ rest) r = Some n'
              /\ className n' = className n).
    { intros segs rest. rewrite lookupNode_updated, Hn by exact Hin.
      destruct (Nat.eqb o r); eexists; (split; [reflexivity|]); [|reflexivity].
      unfold displayed. destruct (hasDisplayNode (scene w) o); reflexivity. }
    destruct (isSegmentationNode (scene w) o); [destruct (labelmapSegments host _)|];
      cbn [snd scene].
    + apply Hupd.
    + apply Hupd.
    + exists n. rewrite lookupNode_app, Hn. auto.
  - rewrite (process_kernel_raises host w v s o e Hk). eauto.
Qed.

(** X19. A failure of the kernel look-up leaves [onApplyButton] as it is
    raised, outside the error display: with no input volume selected the
    method fails with [AttributeError], with an instance-UID attribute of
    white space only with [IndexError]; nothing has been done then, and no
    error box is shown. *)
Theorem onApplyButton_lookup_failure (d : nat) (userConfirms : bool) (w : World) :
  (inputVolumeSelector (self w) = None ->
   onApplyButton host d userConfirms w = (Raise AttributeError, w))
  /\ (forall v e,
        inputVolumeSelector (self w) = Some v ->
        fst (convolutionKernelFromVolumeNode host v w) = Raise e ->
        onApplyButton host d userConfirms w = (Raise IndexError, w)).
Proof.
  split.
  - intros Hv. unfold onApplyButton. rewrite run_bind. cbn [get]. rewrite Hv.
    rewrite run_bind. reflexivity.
  - intros v e Hv He. unfold onApplyButton. rewrite run_bind. cbn [get]. rewrite Hv.
    rewrite run_bind, (convolutionKernelFromVolumeNode_raise_run v w e He). reflexivity.
Qed.

(** X20. When the kernel cannot be determined and the user does not confirm,
    [onApplyButton] returns without running anything: the scene and the
    widget are untouched, the Apply button included, and the executable has
    not run. *)
Theorem onApplyButton_cancelled (d : nat) (w : World) (v : NodeID) (k : option string) :
  inputVolumeSelector (self w) = Some v ->
  fst (convolutionKernelFromVolumeNode host v w) = Ok k ->
  truthy k = false ->
  let r := onApplyButton host d false w in
  fst r = Ok tt
  /\ scene (snd r) = scene w
  /\ self (snd r) = self w
  /\ cliRuns (trace (snd r)) = cliRuns (trace w).
Proof.
  intros Hv Hk Hfalsy r. unfold r, onApplyButton. rewrite run_bind. cbn [get]. rewrite Hv.
  rewrite run_bind.
  pose proof (convolutionKernelFromVolumeNode_world host v w) as Hw.
  destruct (convolutionKernelFromVolumeNode host v w) as [res w1].
  cbn [fst snd] in Hk, Hw. subst res w1. cbv beta iota. rewrite Hfalsy.
  rewrite run_bind. unfold confirmOkCancelDisplay. rewrite run_bind.
  cbn [logging_info modify negb mret M_ret ret fst snd scene self trace emit].
  repeat split.
  rewrite !cliRuns_app, cliRuns_kernelQueries. cbn. now rewrite !app_nil_r.
Qed.

(** [onApplyButton] once it is past the question. *)
Lemma onApplyButton_proceeds (d : nat) (userConfirms : bool) (w : World) (v : NodeID)
    (k : option string) :
  inputVolumeSelector (self w) = Some v ->
  fst (convolutionKernelFromVolumeNode host v w) = Ok k ->
  truthy k || userConfirms = true ->
  let w1 := worldOfConfirmation k (snd (convolutionKernelFromVolumeNode host v w)) in
  let pr := process host (Some v) (inputSeedSelector (self w))
              (Some (outputOfApply w1)) (worldOfApply w1) in
  onApplyButton host d userConfirms w =
  match fst pr with
  | Ok _ =>
      (Ok tt,
       set_self (fun g => with_applyButton true (applyButton_toolTip g) g) (snd pr))
  | Raise e =>
      (Raise e,
       if testingEnabled host then snd pr
       else emit (ErrorDisplay (failureText host e)) (emit (LogError (failureText host e)) (snd pr)))
  end.
Proof.
  intros Hv Hk Hgo. cbv zeta.
  unfold onApplyButton. rewrite run_bind. cbn [get]. rewrite Hv.
  rewrite run_bind.
  pose proof (convolutionKernelFromVolumeNode_world host v w) as Hw.
  destruct (convolutionKernelFromVolumeNode host v w) as [res w0].
  cbn [fst snd] in Hk, Hw |- *. subst res.
  cbv beta iota. rewrite run_bind.
  assert (Hconfirmed :
    (if truthy k then mret true else confirmOkCancelDisplay confirmMessage userConfirms) w0
    = (Ok true, worldOfConfirmation k w0)).
  { unfold worldOfConfirmation.
    destruct (truthy k); [reflexivity|].
    cbn [orb] in Hgo. subst userConfirms. reflexivity. }
  rewrite Hconfirmed. cbv beta iota. cbn [negb].
  set (w1 := worldOfConfirmation k w0).
  assert (Hself1 : self w1 = self w).
  { unfold w1, worldOfConfirmation. rewrite Hw. destruct (truthy k); reflexivity. }
  set (pr := process host (Some v) (inputSeedSelector (self w))
               (Some (outputOfApply w1)) (worldOfApply w1)).
  rewrite run_bind, run_modify. cbv beta iota.
  set (w2 := set_self _ w1).
  assert (Hbody :
    (w ← get;
     segmentationNode ←
       match outputSegmentationSelector (self w) with
       | Some n => mret n
       | None =>
           n ← AddNewNodeByClass segmentationClass;
           setCurrentNode (connections d) selOutputSegmentation (Some n);;
           mret n
       end;
     w ← get;
     process host (Some v) (inputSeedSelector (self w)) (Some segmentationNode);;
     show3D segmentationNode) w2
    = match fst pr with
      | Ok _ => (Ok tt, snd pr)
      | Raise e => (Raise e, snd pr)
      end).
  { rewrite run_bind. cbn [get]. rewrite run_bind.
    assert (Hsel : outputSegmentationSelector (self w2) = outputSegmentationSelector (self w1))
      by reflexivity.
    assert (Hseed : inputSeedSelector (self (worldOfApply w1)) = inputSeedSelector (self w)).
    { unfold worldOfApply. cbn [self with_currentNode inputSeedSelector with_applyButton].
      now rewrite Hself1. }
    rewrite Hsel.
    assert (Hstep :
      match outputSegmentationSelector (self w1) with
      | Some n => mret n
      | None =>
          n ← AddNewNodeByClass segmentationClass;
          setCurrentNode (connections d) selOutputSegmentation (Some n);;
          mret n
      end w2 = (Ok (outputOfApply w1), worldOfApply w1)).
    { unfold worldOfApply, outputOfApply.
      destruct (outputSegmentationSelector (self w1)) as [o|] eqn:Eo.
      - cbn [default mret M_ret ret]. unfold w2, set_self. cbn [scene trace self].
        rewrite with_currentNode_same by exact Eo. reflexivity.
      - cbn [default]. rewrite run_bind. unfold w2, set_self.
        rewrite run_AddNewNodeByClass. cbv beta iota.
        rewrite run_bind. unfold setCurrentNode. rewrite run_bind. cbn [get self].
        cbn [currentNode with_applyButton outputSegmentationSelector]. rewrite Eo.
        cbn [sameNode]. rewrite run_bind, run_modify. cbv beta iota.
        reflexivity. }
    rewrite Hstep. cbv beta iota.
    rewrite run_bind. cbn [get]. rewrite Hseed. rewrite run_bind. fold pr.
    destruct pr as [[[]|e] w4]; reflexivity. }
  rewrite run_bind. unfold tryWithErrorDisplay. rewrite Hbody.
  destruct (fst pr) as [[]|e]; [|reflexivity].
  cbv beta iota. now rewrite run_modify.
Qed.

Lemma worldOfConfirmation_world (k : option string) (w0 : World) :
  scene (worldOfConfirmation k w0) = scene w0
  /\ self (worldOfConfirmation k w0) = self w0.
Proof. unfold worldOfConfirmation. destruct (truthy k); split; reflexivity. Qed.

(** X21. When no output segmentation is selected, [onApplyButton] (past the
    question) adds a segmentation node to the scene and selects it as
    output; this holds however the run then ends, be it refused for a
    missing seed. *)
Theorem onApplyButton_creates_output (d : nat) (userConfirms : bool) (w : World)
    (v : NodeID) (k : option string) :
  inputVolumeSelector (self w) = Some v ->
  fst (convolutionKernelFromVolumeNode host v w) = Ok k ->
  truthy k || userConfirms = true ->
  outputSegmentationSelector (self w) = None ->
  let w' := snd (onApplyButton host d userConfirms w) in
  let o := freshRef (scene w) in
  lookupNode (scene w) o = None
  /\ outputSegmentationSelector (self w') = Some o
  /\ isSegmentationNode (scene w') o = true.
Proof.
  intros Hv Hk Hgo Hout w' o. unfold w'. clear w'.
  rewrite (onApplyButton_proceeds d userConfirms w v k Hv Hk Hgo). cbv zeta.
  pose proof (convolutionKernelFromVolumeNode_world host v w) as Hw.
  set (w0 := snd (convolutionKernelFromVolumeNode host v w)) in *.
  destruct (worldOfConfirmation_world k w0) as [Hsc1 Hself1].
  set (w1 := worldOfConfirmation k w0) in *.
  rewrite Hw in Hsc1, Hself1. cbn [scene self] in Hsc1, Hself1.
  assert (Hout1 : outputSegmentationSelector (self w1) = None) by (now rewrite Hself1).
  assert (Ho : outputOfApply w1 = o).
  { unfold outputOfApply. rewrite Hout1, Hsc1. reflexivity. }
  split; [apply lookupNode_None, fresh_notin; unfold o; lia|].
  set (pr := process host _ _ _ _).
  assert (Hself : self (snd pr) = self (worldOfApply w1)) by apply process_self.
  assert (Hnew : lookupNode (scene (worldOfApply w1)) o = Some (newNode segmentationClass)).
  { unfold worldOfApply. rewrite Hout1. cbn [scene]. rewrite Hsc1. fold o.
    rewrite lookupNode_app, lookupNode_None, lookupNode_singleton, Nat.eqb_refl
      by (apply fresh_notin; unfold o; lia).
    reflexivity. }
  destruct (process_keeps_class (worldOfApply w1) (Some v) (inputSeedSelector (self w))
              (Some (outputOfApply w1)) o _ Hnew) as (n' & Hn' & Hcls).
  fold pr in Hn'.
  assert (Hsel : outputSegmentationSelector (self (snd pr)) = Some o).
  { rewrite Hself. unfold worldOfApply. cbn [self with_currentNode outputSegmentationSelector].
    now rewrite Ho. }
  assert (Hseg : isSegmentationNode (scene (snd pr)) o = true).
  { unfold isSegmentationNode. rewrite Hn', Hcls. reflexivity. }
  destruct (fst pr); [|destruct (testingEnabled host)];
    cbn [snd self scene set_self emit with_applyButton outputSegmentationSelector];
    split; assumption.
Qed.

Lemma errorBoxes_app (t1 t2 : list Event) :
  errorBoxes (t1 ++ t2) = errorBoxes t1 ++ errorBoxes t2.
Proof. unfold errorBoxes. apply omap_app. Qed.

Lemma errorBoxes_kernelQueries (sc : Scene) (v : NodeID) :
  errorBoxes (kernelQueries host sc v) = [].
Proof.
  unfold kernelQueries.
  destruct (lookupNode sc v ≫= _) as [[|c r]|];
    [| destruct (split _) |]; reflexivity.
Qed.

(** [process] shows no error box. *)
Lemma errorBoxes_process (w : World) (vol seed out : option NodeID) :
  errorBoxes (trace (snd (process host vol seed out w))) = errorBoxes (trace w).
Proof.
  destruct vol as [v|]; [|now rewrite process_invalid by auto].
  destruct seed as [s|]; [|now rewrite process_invalid by auto].
  destruct out as [o|]; [|now rewrite process_invalid by auto].
  destruct (fst (convolutionKernelFromVolumeNode host v w)) as [k|e] eqn:Hk.
  - rewrite (process_outcome host w v s o k Hk). cbv zeta.
    destruct (isSegmentationNode (scene w) o); [destruct (labelmapSegments host _)|];
      cbn [snd trace]; rewrite !errorBoxes_app, errorBoxes_kernelQueries;
      unfold kernelWarning; destruct (truthy k); cbn; now rewrite ?app_nil_r.
  - rewrite (process_kernel_raises host w v s o e Hk). cbn [snd trace].
    rewrite errorBoxes_app. cbn. apply app_nil_r.
Qed.

(** X22. The Apply button and the error box after [onApplyButton] (past the
    question).  When the run returns, the button is enabled again and no
    error box has been shown.  When the run fails, the exception goes on to
    the caller and the button is left disabled; unless the application runs
    in testing mode, one error box has been shown, as the last thing that
    happened: its text is "Failed to compute results.", an empty line and the
    text of the exception.  In testing mode no box is shown. *)
Theorem onApplyButton_button_state (d : nat) (userConfirms : bool) (w : World)
    (v : NodeID) (k : option string) :
  inputVolumeSelector (self w) = Some v ->
  fst (convolutionKernelFromVolumeNode host v w) = Ok k ->
  truthy k || userConfirms = true ->
  let r := onApplyButton host d userConfirms w in
  match fst r with
  | Ok _ =>
      applyButton_enabled (self (snd r)) = true
      /\ errorBoxes (trace (snd r)) = errorBoxes (trace w)
  | Raise e =>
      let text := ("Failed to compute results." ++ newline ++ newline ++ str host e)%string in
      applyButton_enabled (self (snd r)) = false
      /\ errorBoxes (trace (snd r))
         = errorBoxes (trace w) ++ (if testingEnabled host then [] else [text])
      /\ (testingEnabled host = false -> last (trace (snd r)) = Some (ErrorDisplay text))
  end.
Proof.
  intros Hv Hk Hgo r. unfold r. clear r.
  rewrite (onApplyButton_proceeds d userConfirms w v k Hv Hk Hgo). cbv zeta.
  pose proof (convolutionKernelFromVolumeNode_world host v w) as Hw.
  set (w0 := snd (convolutionKernelFromVolumeNode host v w)) in *.
  set (w1 := worldOfConfirmation k w0).
  set (pr := process host _ _ _ _).
  assert (Hself : self (snd pr) = self (worldOfApply w1)) by apply process_self.
  assert (Hboxes : errorBoxes (trace (snd pr)) = errorBoxes (trace w)).
  { unfold pr. rewrite errorBoxes_process. unfold worldOfApply. cbn [trace].
    unfold w1, worldOfConfirmation. rewrite Hw.
    destruct (truthy k); cbn [trace emit];
      rewrite !errorBoxes_app, errorBoxes_kernelQueries; cbn; now rewrite ?app_nil_r. }
  destruct (fst pr) as [[]|e]; cbn [fst snd].
  - split; [reflexivity|exact Hboxes].
  - fold (failureText host e).
    assert (Hbutton : applyButton_enabled (self (snd pr)) = false).
    { rewrite Hself. unfold worldOfApply. cbn [self].
      destruct (self w1); reflexivity. }
    destruct (testingEnabled host).
    + split; [exact Hbutton|]. split; [now rewrite app_nil_r|discriminate].
    + split; [exact Hbutton|]. split.
      * cbn [trace emit]. rewrite !errorBoxes_app, Hboxes. cbn.
        now rewrite app_nil_r.
      * intros _. cbn [trace emit]. apply last_snoc.
Qed.

End ApplyButton.

(** ** Keeping the widgets in step with the parameter node *)

(** X24. [cleanup] removes every observer and nothing else: afterwards a
    change of a reference of any node, the parameter node included, leaves
    the widget as it is. *)
Theorem cleanup_removes_observers (d : nat) (w : World) (node : NodeID)
    (role : string) (id : option NodeID) :
  let w' := snd (cleanup w) in
  fst (cleanup w) = Ok tt
  /\ observations (self w') = []
  /\ _parameterNode (self w') = _parameterNode (self w)
  /\ scene w' = scene w
  /\ self (snd (SetNodeReferenceID (connections d) node role id w')) = self w'.
Proof.
  intros w'. unfold w', cleanup. rewrite run_modify. cbn [fst snd]. clear w'.
  set (w' := set_self _ w).
  repeat split.
  unfold SetNodeReferenceID. rewrite run_bind. cbn [get].
  destruct (lookupNode (scene w') node) as [n|]; [|reflexivity].
  destruct (sameNode _ _); [reflexivity|].
  rewrite run_bind, run_modify. cbv beta iota.
  unfold Modified. rewrite run_bind. cbn [get].
  destruct (lookupNode _ node) as [n'|]; [|reflexivity].
  destruct (disableModifiedEvent n'); [reflexivity|].
  unfold InvokeModifiedEvent. rewrite run_bind. reflexivity.
Qed.

(** A change of a reference of the observed parameter node, with its
    modified events enabled, keeps the widgets in step. *)
Lemma SetNodeReferenceID_inSync (d : nat) (p : NodeID) (role : string)
    (id : option NodeID) (w : World) (n : Node) :
  flagIs false (Some p) w ->
  lookupNode (scene w) p = Some n ->
  disableModifiedEvent n = false ->
  member p (observations (self w)) = true ->
  inSync p w ->
  inSync p (snd (SetNodeReferenceID (connections (S (S d))) p role id w)).
Proof.
  intros Hflag Hn Hdis Hobs Hsync.
  unfold SetNodeReferenceID. rewrite run_bind. cbn [get]. rewrite Hn.
  destruct (sameNode _ _); [exact Hsync|].
  rewrite run_bind, run_modify. cbv beta iota.
  set (w1 := set_scene _ w).
  assert (Hn1 : lookupNode (scene w1) p = Some (setReference role id n)).
  { unfold w1. cbn [scene set_scene]. now rewrite lookupNode_updateNode, Nat.eqb_refl, Hn. }
  unfold Modified. rewrite run_bind. cbn [get]. rewrite Hn1.
  change (disableModifiedEvent (setReference role id n)) with (disableModifiedEvent n).
  rewrite Hdis.
  unfold InvokeModifiedEvent. rewrite run_bind. cbn [get].
  change (self w1) with (self w). rewrite Hobs.
  cbn [connections onModified].
  rewrite (updateGUIFromParameterNode_body_run _ p)
    by (apply guarded_connections || exact Hflag).
  reflexivity.
Qed.

Lemma selectDefault_inSync (d : nat) (p : NodeID) (role cls : string) (w : World) (n : Node) :
  flagIs false (Some p) w ->
  lookupNode (scene w) p = Some n ->
  disableModifiedEvent n = false ->
  member p (observations (self w)) = true ->
  inSync p w ->
  inSync p (snd (selectDefault (2 + d) role cls w)).
Proof.
  intros Hflag Hn Hdis Hobs Hsync. unfold selectDefault.
  rewrite run_bind, (on_parameterNode_GetNodeReference_run p) by exact (proj2 Hflag).
  cbv beta iota.
  destruct (nodeReference (scene w) p role); [exact Hsync|].
  rewrite run_bind, run_GetFirstNodeByClass. cbv beta iota.
  destruct (firstNodeByClass (scene w) cls) as [f|]; [|exact Hsync].
  assert (Hon : forall m : NodeID -> M unit, on_parameterNode m w = m p w).
  { intros m. unfold on_parameterNode. rewrite run_bind. cbn [get].
    now rewrite (proj2 Hflag). }
  rewrite Hon. now apply (SetNodeReferenceID_inSync d p role (Some f) w n).
Qed.

(** X25. After [initializeParameterNode] the widgets show the parameter
    node, when the modified events of that node are enabled: each input
    selector is on the node that the parameter node refers to (the defaults
    included), and the Apply button is enabled exactly when both input
    references are set. *)
Theorem initializeParameterNode_shows_selection (d : nat) (w : World) :
  flagOff w ->
  (forall q n, moduleParameterNode (scene w) = Some q ->
               lookupNode (scene w) q = Some n -> disableModifiedEvent n = false) ->
  let w' := snd (initializeParameterNode (2 + d) w) in
  exists p,
    _parameterNode (self w') = Some p
    /\ inputVolumeSelector (self w') = nodeReference (scene w') p "InputVolume"
    /\ inputSeedSelector (self w') = nodeReference (scene w') p "InputSeed"
    /\ applyButton_enabled (self w')
       = isSome (nodeReference (scene w') p "InputVolume")
         && isSome (nodeReference (scene w') p "InputSeed").
Proof.
  intros Hoff Hen w'. unfold w', initializeParameterNode. clear w'.
  assert (H1 : exists p w1 n1,
             getParameterNode w = (Ok p, w1)
             /\ self w1 = self w
             /\ lookupNode (scene w1) p = Some n1
             /\ disableModifiedEvent n1 = false).
  { rewrite run_getParameterNode.
    destruct (moduleParameterNode (scene w)) as [p|] eqn:E.
    - destruct (lookupNode_In (scene w) p (find_fst_In _ _ _ E)) as [n Hn].
      exists p, w, n. repeat split; [exact Hn|exact (Hen p n eq_refl Hn)].
    - eexists _, _, newParameterNode. split; [reflexivity|]. split; [reflexivity|].
      split; [|reflexivity]. cbn [scene].
      rewrite lookupNode_app, lookupNode_None, lookupNode_singleton, Nat.eqb_refl
        by (apply fresh_notin; lia).
      reflexivity. }
  destruct H1 as (p & w1 & n1 & E1 & Hself1 & Hn1 & Hdis1).
  rewrite run_bind, E1. cbv beta iota.
  rewrite run_bind, setParameterNode_run, updateGUIFromParameterNode_run.
  cbn [self set_self].
  destruct (reobserve_parameterNode (Some p) (self w1)) as (Hp & Hb & _).
  assert (Hoff1 : _updatingGUIFromParameterNode (self w1) = false)
    by (rewrite Hself1; exact Hoff).
  rewrite Hp, Hb, Hoff1. cbv beta iota.
  change (scene (set_self (reobserve (Some p)) w1)) with (scene w1).
  change (trace (set_self (reobserve (Some p)) w1)) with (trace w1).
  set (w2 := mkWorld (scene w1) (trace w1)
               (shownWidget (scene w1) p (reobserve (Some p) (self w1)))).
  assert (Hflag2 : flagIs false (Some p) w2).
  { split; [reflexivity|]. unfold w2. cbn [self shownWidget _parameterNode]. exact Hp. }
  assert (Hobs2 : member p (observations (self w2)) = true).
  { unfold w2. cbn [self shownWidget observations].
    rewrite reobserve_observations. cbn [sameNode]. now rewrite Nat.eqb_refl. }
  assert (Hsync2 : inSync p w2) by reflexivity.
  assert (Hn2 : lookupNode (scene w2) p = Some n1) by exact Hn1.
  pose proof (selectDefault_inSync d p "InputVolume" "vtkMRMLScalarVolumeNode" w2 n1
                Hflag2 Hn2 Hdis1 Hobs2 Hsync2) as Hsync3.
  destruct (selectDefault_post d p "InputVolume" "vtkMRMLScalarVolumeNode" w2 n1 Hflag2 Hn2)
    as (w3 & refs3 & E3 & Hw3 & _).
  rewrite E3 in Hsync3. cbn [snd] in Hsync3.
  rewrite run_bind, E3. cbv beta iota.
  pose proof (written_flagIs _ _ _ _ _ Hflag2 Hw3) as Hflag3.
  pose proof (written_observations _ _ _ _ _ Hw3) as Hobs3.
  destruct Hw3 as (_ & _ & (n3 & Hn3 & Hdis3 & _) & _).
  rewrite Hdis1 in Hdis3.
  assert (Hobs3' : member p (observations (self w3)) = true) by (now rewrite Hobs3).
  pose proof (selectDefault_inSync d p "InputSeed" "vtkMRMLMarkupsFiducialNode" w3 n3
                Hflag3 Hn3 Hdis3 Hobs3' Hsync3) as Hsync4.
  destruct (selectDefault_post d p "InputSeed" "vtkMRMLMarkupsFiducialNode" w3 n3 Hflag3 Hn3)
    as (w4 & refs4 & E4 & Hw4 & _).
  rewrite E4 in Hsync4 |- *. cbn [snd] in Hsync4 |- *.
  pose proof (written_flagIs _ _ _ _ _ Hflag3 Hw4) as Hflag4.
  exists p. split; [exact (proj2 Hflag4)|].
  unfold inSync in Hsync4. rewrite Hsync4. repeat split.
Qed.

(** * The claims on sample scenes *)

(** The round trip of C1 fails on a sample scene.  The write goes to the role
    "OutputVolume" and the read comes from the role "OutputSegmentation": on
    [enteredWorld], where the user has picked node 3 as output segmentation,
    [updateParameterNodeFromGUI] stores 3 under "OutputVolume",
    "OutputSegmentation" stays unset, and [updateGUIFromParameterNode] puts
    nothing back into the output selector.  The two input selectors do come
    back from the roles they were stored under. *)
Lemma output_selection_is_not_restored :
  let stored := snd (updateParameterNodeFromGUI 3 enteredWorld) in
  let restored := snd (updateGUIFromParameterNode 3 stored) in
  outputSegmentationSelector (self enteredWorld) = Some 3
  /\ parameterReference stored "OutputVolume" = Some 3
  /\ parameterReference stored "OutputSegmentation" = None
  /\ outputSegmentationSelector (self restored) = None
  /\ (parameterReference stored "InputVolume" = Some 1
      /\ inputVolumeSelector (self restored) = inputVolumeSelector (self enteredWorld))
  /\ (parameterReference stored "InputSeed" = Some 2
      /\ inputSeedSelector (self restored) = inputSeedSelector (self enteredWorld)).
Proof. vm_compute. repeat split. Qed.

Lemma output_selector_ignores_stored_selection_witness :
  flagIs false (Some 4) enteredWorld
  /\ (let stored := snd (updateParameterNodeFromGUI 3 enteredWorld) in
      let restored := snd (updateGUIFromParameterNode 2 stored) in
      nodeReference (scene stored) 4 "OutputSegmentation"
      = nodeReference (scene enteredWorld) 4 "OutputSegmentation"
      /\ outputSegmentationSelector (self restored)
         = nodeReference (scene enteredWorld) 4 "OutputSegmentation").
Proof.
  split.
  - vm_compute. split; reflexivity.
  - apply (output_selector_ignores_stored_selection 0 4 enteredWorld).
    vm_compute. split; reflexivity.
Defined.

(** C2 does not hold for every present input.  On a volume whose
    instance-UID attribute is a blank, or a no-break space, [process] raises
    [IndexError] and the executable is not run. *)
Lemma process_runs_nothing_on_blank_instanceUIDs :
  (fst (process sampleHost (Some 1) (Some 2) (Some 3) blankWorld) = Raise IndexError
   /\ cliRuns (trace (snd (process sampleHost (Some 1) (Some 2) (Some 3) blankWorld))) = [])
  /\ (fst (process sampleHost (Some 1) (Some 2) (Some 3) noBreakSpaceWorld) = Raise IndexError
      /\ cliRuns (trace (snd (process sampleHost (Some 1) (Some 2) (Some 3) noBreakSpaceWorld)))
         = []).
Proof. vm_compute. repeat split. Qed.

(** The executable finds the label map of the run, and the module node, in
    the scene: on [probeHost], whose executable labels a voxel only then, a
    segment is imported. *)
Example executable_runs_on_the_label_map :
  let r := process probeHost (Some 1) (Some 2) (Some 3) plainWorld in
  fst r = Ok tt
  /\ map fst (segmentsOf (scene (snd r)) 3) = ["Segment_170"]
  /\ cliRuns (trace (snd r)) = [parameters 1 "STANDARD" 4 2]
  /\ lookupNode (scene plainWorld) 4 = None.
Proof. vm_compute. repeat split. Qed.

Lemma process_runs_executable_once_witness :
  (fst (convolutionKernelFromVolumeNode sampleHost 1 sampleWorld) = Ok (Some "B30f")
   /\ (let r := process sampleHost (Some 1) (Some 2) (Some 3) sampleWorld in
       let tmpLabelVolume := freshRef (scene sampleWorld) in
       let ps :=
         [ ("inputVolume", PyNodeID 1);
           ("reconstructionKernelType",
            PyStr (if truthy (Some "B30f") then default "" (Some "B30f") else "STANDARD"));
           ("label", PyNodeID tmpLabelVolume);
           ("seed", PyNodeID 2);
           ("labelValue", PyInt 170) ] in
       let img := airwaysegmentationcli sampleHost ps (sceneOfRun (scene sampleWorld)) in
       cliRuns (trace (snd r)) = cliRuns (trace sampleWorld) ++ [ps]
       /\ lookupNode (scene sampleWorld) tmpLabelVolume = None
       /\ className <$> lookupNode (sceneOfRun (scene sampleWorld)) tmpLabelVolume
          = Some "vtkMRMLLabelMapVolumeNode"
       /\ ((fst r = Ok tt
            /\ segmentsOf (scene (snd r)) 3
               = taggedSegments sampleHost (labelmapSegments sampleHost img))
           \/ (fst r = Raise AttributeError
               /\ lookupNode (scene (snd r)) tmpLabelVolume
                  = Some (tmpLabelNode (S tmpLabelVolume) img)))))
  /\ (fst (convolutionKernelFromVolumeNode sampleHost 1 blankWorld) = Raise IndexError
      /\ (let r := process sampleHost (Some 1) (Some 2) (Some 3) blankWorld in
          fst r = Raise IndexError
          /\ cliRuns (trace (snd r)) = cliRuns (trace blankWorld)
          /\ scene (snd r) = scene blankWorld)).
Proof.
  split.
  - split; [vm_compute; reflexivity|].
    apply (proj1 (process_runs_executable_once sampleHost sampleWorld 1 2 3) (Some "B30f")).
    vm_compute; reflexivity.
  - split; [vm_compute; reflexivity|].
    apply (proj1 (proj2 (process_runs_executable_once sampleHost blankWorld 1 2 3)) IndexError).
    vm_compute; reflexivity.
Defined.

(** C3 does not hold as an equivalence.  With all three inputs present,
    [process] raises [IndexError] on a volume whose instance-UID attribute is
    blank, and [AttributeError] when the executable labelled nothing, so that
    the import makes no segment. *)
Lemma process_raises_with_present_inputs :
  fst (process sampleHost (Some 1) (Some 2) (Some 3) blankWorld) = Raise IndexError
  /\ fst (process silentHost (Some 1) (Some 2) (Some 3) plainWorld) = Raise AttributeError.
Proof. vm_compute. split; reflexivity. Qed.

Lemma process_raises_ValueError_iff_witness :
  ((None : option NodeID) = None \/ Some 2 = None \/ Some 3 = None)
  /\ process sampleHost None (Some 2) (Some 3) sampleWorld
     = (Raise (ValueError invalidInputMessage), sampleWorld).
Proof.
  split; [left; reflexivity|].
  apply (proj2 (process_raises_ValueError_iff sampleHost sampleWorld None (Some 2) (Some 3))).
  left; reflexivity.
Defined.

Lemma process_falls_back_to_STANDARD_witness :
  (fst (convolutionKernelFromVolumeNode sampleHost 1 plainWorld) = Ok None
   /\ truthy None = false)
  /\ exists before after,
       trace (snd (process sampleHost (Some 1) (Some 2) (Some 3) plainWorld)) =
         trace plainWorld ++ before
           ++ [LogWarning unknownKernelMessage;
               CliRun (parameters 1 "STANDARD" (freshRef (scene plainWorld)) 2)]
           ++ after
       /\ cliRuns before = [] /\ cliRuns after = [].
Proof.
  split; [split; vm_compute; reflexivity|].
  apply (process_falls_back_to_STANDARD sampleHost plainWorld 1 2 3 None);
    vm_compute; reflexivity.
Defined.

(** C5 does not hold for every present attribute: an attribute that is set
    to the empty string is treated as an absent one, although the sample
    host's database has a value for every file. *)
Lemma empty_instanceUIDs_is_not_looked_up :
  fst (GetAttribute 1 "DICOM.instanceUIDs" emptyAttributeWorld) = Ok (Some "")
  /\ convolutionKernelFromVolumeNode sampleHost 1 emptyAttributeWorld
     = (Ok None, emptyAttributeWorld).
Proof. vm_compute. split; reflexivity. Qed.

(** An attribute that holds only white space has no first instance UID:
    indexing the empty list of [split] raises.  A no-break space is white
    space as a blank is. *)
Example blank_instanceUIDs_raise :
  split " " = []
  /\ fst (convolutionKernelFromVolumeNode sampleHost 1 blankWorld) = Raise IndexError
  /\ split noBreakSpace = []
  /\ fst (convolutionKernelFromVolumeNode sampleHost 1 noBreakSpaceWorld) = Raise IndexError.
Proof. vm_compute. repeat split. Qed.

Lemma convolutionKernelFromVolumeNode_spec_witness :
  (fst (GetAttribute 1 "DICOM.instanceUIDs" plainWorld) = Ok None
   /\ ((None : option string) = None \/ (None : option string) = Some "")
   /\ convolutionKernelFromVolumeNode sampleHost 1 plainWorld = (Ok None, plainWorld))
  /\ (fst (GetAttribute 1 "DICOM.instanceUIDs" blankWorld) = Ok (Some " ")
      /\ " " <> "" /\ allspace " " = true
      /\ convolutionKernelFromVolumeNode sampleHost 1 blankWorld
         = (Raise IndexError, blankWorld))
  /\ (fst (GetAttribute 1 "DICOM.instanceUIDs" sampleWorld) = Ok (Some "1.2.840.1 1.2.840.2")
      /\ allspace "1.2.840.1 1.2.840.2" = false
      /\ exists uid rest,
           split "1.2.840.1 1.2.840.2" = uid :: rest
           /\ let fileName := fileForInstance sampleHost uid in
              convolutionKernelFromVolumeNode sampleHost 1 sampleWorld =
              (Ok (Some (fileValue sampleHost fileName "0018,1210")),
               mkWorld (scene sampleWorld)
                       (trace sampleWorld
                        ++ [FileForInstance uid; FileValue fileName "0018,1210"])
                       (self sampleWorld))).
Proof.
  split; [|split].
  - split; [vm_compute; reflexivity|]. split; [left; reflexivity|].
    apply (proj1 (convolutionKernelFromVolumeNode_spec sampleHost plainWorld 1) None);
      [vm_compute; reflexivity|left; reflexivity].
  - split; [vm_compute; reflexivity|]. split; [discriminate|].
    split; [vm_compute; reflexivity|].
    apply (proj1 (proj2 (convolutionKernelFromVolumeNode_spec sampleHost blankWorld 1)) " ");
      [vm_compute; reflexivity|discriminate|vm_compute; reflexivity].
  - split; [vm_compute; reflexivity|]. split; [vm_compute; reflexivity|].
    apply (proj2 (proj2 (convolutionKernelFromVolumeNode_spec sampleHost sampleWorld 1))
                 "1.2.840.1 1.2.840.2");
      vm_compute; reflexivity.
Defined.

(** [split] on the sample attribute, on runs of blanks, tabs and line ends,
    and on white space outside ASCII (here U+00A0 and U+2003, which is
    226 128 131 in UTF-8). *)
Example split_examples :
  split "1.2.840.1 1.2.840.2" = ["1.2.840.1"; "1.2.840.2"]
  /\ split ("  1.2.3" ++ String (ascii_of_nat 9) (String (ascii_of_nat 10) "4.5.6 "))
     = ["1.2.3"; "4.5.6"]
  /\ split ("1.2" ++ noBreakSpace ++ "3.4") = ["1.2"; "3.4"]
  /\ split (String (ascii_of_nat 226) (String (ascii_of_nat 128)
              (String (ascii_of_nat 131) "7.8"))) = ["7.8"]
  /\ split "" = []
  /\ split (String (ascii_of_nat 194) "1.2") = [String (ascii_of_nat 194) "1.2"].
Proof. vm_compute. repeat split. Qed.


(** C7 does not hold of the whole scene.  After a run that returns, on an
    output segmentation that had no display node, the scene has a node that
    it did not have: the display node that the import has made for the
    output.  This is so whether or not [RemoveNode] takes the display node
    of the temporary label map along; where it does not, that display node
    is a second node gained. *)
Lemma process_leaves_a_display_node :
  (let r := process tidyHost (Some 1) (Some 2) (Some 3) sampleWorld in
   fst r = Ok tt
   /\ sceneIDs (scene sampleWorld) = [1; 2; 3]
   /\ sceneIDs (scene (snd r)) = [1; 2; 3; 6]
   /\ className <$> lookupNode (scene (snd r)) 6 = Some "vtkMRMLSegmentationDisplayNode")
  /\ (let r := process sampleHost (Some 1) (Some 2) (Some 3) sampleWorld in
      fst r = Ok tt
      /\ sceneIDs (scene (snd r)) = [1; 2; 3; 5; 6]
      /\ className <$> lookupNode (scene (snd r)) 5 = Some "vtkMRMLLabelMapVolumeDisplayNode"
      /\ className <$> lookupNode (scene (snd r)) 6 = Some "vtkMRMLSegmentationDisplayNode").
Proof. vm_compute. repeat split. Qed.

Lemma process_leaves_no_transient_node_witness :
  fst (process sampleHost (Some 1) (Some 2) (Some 3) sampleWorld) = Ok tt
  /\ (let w' := snd (process sampleHost (Some 1) (Some 2) (Some 3) sampleWorld) in
      let tmpLabelVolume := freshRef (scene sampleWorld) in
      let tmpDisplayNode := S tmpLabelVolume in
      let cliNode := S (S tmpLabelVolume) in
      let outputDisplayNode := S (S tmpLabelVolume) in
      (exists ps,
         cliRuns (trace w') = cliRuns (trace sampleWorld) ++ [ps]
         /\ segmentsOf (scene w') 3
            = taggedSegments sampleHost
                (labelmapSegments sampleHost
                   (airwaysegmentationcli sampleHost ps (sceneOfRun (scene sampleWorld)))))
      /\ className <$> lookupNode (sceneOfRun (scene sampleWorld)) tmpLabelVolume
         = Some "vtkMRMLLabelMapVolumeNode"
      /\ className <$> lookupNode (sceneOfRun (scene sampleWorld)) cliNode
         = Some "vtkMRMLCommandLineModuleNode"
      /\ lookupNode (scene w') tmpLabelVolume = None
      /\ (forall r n,
            lookupNode (scene w') r = Some n ->
            className n = "vtkMRMLLabelMapVolumeNode"
            \/ className n = "vtkMRMLCommandLineModuleNode" ->
            lookupNode (scene sampleWorld) r = Some n)
      /\ (forall r n,
            ~ In r (sceneIDs (scene sampleWorld)) -> lookupNode (scene w') r = Some n ->
            (r = tmpDisplayNode /\ n = tmpLabelDisplayNode
             /\ displayNodesRemovedWithNode sampleHost = false)
            \/ (r = outputDisplayNode /\ n = newNode "vtkMRMLSegmentationDisplayNode"
                /\ hasDisplayNode (scene sampleWorld) 3 = false))
      /\ (displayNodesRemovedWithNode sampleHost = false ->
          lookupNode (scene w') tmpDisplayNode = Some tmpLabelDisplayNode)
      /\ (hasDisplayNode (scene sampleWorld) 3 = false ->
          lookupNode (scene w') outputDisplayNode
          = Some (newNode "vtkMRMLSegmentationDisplayNode"))
      /\ (exists added, sceneIDs (scene w') = sceneIDs (scene sampleWorld) ++ added)
      /\ (forall r, r <> 3 -> In r (sceneIDs (scene sampleWorld)) ->
                    lookupNode (scene w') r = lookupNode (scene sampleWorld) r)).
Proof.
  split; [vm_compute; reflexivity|].
  apply (process_leaves_no_transient_node sampleHost sampleWorld (Some 1) (Some 2) 3).
  vm_compute; reflexivity.
Defined.

Lemma process_tags_first_segment_as_trachea_witness :
  fst (process sampleHost (Some 1) (Some 2) (Some 3) sampleWorld) = Ok tt
  /\ exists segmentId segment rest,
       segmentsOf (scene (snd (process sampleHost (Some 1) (Some 2) (Some 3) sampleWorld))) 3
         = (segmentId, segment) :: rest
       /\ segmentTags segment !! terminologyEntryTagName sampleHost
          = Some ("Segmentation category and type - 3D Slicer General Anatomy list"
                  ++ "~SCT^123037004^Anatomical Structure~SCT^44567001^Trachea"
                  ++ "~^^~Anatomic codes - DICOM master list~^^~^^")%string.
Proof.
  split; [vm_compute; reflexivity|].
  apply (process_tags_first_segment_as_trachea sampleHost sampleWorld (Some 1) (Some 2) 3).
  vm_compute; reflexivity.
Defined.

Lemma process_replaces_segments_witness :
  (fst (convolutionKernelFromVolumeNode sampleHost 1 sampleWorld) = Ok (Some "B30f")
   /\ fst (process sampleHost (Some 1) (Some 2) (Some 3) sampleWorld) = Ok tt)
  /\ (let ps := parameters 1 (chosenKernel (Some "B30f")) (freshRef (scene sampleWorld)) 2 in
      let imported := labelmapSegments sampleHost (labelImage sampleHost (scene sampleWorld) ps) in
      let after :=
        segmentsOf (scene (snd (process sampleHost (Some 1) (Some 2) (Some 3) sampleWorld))) 3 in
      after = taggedSegments sampleHost imported
      /\ map fst after = map fst imported).
Proof.
  split; [split; vm_compute; reflexivity|].
  apply (process_replaces_segments sampleHost sampleWorld 1 2 3 (Some "B30f"));
    vm_compute; reflexivity.
Defined.

(** C9 does not hold with a plain 5.0 tolerance.  On [offsetHost] the test
    passes: the output segmentation (node 6) has exactly one segment, whose
    centre is 5.001 below the expected one in the third coordinate -- more
    than 5.0, yet within 5.0 + 1e-05 * 100.3. *)
Lemma test_passes_outside_absolute_tolerance :
  let w' := snd (test_AirwaySegmentation1 offsetHost plainWorld) in
  fst (test_AirwaySegmentation1 offsetHost plainWorld) = Ok tt
  /\ exists n segmentId,
       lookupNode (scene w') 6 = Some n
       /\ map fst (segments n) = [segmentId]
       /\ withinAbsolute 5.0 (segmentCenterOf offsetHost n segmentId) expectedsegmentCenter
          = false.
Proof.
  split; [vm_compute; reflexivity|].
  eexists _, _. split; [vm_compute; reflexivity|].
  split; vm_compute; reflexivity.
Qed.

Lemma test_AirwaySegmentation1_passes_iff_witness :
  fst (test_AirwaySegmentation1 sampleHost plainWorld) = Ok tt.
Proof.
  apply (proj2 (test_AirwaySegmentation1_passes_iff sampleHost plainWorld)).
  exists "Segment_170", (mkSegment "170" ∅).
  split; vm_compute; [reflexivity|repeat split].
Defined.

(** * The further properties on sample scenes *)

Lemma convolutionKernelFromVolumeNode_raises_iff_witness :
  (exists e, fst (convolutionKernelFromVolumeNode sampleHost 1 noBreakSpaceWorld) = Raise e)
  /\ convolutionKernelFromVolumeNode sampleHost 1 blankWorld = (Raise IndexError, blankWorld).
Proof.
  split.
  - apply (proj1 (convolutionKernelFromVolumeNode_raises_iff sampleHost noBreakSpaceWorld 1)).
    exists noBreakSpace. vm_compute. repeat split. discriminate.
  - apply (proj2 (convolutionKernelFromVolumeNode_raises_iff sampleHost blankWorld 1)
                 IndexError).
    vm_compute. reflexivity.
Defined.

Lemma process_sets_smoothing_factor_witness :
  fst (process sampleHost (Some 1) (Some 2) (Some 3) sampleWorld) = Ok tt
  /\ (let w' := snd (process sampleHost (Some 1) (Some 2) (Some 3) sampleWorld) in
      let displayNode := S (S (freshRef (scene sampleWorld))) in
      exists n n',
        lookupNode (scene sampleWorld) 3 = Some n
        /\ lookupNode (scene w') 3 = Some n'
        /\ conversionParameters n' = <["Smoothing factor" := "0.2"]> (conversionParameters n)
        /\ className n' = className n
        /\ superclasses n' = superclasses n
        /\ attributes n' = attributes n
        /\ image n' = image n
        /\ controlPoints n' = controlPoints n
        /\ (forall role, role <> "display" -> references n' !! role = references n !! role)
        /\ (hasDisplayNode (scene sampleWorld) 3 = true -> references n' = references n)
        /\ (hasDisplayNode (scene sampleWorld) 3 = false ->
            references n' !! "display" = Some displayNode
            /\ lookupNode (scene w') displayNode
               = Some (newNode "vtkMRMLSegmentationDisplayNode"))).
Proof.
  split; [vm_compute; reflexivity|].
  apply (process_sets_smoothing_factor sampleHost sampleWorld (Some 1) (Some 2) 3).
  vm_compute. reflexivity.
Defined.

Lemma process_fails_when_nothing_is_imported_witness :
  (fst (convolutionKernelFromVolumeNode silentHost 1 plainWorld) = Ok None
   /\ isSegmentationNode (scene plainWorld) 3 = true
   /\ labelmapSegments silentHost
        (labelImage silentHost (scene plainWorld)
           (parameters 1 (chosenKernel None) (freshRef (scene plainWorld)) 2)) = [])
  /\ (let tmpLabelVolume := freshRef (scene plainWorld) in
      let displayNode := S tmpLabelVolume in
      let ps := parameters 1 (chosenKernel None) tmpLabelVolume 2 in
      let r := process silentHost (Some 1) (Some 2) (Some 3) plainWorld in
      fst r = Raise AttributeError
      /\ segmentsOf (scene (snd r)) 3 = []
      /\ lookupNode (scene (snd r)) tmpLabelVolume
         = Some (tmpLabelNode displayNode (labelImage silentHost (scene plainWorld) ps))
      /\ lookupNode (scene (snd r)) displayNode = Some tmpLabelDisplayNode
      /\ sceneIDs (scene (snd r))
         = sceneIDs (scene plainWorld) ++ [tmpLabelVolume; displayNode]
           ++ (if hasDisplayNode (scene plainWorld) 3 then [] else [S displayNode])
      /\ cliRuns (trace (snd r)) = cliRuns (trace plainWorld) ++ [ps]
      /\ last (trace (snd r)) = Some (CliRun ps)).
Proof.
  split; [repeat split; vm_compute; reflexivity|].
  apply (process_fails_when_nothing_is_imported silentHost plainWorld 1 2 3 None);
    vm_compute; reflexivity.
Defined.

Lemma process_checks_output_after_the_run_witness :
  (fst (convolutionKernelFromVolumeNode sampleHost 1 plainWorld) = Ok None
   /\ isSegmentationNode (scene plainWorld) 2 = false)
  /\ (let tmpLabelVolume := freshRef (scene plainWorld) in
      let displayNode := S tmpLabelVolume in
      let ps := parameters 1 (chosenKernel None) tmpLabelVolume 2 in
      let r := process sampleHost (Some 1) (Some 2) (Some 2) plainWorld in
      fst r = Raise AttributeError
      /\ scene (snd r)
         = scene plainWorld
           ++ [(tmpLabelVolume,
                tmpLabelNode displayNode (labelImage sampleHost (scene plainWorld) ps));
               (displayNode, tmpLabelDisplayNode)]
      /\ cliRuns (trace (snd r)) = cliRuns (trace plainWorld) ++ [ps]
      /\ last (trace (snd r)) = Some (CliRun ps)).
Proof.
  split; [split; vm_compute; reflexivity|].
  apply (process_checks_output_after_the_run sampleHost plainWorld 1 2 2 None);
    vm_compute; reflexivity.
Defined.

Lemma process_event_order_witness :
  (fst (convolutionKernelFromVolumeNode sampleHost 1 sampleWorld) = Ok (Some "B30f")
   /\ fst (process sampleHost (Some 1) (Some 2) (Some 3) sampleWorld) = Ok tt)
  /\ trace (snd (process sampleHost (Some 1) (Some 2) (Some 3) sampleWorld))
     = [LogInfo "Processing started";
        FileForInstance "1.2.840.1";
        FileValue "/dicom/1.2.840.1" "0018,1210";
        CliRun (parameters 1 "B30f" 4 2);
        LogInfo "Processing completed in 1.25 seconds"].
Proof.
  split; [split; vm_compute; reflexivity|].
  etransitivity;
    [apply (process_event_order sampleHost sampleWorld 1 2 3 (Some "B30f"))|];
    vm_compute; reflexivity.
Defined.

Lemma applyButton_enabled_iff_inputs_witness :
  flagIs false (Some 4) enteredWorld
  /\ (let w' := snd (updateGUIFromParameterNode 2 enteredWorld) in
      (applyButton_enabled (self w') = true
       <-> (exists v, nodeReference (scene enteredWorld) 4 "InputVolume" = Some v)
           /\ (exists s, nodeReference (scene enteredWorld) 4 "InputSeed" = Some s))
      /\ applyButton_toolTip (self w')
         = (if applyButton_enabled (self w') then "Compute airway segmentation"
            else "Select input CT volume and seed point")).
Proof.
  split; [vm_compute; split; reflexivity|].
  apply (applyButton_enabled_iff_inputs 0 4 enteredWorld).
  vm_compute. split; reflexivity.
Defined.

Lemma updateParameterNodeFromGUI_stores_selection_witness :
  (flagIs false (Some 4) enteredWorld
   /\ lookupNode (scene enteredWorld) 4 = Some enteredParameterNode)
  /\ (let r := updateParameterNodeFromGUI 3 enteredWorld in
      fst r = Ok tt
      /\ parameterReference (snd r) "InputVolume" = inputVolumeSelector (self enteredWorld)
      /\ parameterReference (snd r) "InputSeed" = inputSeedSelector (self enteredWorld)
      /\ parameterReference (snd r) "OutputVolume"
         = outputSegmentationSelector (self enteredWorld)
      /\ (forall role,
            role <> "InputVolume" -> role <> "InputSeed" -> role <> "OutputVolume" ->
            parameterReference (snd r) role = parameterReference enteredWorld role)
      /\ sceneIDs (scene (snd r)) = sceneIDs (scene enteredWorld)
      /\ (forall r0, r0 <> 4 ->
                     lookupNode (scene (snd r)) r0 = lookupNode (scene enteredWorld) r0)
      /\ (disableModifiedEvent <$> lookupNode (scene (snd r)) 4)
         = Some (disableModifiedEvent enteredParameterNode)
      /\ trace (snd r) = trace enteredWorld).
Proof.
  split; [split; [vm_compute; split; reflexivity|vm_compute; reflexivity]|].
  apply (updateParameterNodeFromGUI_stores_selection 0 4 enteredWorld enteredParameterNode).
  - vm_compute. split; reflexivity.
  - vm_compute. reflexivity.
Defined.

Lemma input_selection_round_trips_witness :
  (flagIs false (Some 4) enteredWorld
   /\ lookupNode (scene enteredWorld) 4 = Some enteredParameterNode
   /\ inputVolumeSelector (self enteredWorld) = Some 1
   /\ inputSeedSelector (self enteredWorld) = Some 2
   /\ In 1 (sceneIDs (scene enteredWorld))
   /\ In 2 (sceneIDs (scene enteredWorld)))
  /\ (let stored := snd (updateParameterNodeFromGUI 3 enteredWorld) in
      let restored := snd (updateGUIFromParameterNode 2 stored) in
      inputVolumeSelector (self restored) = inputVolumeSelector (self enteredWorld)
      /\ inputSeedSelector (self restored) = inputSeedSelector (self enteredWorld)
      /\ applyButton_enabled (self restored)
         = isSome (inputVolumeSelector (self enteredWorld))
           && isSome (inputSeedSelector (self enteredWorld))).
Proof.
  split.
  - repeat split; vm_compute; auto.
  - apply (input_selection_round_trips 0 4 enteredWorld enteredParameterNode).
    + vm_compute. split; reflexivity.
    + vm_compute. reflexivity.
    + intros v Hv. vm_compute in Hv. injection Hv as <-. vm_compute. auto.
    + intros s Hs. vm_compute in Hs. injection Hs as <-. vm_compute. auto.
Defined.

Lemma user_selection_reaches_parameterNode_witness :
  (flagIs false (Some 4) enteredWorld
   /\ lookupNode (scene enteredWorld) 4 = Some enteredParameterNode
   /\ currentNode selInputVolume (self enteredWorld) <> None)
  /\ (let r := userSelects 3 selInputVolume None enteredWorld in
      fst r = Ok tt /\ parameterReference (snd r) "InputVolume" = None).
Proof.
  split.
  - split; [vm_compute; split; reflexivity|].
    split; [vm_compute; reflexivity|vm_compute; discriminate].
  - apply (user_selection_reaches_parameterNode 0 4 enteredWorld enteredParameterNode
             selInputVolume None).
    + vm_compute. split; reflexivity.
    + vm_compute. reflexivity.
    + vm_compute. discriminate.
Defined.

Lemma setParameterNode_observes_and_shows_witness :
  flagOff enteredWorld
  /\ (let r := setParameterNode 2 (Some 4) enteredWorld in
      fst r = Ok tt
      /\ _parameterNode (self (snd r)) = Some 4
      /\ member 4 (observations (self (snd r))) = true
      /\ (forall old, _parameterNode (self enteredWorld) = Some old -> old <> 4 ->
                      member old (observations (self (snd r))) = false)
      /\ scene (snd r) = scene enteredWorld
      /\ trace (snd r) = trace enteredWorld
      /\ inputVolumeSelector (self (snd r))
         = nodeReference (scene enteredWorld) 4 "InputVolume"
      /\ inputSeedSelector (self (snd r))
         = nodeReference (scene enteredWorld) 4 "InputSeed"
      /\ outputSegmentationSelector (self (snd r))
         = nodeReference (scene enteredWorld) 4 "OutputSegmentation").
Proof.
  split; [vm_compute; reflexivity|].
  apply (setParameterNode_observes_and_shows 0 4 enteredWorld).
  vm_compute. reflexivity.
Defined.

Lemma exit_stops_observing_witness :
  _parameterNode (self enteredWorld) = Some 4
  /\ (let w' := snd (exit enteredWorld) in
      fst (exit enteredWorld) = Ok tt
      /\ _parameterNode (self w') = Some 4
      /\ member 4 (observations (self w')) = false
      /\ scene w' = scene enteredWorld
      /\ self (snd (SetNodeReferenceID (connections 3) 4 "InputVolume" None w')) = self w').
Proof.
  split; [vm_compute; reflexivity|].
  apply (exit_stops_observing 3 4 enteredWorld "InputVolume" None).
  vm_compute. reflexivity.
Defined.

Lemma initializeParameterNode_ensures_parameterNode_witness :
  flagOff plainWorld
  /\ (let r := initializeParameterNode 2 plainWorld in
      fst r = Ok tt
      /\ exists p,
           _parameterNode (self (snd r)) = Some p
           /\ In p (sceneIDs (scene (snd r)))
           /\ member p (observations (self (snd r))) = true
           /\ getParameterNode (snd r) = (Ok p, snd r)).
Proof.
  split; [vm_compute; reflexivity|].
  apply (initializeParameterNode_ensures_parameterNode 0 plainWorld).
  vm_compute. reflexivity.
Defined.

(** On a scene whose first volume is a label map, the label map is the
    default input volume. *)
Lemma initializeParameterNode_selects_defaults_witness :
  (flagOff labelFirstWorld
   /\ firstNodeByClass (scene labelFirstWorld) "vtkMRMLScalarVolumeNode" = Some 1
   /\ className <$> lookupNode (scene labelFirstWorld) 1 = Some "vtkMRMLLabelMapVolumeNode")
  /\ (let w' := snd (initializeParameterNode 2 labelFirstWorld) in
      exists p,
        _parameterNode (self w') = Some p
        /\ nodeReference (scene w') p "InputVolume"
           = match nodeReference (scene labelFirstWorld) p "InputVolume" with
             | Some v => Some v
             | None => firstNodeByClass (scene labelFirstWorld) "vtkMRMLScalarVolumeNode"
             end
        /\ nodeReference (scene w') p "InputSeed"
           = match nodeReference (scene labelFirstWorld) p "InputSeed" with
             | Some s => Some s
             | None => firstNodeByClass (scene labelFirstWorld) "vtkMRMLMarkupsFiducialNode"
             end).
Proof.
  split; [repeat split; vm_compute; reflexivity|].
  apply (initializeParameterNode_selects_defaults 0 labelFirstWorld).
  vm_compute. reflexivity.
Defined.

Lemma exit_then_enter_observes_again_witness :
  (flagOff enteredWorld
   /\ _parameterNode (self enteredWorld) = Some 4
   /\ moduleParameterNode (scene enteredWorld) = Some 4)
  /\ (let left := snd (exit enteredWorld) in
      let back := snd (enter 2 left) in
      member 4 (observations (self left)) = false
      /\ fst (enter 2 left) = Ok tt
      /\ _parameterNode (self back) = Some 4
      /\ member 4 (observations (self back)) = true).
Proof.
  split; [repeat split; vm_compute; reflexivity|].
  apply (exit_then_enter_observes_again 0 4 enteredWorld); vm_compute; reflexivity.
Defined.

Lemma onApplyButton_lookup_failure_witness :
  inputVolumeSelector (self blankWorld) = None
  /\ onApplyButton sampleHost 3 true blankWorld = (Raise AttributeError, blankWorld).
Proof.
  split; [vm_compute; reflexivity|].
  apply (proj1 (onApplyButton_lookup_failure sampleHost 3 true blankWorld)).
  vm_compute. reflexivity.
Defined.

Lemma onApplyButton_cancelled_witness :
  (inputVolumeSelector (self enteredWorld) = Some 1
   /\ fst (convolutionKernelFromVolumeNode sampleHost 1 enteredWorld) = Ok None
   /\ truthy None = false)
  /\ (let r := onApplyButton sampleHost 3 false enteredWorld in
      fst r = Ok tt
      /\ scene (snd r) = scene enteredWorld
      /\ self (snd r) = self enteredWorld
      /\ cliRuns (trace (snd r)) = cliRuns (trace enteredWorld)).
Proof.
  split; [repeat split; vm_compute; reflexivity|].
  apply (onApplyButton_cancelled sampleHost 3 enteredWorld 1 None); vm_compute; reflexivity.
Defined.

Lemma onApplyButton_creates_output_witness :
  (inputVolumeSelector (self initializedWorld) = Some 1
   /\ fst (convolutionKernelFromVolumeNode sampleHost 1 initializedWorld) = Ok None
   /\ truthy None || true = true
   /\ outputSegmentationSelector (self initializedWorld) = None)
  /\ (let w' := snd (onApplyButton sampleHost 3 true initializedWorld) in
      let o := freshRef (scene initializedWorld) in
      lookupNode (scene initializedWorld) o = None
      /\ outputSegmentationSelector (self w') = Some o
      /\ isSegmentationNode (scene w') o = true).
Proof.
  split; [repeat split; vm_compute; reflexivity|].
  apply (onApplyButton_creates_output sampleHost 3 true initializedWorld 1 None);
    vm_compute; reflexivity.
Defined.

(** A run that returns, on [sampleHost], and one that fails because nothing
    is imported, on [silentHost]: the box shows the message, an empty line
    and the text of the [AttributeError]. *)
Lemma onApplyButton_button_state_witness :
  ((inputVolumeSelector (self enteredWorld) = Some 1
    /\ fst (convolutionKernelFromVolumeNode sampleHost 1 enteredWorld) = Ok None
    /\ truthy None || true = true)
   /\ fst (onApplyButton sampleHost 3 true enteredWorld) = Ok tt
   /\ applyButton_enabled (self (snd (onApplyButton sampleHost 3 true enteredWorld))) = true
   /\ errorBoxes (trace (snd (onApplyButton sampleHost 3 true enteredWorld)))
      = errorBoxes (trace enteredWorld))
  /\ ((fst (convolutionKernelFromVolumeNode silentHost 1 enteredWorld) = Ok None
       /\ testingEnabled silentHost = false)
      /\ fst (onApplyButton silentHost 3 true enteredWorld) = Raise AttributeError
      /\ (let r := onApplyButton silentHost 3 true enteredWorld in
          let text := ("Failed to compute results." ++ newline ++ newline
                       ++ "'NoneType' object has no attribute 'SetTag'")%string in
          applyButton_enabled (self (snd r)) = false
          /\ errorBoxes (trace (snd r)) = errorBoxes (trace enteredWorld) ++ [text]
          /\ last (trace (snd r)) = Some (ErrorDisplay text))).
Proof.
  split.
  - split; [repeat split; vm_compute; reflexivity|].
    split; [vm_compute; reflexivity|].
    pose proof (onApplyButton_button_state sampleHost 3 true enteredWorld 1 None) as H.
    cbv zeta in H.
    replace (fst (onApplyButton sampleHost 3 true enteredWorld)) with (@Ok unit tt) in H
      by (vm_compute; reflexivity).
    apply H; vm_compute; reflexivity.
  - split; [split; vm_compute; reflexivity|].
    split; [vm_compute; reflexivity|].
    pose proof (onApplyButton_button_state silentHost 3 true enteredWorld 1 None) as H.
    cbv zeta in H.
    replace (fst (onApplyButton silentHost 3 true enteredWorld))
      with (@Raise unit AttributeError) in H
      by (vm_compute; reflexivity).
    destruct H as (Hb & Hboxes & Hlast); [vm_compute; reflexivity..|].
    split; [exact Hb|]. split; [exact Hboxes|]. apply Hlast. reflexivity.
Defined.

Lemma initializeParameterNode_shows_selection_witness :
  (flagOff enteredWorld
   /\ moduleParameterNode (scene enteredWorld) = Some 4
   /\ disableModifiedEvent enteredParameterNode = false)
  /\ (let w' := snd (initializeParameterNode 2 enteredWorld) in
      exists p,
        _parameterNode (self w') = Some p
        /\ inputVolumeSelector (self w') = nodeReference (scene w') p "InputVolume"
        /\ inputSeedSelector (self w') = nodeReference (scene w') p "InputSeed"
        /\ applyButton_enabled (self w')
           = isSome (nodeReference (scene w') p "InputVolume")
             && isSome (nodeReference (scene w') p "InputSeed")).
Proof.
  split; [repeat split; vm_compute; reflexivity|].
  apply (initializeParameterNode_shows_selection 0 enteredWorld).
  - vm_compute. reflexivity.
  - intros q n Hq Hn. vm_compute in Hq. injection Hq as <-.
    vm_compute in Hn. injection Hn as <-. reflexivity.
Defined.
